(** * REMEDI benchmarks: a shallow embedding and its verified properties

    The development embeds the evaluation core of the repository:

    - [src/benchmarks.py]: the essence and the classification benchmark;
    - [scripts/benchmark.py]: the benchmark driver ([load_editor],
      [prepend_context], [group_by_id], and of [main] the check of the
      editors directory, the choice of the layers and the per-layer loop).

    Python values are modelled as follows.  A [float] is an IEEE 754 binary64
    number (Rocq's primitive [float]); an [int] is a [Z]; a [str] is a
    [string]; [None]-able arguments are [option]s; a [dict] whose iteration
    order is observed is an association list in insertion order, any other
    [dict] is a [gmap]; an exception is a value of [exn] carried by [result].
    Capabilities the repository consumes from outside (the model, the
    tokenizer, the editor, the metric primitives, the file formats) are the
    fields of type classes. *)

From Stdlib Require Import Floats.
From stdpp Require Import gmap strings list pretty sorting.

Open Scope string_scope.
Open Scope Z_scope.

(** ** Python prelude *)

Module Py.

Inductive exn : Type :=
  | ValueError (msg : string)
  | KeyError (key : string)
  | NameError (name : string)
  | AttributeError (name : string)
  | TypeError (msg : string)
  | IndexError (msg : string)
  | StopIteration
  | OSError (msg : string)
  | RuntimeError (msg : string).

Inductive result (A : Type) : Type :=
  | Ok (a : A)
  | Raise (e : exn).
Arguments Ok {A} a.
Arguments Raise {A} e.

#[global] Instance result_ret : MRet result := fun A a => Ok a.
#[global] Instance result_bind : MBind result := fun A B f m =>
  match m with
  | Ok a => f a
  | Raise e => Raise e
  end.

(** [for x in xs: s = body(x, s)], stopping at the first exception. *)
Fixpoint for_in {A S : Type} (xs : list A) (body : A → S → result S) (s : S)
    : result S :=
  match xs with
  | [] => Ok s
  | x :: xs' => s' ← body x s; for_in xs' body s'
  end.

(** Code that reads and writes a state of type [S] and may raise: the state
    reached when an exception is raised is kept. *)
Definition M (S A : Type) : Type := S → S * result A.

#[global] Instance M_ret {S : Type} : MRet (M S) := fun A a s => (s, Ok a).
#[global] Instance M_bind {S : Type} : MBind (M S) := fun A B f m s =>
  match m s with
  | (s', Ok a) => f a s'
  | (s', Raise e) => (s', Raise e)
  end.

Definition raise {S A : Type} (e : exn) : M S A := fun s => (s, Raise e).
Definition lift {S A : Type} (r : result A) : M S A := fun s => (s, r).
Definition get {S : Type} : M S S := fun s => (s, Ok s).
Definition modify {S : Type} (f : S → S) : M S unit := fun s => (f s, Ok tt).

(** [for x in xs: acc = body(x, acc)] in stateful code. *)
Fixpoint for_inM {S A B : Type} (xs : list A) (body : A → B → M S B) (acc : B)
    : M S B :=
  match xs with
  | [] => mret acc
  | x :: xs' => acc' ← body x acc; for_inM xs' body acc'
  end.

(** [[f(x) for x in xs]] where [f] may raise. *)
Fixpoint comprehension {A B : Type} (f : A → result B) (xs : list A)
    : result (list B) :=
  match xs with
  | [] => Ok []
  | x :: xs' => y ← f x; ys ← comprehension f xs'; Ok (y :: ys)
  end.

(** [a > b] on floats is false as soon as one side is NaN. *)
Definition float_gt (a b : float) : bool := PrimFloat.ltb b a.

(** [zip(xs, ys, zs)] stops at the shortest argument. *)
Fixpoint zip3 {A B C : Type} (xs : list A) (ys : list B) (zs : list C)
    : list (A * B * C) :=
  match xs, ys, zs with
  | x :: xs', y :: ys', z :: zs' => (x, y, z) :: zip3 xs' ys' zs'
  | _, _, _ => []
  end.

(** [xs[start:end]] for [0 <= start <= end]. *)
Definition slice {A : Type} (xs : list A) (start end_ : nat) : list A :=
  take (end_ - start) (drop start xs).

(** Contiguous chunks of [n] elements, the last one possibly shorter; [fuel]
    bounds the number of chunks. *)
Fixpoint chunks_fuel {A : Type} (fuel n : nat) (xs : list A) : list (list A) :=
  match fuel, xs with
  | O, _ | _, [] => []
  | S fuel', _ => take n xs :: chunks_fuel fuel' n (drop n xs)
  end.

Definition chunks {A : Type} (n : nat) (xs : list A) : list (list A) :=
  chunks_fuel (length xs) n xs.

(** [enumerate(xs)]. *)
Definition enumerate {A : Type} (xs : list A) : list (nat * A) :=
  imap (fun i x => (i, x)) xs.

(** [sum(bs)] of a list of booleans. *)
Definition sum_bool (bs : list bool) : Z :=
  fold_right (fun (b : bool) acc => (if b then 1 else 0) + acc) 0 bs.

(** [d[k]] on a [dict] with string keys. *)
Definition getitem {V : Type} (d : gmap string V) (k : string) : result V :=
  match d !! k with
  | Some v => Ok v
  | None => Raise (KeyError k)
  end.

(** [s.count(sub)]: the number of non-overlapping occurrences of [sub] in
    [s], scanning from the left.  [skip] is the number of characters still
    covered by the occurrence found last. *)
Fixpoint is_prefix (p s : string) : bool :=
  match p, s with
  | EmptyString, _ => true
  | String a p', String b s' => if decide (a = b) then is_prefix p' s' else false
  | String _ _, EmptyString => false
  end.

Fixpoint count_from (sub : string) (skip : nat) (s : string) : nat :=
  match s with
  | EmptyString => 0%nat
  | String _ s' =>
      match skip with
      | S k => count_from sub k s'
      | O =>
          if is_prefix sub s
          then S (count_from sub (Nat.pred (String.length sub)) s')
          else count_from sub 0 s'
      end
  end.

Definition count (s sub : string) : nat :=
  match sub with
  | EmptyString => S (String.length s)
  | _ => count_from sub 0 s
  end.

End Py.
Export Py.

(** ** sklearn.metrics on boolean sequences

    [accuracy_score], [f1_score] and [matthews_corrcoef] come from
    scikit-learn.  Each returns the float64 rounding of a quotient of integer
    statistics of the two sequences; the embedding keeps those integers, so
    that two calls with equal embedded values return the same float. *)

Module sklearn.

(** The quotient [num / den]. *)
Record ratio : Type := Ratio { num : Z; den : Z }.

(** The quotient [cov / sqrt var_prod]. *)
Record correlation : Type := Correlation { cov : Z; var_prod : Z }.

#[global] Instance ratio_eq_dec : EqDecision ratio.
Proof. solve_decision. Defined.
#[global] Instance correlation_eq_dec : EqDecision correlation.
Proof. solve_decision. Defined.

(** Number of positions where [y_true] is [t] and [y_pred] is [p]. *)
Fixpoint cell (t p : bool) (y_true y_pred : list bool) : Z :=
  match y_true, y_pred with
  | a :: y_true', b :: y_pred' =>
      (if bool_decide (a = t) && bool_decide (b = p) then 1 else 0)
      + cell t p y_true' y_pred'
  | _, _ => 0
  end.

Definition tp := cell true true.
Definition tn := cell false false.
Definition fp := cell false true.
Definition fn := cell true false.

Definition check_consistent_length {A : Type} (y_true y_pred : list bool)
    (k : A) : result A :=
  if decide (length y_true = length y_pred) then Ok k
  else Raise (ValueError "Found input variables with inconsistent numbers of samples").

(** Fraction of positions where prediction and label agree. *)
Definition accuracy_score (y_true y_pred : list bool) : result ratio :=
  check_consistent_length y_true y_pred
    {| num := tp y_true y_pred + tn y_true y_pred;
       den := Z.of_nat (length y_true) |}.

(** Binary F1 of the positive class [True]; 0 when there is no true
    positive, false positive or false negative at all. *)
Definition f1_score (y_true y_pred : list bool) : result ratio :=
  check_consistent_length y_true y_pred
    (let d := 2 * tp y_true y_pred + fp y_true y_pred + fn y_true y_pred in
     if d =? 0 then {| num := 0; den := 1 |}
     else {| num := 2 * tp y_true y_pred; den := d |}).

(** Matthews correlation coefficient from the confusion matrix [C]:
    [t_sum] are the row sums (true classes), [p_sum] the column sums
    (predicted classes); 0 when one of the two variances vanishes. *)
Definition matthews_corrcoef (y_true y_pred : list bool) : result correlation :=
  check_consistent_length y_true y_pred
    (let t0 := tn y_true y_pred + fp y_true y_pred in
     let t1 := fn y_true y_pred + tp y_true y_pred in
     let p0 := tn y_true y_pred + fn y_true y_pred in
     let p1 := fp y_true y_pred + tp y_true y_pred in
     let n_correct := tn y_true y_pred + tp y_true y_pred in
     let n_samples := p0 + p1 in
     let cov_ytyp := n_correct * n_samples - (t0 * p0 + t1 * p1) in
     let cov_ypyp := n_samples * n_samples - (p0 * p0 + p1 * p1) in
     let cov_ytyt := n_samples * n_samples - (t0 * t0 + t1 * t1) in
     if cov_ypyp * cov_ytyt =? 0 then {| cov := 0; var_prod := 1 |}
     else {| cov := cov_ytyp; var_prod := cov_ytyt * cov_ypyp |}).

End sklearn.

(** ** Data consumed from the rest of the repository *)

Module data.

(** Modelled from the spec: the rewrite request nested in a sample's raw
    provenance ([src/data.py] is not part of the sources); it carries the
    relation identifier and the identifier of the new target. *)
Record RequestedRewrite : Type :=
  { relation_id : string; target_new_id : string }.

Record Source : Type := { requested_rewrite : RequestedRewrite }.

(** Modelled from the spec: a dataset row, a mapping with at least [id],
    [entity], [attribute], [context], [source] and the [prompt] it is
    evaluated on. *)
Record ContextMediationSample : Type :=
  { id : string;
    entity : string;
    prompt : string;
    context : string;
    attribute : string;
    source : Source }.

(** An ordered, indexable collection of samples. *)
Definition Dataset : Type := list ContextMediationSample.

(** Modelled from the spec: a batch of samples as the editor's generation
    call takes it, one sequence per column; [batch_c] is the column [c] and
    the two target columns may be absent. *)
Record ContextMediationBatch : Type :=
  { batch_id : list string;
    batch_source : list Source;
    batch_entity : list string;
    batch_prompt : list string;
    batch_attribute : list string;
    batch_context : list string;
    batch_target_mediated : option (list string);
    batch_target_unmediated : option (list string) }.

End data.

(** Opaque values of the surrounding system: an editor bound to one layer of
    one model, the model with its tokenizer, and a device. *)
Class Externals : Type :=
  { Editor : Type;
    ModelAndTokenizer : Type;
    Device : Type;
    editor_mt : Editor → ModelAndTokenizer;
    editor_layer : Editor → Z }.

Module metrics.

(** Modelled from the spec: the metric primitives of [src/metrics.py], which
    is not part of the sources.  Each is a deterministic function of its
    inputs that may reject them; [Metric] is the summary (mean, standard
    deviation, optional raw values) of one statistic, [scores_json indent]
    is the JSON document of the four summaries of a layer, and
    [load_tfidf_vectorizer] is the loader of the pre-fit vectorizer in
    [src/data.py]. *)
Class MetricsAPI : Type :=
  { Metric : Type;
    Vectorizer : Type;
    efficacy :
      list (list (option float)) → list (list (option float)) → result Metric;
    tfidf_similarity_batch :
      list (list string) → list (list string) → Vectorizer → result Metric;
    average_n_gram_entropy : list (list string) → result Metric;
    tfidf_similarity : string → list string → Vectorizer → result float;
    weighted_n_gram_entropy : string → result float;
    weighted_n_gram_entropy_refs : list string → result float;
    aggregate : list float → bool → result Metric;
    load_tfidf_vectorizer : result Vectorizer;
    scores_json : option Z → Metric → Metric → Metric → Metric → string }.

End metrics.

Module precompute.

(** Modelled from the spec: one row of
    [precompute.classification_inputs_from_dataset] ([src/precompute.py] is
    not part of the sources), with the four log-probabilities of the baseline
    model that [classification] reads; the field [a_b_logp] is the entry
    ["a.b.logp"]. *)
Record ClassificationInputs : Type :=
  { prompt_in_context_target_logp : float;
    prompt_in_context_comparator_logp : float;
    prompt_target_logp : float;
    prompt_comparator_logp : float }.

End precompute.

Module models.

(** Opaque values of the model: encoded inputs, generated token ids, cached
    key/values of a prefix, and the state of the random number generator. *)
Class Tensors : Type :=
  { Inputs : Type;
    Outputs : Type;
    KeyValues : Type;
    Rng : Type }.

(** One application of an editor to the model: the editor, its two blend
    coefficients and the device. *)
Record Edit `{Externals} : Type :=
  { edit_editor : Editor;
    edit_alpha : float;
    edit_beta : float;
    edit_device : option Device }.

(** The arguments of [mt.model.generate]. *)
Record GenerateArgs `{Tensors} : Type :=
  { gen_inputs : Inputs;
    gen_use_cache : bool;
    gen_past_key_values : option KeyValues;
    gen_max_new_tokens : option Z;
    gen_max_length : option Z }.

(** The arguments of [edited_mt.model.generate]. *)
Record EditedGenerateArgs `{Tensors} : Type :=
  { egen_batch : data.ContextMediationBatch;
    egen_inputs : Inputs;
    egen_max_new_tokens : option Z;
    egen_max_length : option Z;
    egen_past_key_values_for_batch : option KeyValues;
    egen_use_cache : bool }.

(** The model and tokenizer capability.  What the model computes depends on
    the edits applied to it at the time of the call; generation also reads
    and advances the random number generator. *)
Class ModelAPI `{Externals} `{Tensors} : Type :=
  { tokenizer : ModelAndTokenizer → string → option Device → Inputs;
    inputs_from_batch : ModelAndTokenizer → list string → option Device → Inputs;
    expand : KeyValues → nat → KeyValues;
    forward : ModelAndTokenizer → list Edit → Inputs → result KeyValues;
    generate :
      ModelAndTokenizer → list Edit → Rng → GenerateArgs → result Outputs * Rng;
    generate_edited :
      ModelAndTokenizer → list Edit → Rng → EditedGenerateArgs → result Outputs * Rng;
    batch_decode : ModelAndTokenizer → Outputs → list string;
    format : string → string → result string }.

(** A computation of the model. *)
Inductive ModelCall `{Tensors} : Type :=
  | Forward (inputs : Inputs)
  | Generate (args : GenerateArgs)
  | GenerateEdited (args : EditedGenerateArgs).

(** The state of the model: the edits applied to it (innermost first), the
    random number generator, and the computations made so far, oldest first,
    each with the edits that were applied when it ran. *)
Record World `{Externals} `{Tensors} : Type :=
  { active_edits : list Edit;
    rng : Rng;
    calls : list (list Edit * ModelCall) }.

Section model.
Context `{ModelAPI}.

Definition pure {A : Type} (r : result A) : M World A := lift r.

(** The [past_key_values] of a forward pass of [mt.model] with [use_cache]. *)
Definition model_forward (mt : ModelAndTokenizer) (inputs : Inputs)
    : M World KeyValues :=
  fun w =>
    ({| active_edits := active_edits w;
        rng := rng w;
        calls := (calls w ++ [(active_edits w, Forward inputs)])%list |},
     forward mt (active_edits w) inputs).

(** [mt.model.generate(...)]. *)
Definition model_generate (mt : ModelAndTokenizer) (args : GenerateArgs)
    : M World Outputs :=
  fun w =>
    let '(r, rng') := generate mt (active_edits w) (rng w) args in
    ({| active_edits := active_edits w;
        rng := rng';
        calls := (calls w ++ [(active_edits w, Generate args)])%list |}, r).

(** [edited_mt.model.generate(batch, ...)]. *)
Definition model_generate_edited (mt : ModelAndTokenizer)
    (args : EditedGenerateArgs) : M World Outputs :=
  fun w =>
    let '(r, rng') := generate_edited mt (active_edits w) (rng w) args in
    ({| active_edits := active_edits w;
        rng := rng';
        calls := (calls w ++ [(active_edits w, GenerateEdited args)])%list |}, r).

(** A trace entry ran under the edits [unedited], or, for a generation call
    through the handle of a scope, under [edit] on top of them. *)
Definition ran_under (unedited : list Edit) (edit : Edit)
    (entry : list Edit * ModelCall) : Prop :=
  match entry.2 with
  | GenerateEdited _ => entry.1 = edit :: unedited
  | _ => entry.1 = unedited
  end.

(** A trace entry that is a generation call was given the two caps
    [max_new_tokens] and [max_length]. *)
Definition capped (max_new_tokens max_length : option Z)
    (entry : list Edit * ModelCall) : Prop :=
  match entry.2 with
  | Forward _ => True
  | Generate args =>
      gen_max_new_tokens args = max_new_tokens ∧ gen_max_length args = max_length
  | GenerateEdited args =>
      egen_max_new_tokens args = max_new_tokens ∧ egen_max_length args = max_length
  end.

(** Stateful code that, started with the edits [unedited] applied, ends with
    the same edits applied, whether it returns or raises, and adds to the
    trace only entries that satisfy [P]. *)
Definition keeps {A : Type} (unedited : list Edit)
    (P : list Edit * ModelCall → Prop) (m : M World A) : Prop :=
  ∀ w, active_edits w = unedited →
    active_edits (m w).1 = unedited
    ∧ ∃ new, calls (m w).1 = (calls w ++ new)%list ∧ Forall P new.

(** The ID columns of the batches passed to the edited generation call, in
    the order of the calls of a trace. *)
Definition edited_batch_ids (trace : list (list Edit * ModelCall))
    : list (list string) :=
  omap (fun entry : list Edit * ModelCall =>
          match entry.2 with
          | GenerateEdited args => Some (data.batch_id (egen_batch args))
          | _ => None
          end) trace.

(** What a trace entry shows of the caps: for a generation call the two
    caps it was given, and for an edited one also the ID column of its
    batch. *)
Inductive CallSummary : Type :=
  | ForwardPass
  | Generation (max_new_tokens max_length : option Z)
  | EditedGeneration (ids : list string) (max_new_tokens max_length : option Z).

Definition call_summary (entry : list Edit * ModelCall) : CallSummary :=
  match entry.2 with
  | Forward _ => ForwardPass
  | Generate args => Generation (gen_max_new_tokens args) (gen_max_length args)
  | GenerateEdited args =>
      EditedGeneration (data.batch_id (egen_batch args))
        (egen_max_new_tokens args) (egen_max_length args)
  end.

End model.

End models.

Module editors.

(** Modelled from the spec: [editors.EditorClassificationResult]
    ([src/editors.py] is not part of the sources), with the fields that
    [classification] reads. *)
Record EditorClassificationResult : Type :=
  { sample : data.ContextMediationSample;
    score_mediated : float;
    score_unmediated : float }.

(** Modelled from the spec: one per-sample result of [editor.evaluate]
    ([src/editors.py] is not part of the sources): the raw sample plus the
    scores and generated texts after the edit, each absent when it was not
    requested.  [result_sample] is the attribute [sample]. *)
Record EditorEvaluateResult : Type :=
  { result_sample : data.ContextMediationSample;
    after_generations : option (list string);
    after_target_mediated_score : option float;
    after_target_unmediated_score : option float }.

(** Modelled from the spec: the output of evaluation over one dataset subset,
    an ordered sequence of per-sample results. *)
Record EditorEvaluateRun : Type :=
  { results : list EditorEvaluateResult }.

(** The capabilities [classification] consumes.  [kwargs] are the extra
    keyword arguments it forwards to [editor.classify]; the list returned by
    [classify] is the [results] attribute of the run. *)
Class ClassifyAPI `{Externals} : Type :=
  { Kwargs : Type;
    classification_inputs_from_dataset :
      ModelAndTokenizer → data.Dataset → list Z → Z → option Device → string →
      result (list precompute.ClassificationInputs);
    classify :
      Editor → data.Dataset → string → Z → option Device → string → Kwargs →
      result (list EditorClassificationResult) }.

(** Modelled from the spec: [editors.apply], the scoped application of an
    editor ([src/editors.py] is not part of the sources).  Entering the scope
    applies the editor's transformation, with its two coefficients, to the
    model; the block runs on the handle the scope yields; leaving the scope,
    whether the block returned or raised, restores the model as it was when
    the scope was entered. *)
Definition apply `{models.ModelAPI} {A : Type} (editor : Editor)
    (alpha beta : float) (device : option Device)
    (block : ModelAndTokenizer → M models.World A) : M models.World A :=
  fun w =>
    let saved := models.active_edits w in
    let edit :=
      {| models.edit_editor := editor;
         models.edit_alpha := alpha;
         models.edit_beta := beta;
         models.edit_device := device |} in
    let '(w', r) :=
      block (editor_mt editor)
        {| models.active_edits := edit :: saved;
           models.rng := models.rng w;
           models.calls := models.calls w |} in
    ({| models.active_edits := saved;
        models.rng := models.rng w';
        models.calls := models.calls w' |}, r).

End editors.

(** ** src/benchmarks.py: the classification benchmark *)

Module benchmarks.

Definition DEFAULT_PROMPT_PREFIX : string :=
  "The following is an except from a Wikipedia article:"
  ++ String (Ascii.ascii_of_nat 10) (String (Ascii.ascii_of_nat 10) EmptyString).
Definition DEFAULT_PROMPT_TEMPLATE : string := "{} is".
Definition DEFAULT_MAX_LENGTH : Z := 100.

(** Wrapper around a single classifier sample. *)
Record ClassifierOutputs : Type :=
  { logp_target : float;
    logp_comparator : float;
    score_target : float;
    score_comparator : float }.

Definition label (self : ClassifierOutputs) : bool :=
  float_gt (logp_target self) (logp_comparator self).

Definition prediction (self : ClassifierOutputs) : bool :=
  float_gt (score_target self) (score_comparator self).

Definition correct (self : ClassifierOutputs) : bool :=
  bool_decide (prediction self = label self).

(** Wrapper around a single classification sample. *)
Record ClassificationSample : Type :=
  { id : string;
    contextual : ClassifierOutputs;
    decontextual : ClassifierOutputs }.

(** Wrapper around all classification scores. *)
Record ClassifierMetrics : Type :=
  { f1 : sklearn.ratio;
    mcc : sklearn.correlation;
    accuracy : sklearn.ratio }.

(** Wraps results for a specific classifier. *)
Record ClassifierResults : Type :=
  { results_contextual : ClassifierMetrics;
    results_decontextual : ClassifierMetrics }.

Record ClassificationBenchmarkResults : Type :=
  { samples : list ClassificationSample;
    editor : ClassifierResults;
    baseline : ClassifierResults }.

(** [getattr(sample, key)] for the two attributes that hold classifier
    outputs. *)
Definition getattr (sample : ClassificationSample) (key : string)
    : result ClassifierOutputs :=
  if decide (key = "contextual") then Ok (contextual sample)
  else if decide (key = "decontextual") then Ok (decontextual sample)
  else Raise (AttributeError key).

(** [[getattr(sample, key).attr for sample in samples]]. *)
Fixpoint getattrs {A : Type} (attr : ClassifierOutputs → A) (key : string)
    (samples : list ClassificationSample) : result (list A) :=
  match samples with
  | [] => Ok []
  | sample :: samples' =>
      o ← getattr sample key;
      rest ← getattrs attr key samples';
      Ok (attr o :: rest)
  end.

(** The sample built from one element of
    [zip(precomputed, runs["contextual"], runs["decontextual"])]. *)
Definition make_sample
    (item : precompute.ClassificationInputs
            * editors.EditorClassificationResult
            * editors.EditorClassificationResult) : ClassificationSample :=
  let '(pre, rc, rd) := item in
  {| id := data.id (editors.sample rc);
     contextual :=
       {| logp_target := precompute.prompt_in_context_target_logp pre;
          logp_comparator := precompute.prompt_in_context_comparator_logp pre;
          score_target := editors.score_mediated rc;
          score_comparator := editors.score_unmediated rc |};
     decontextual :=
       {| logp_target := precompute.prompt_target_logp pre;
          logp_comparator := precompute.prompt_comparator_logp pre;
          score_target := editors.score_unmediated rd;
          score_comparator := editors.score_mediated rd |} |}.

(** The body of the loop over methods and tasks.  [key] is whatever the
    variable [key] of the enclosing function is bound to at this point
    ([None] when it is unbound): the body reads [key], not [task], to select
    the classifier outputs. *)
Definition task_metrics (key : option string) (method task : string)
    (samples : list ClassificationSample) : result ClassifierMetrics :=
  key ← match key with
        | Some key => Ok key
        | None => Raise (NameError "key")
        end;
  y_true ← getattrs label key samples;
  y_pred ← getattrs prediction key samples;
  (* In the baseline case, pick the majority label for everything:
     [sum(y_true) >= len(y_true) / 2]. *)
  let y_pred :=
    if decide (method = "baseline") then
      let majority := Z.of_nat (length y_true) <=? 2 * sum_bool y_true in
      replicate (length y_true) majority
    else y_pred in
  (* In the contextual case both sequences are negated. *)
  let y_true := if decide (task = "contextual") then negb <$> y_true else y_true in
  let y_pred := if decide (task = "contextual") then negb <$> y_pred else y_pred in
  accuracy ← sklearn.accuracy_score y_true y_pred;
  f1 ← sklearn.f1_score y_true y_pred;
  mcc ← sklearn.matthews_corrcoef y_true y_pred;
  Ok {| f1 := f1; mcc := mcc; accuracy := accuracy |}.

(** [ClassifierResults] built from a dictionary of keyword arguments. *)
Definition make_ClassifierResults (kwargs : gmap string ClassifierMetrics)
    : result ClassifierResults :=
  match kwargs !! "contextual", kwargs !! "decontextual" with
  | Some c, Some d =>
      if decide (size kwargs = 2%nat)
      then Ok {| results_contextual := c; results_decontextual := d |}
      else Raise (TypeError "unexpected keyword argument")
  | _, _ => Raise (TypeError "missing required argument")
  end.

Section classification.
Context `{editors.ClassifyAPI}.

(** The first loop: one classification run per key.  The state of the loop
    is the dictionary [runs] together with the binding of the loop variable
    [key], which Python leaves in place when the loop ends. *)
Definition classify_runs (editor : Editor) (dataset : data.Dataset)
    (batch_size : Z) (desc : string) (device : option Device)
    (kwargs : editors.Kwargs)
    : result (gmap string (list editors.EditorClassificationResult) * option string) :=
  for_in ["contextual"; "decontextual"]
    (fun key '(runs, _) =>
       results ← editors.classify editor dataset
         (if decide (key = "contextual") then "prompt_in_context" else "prompt")
         batch_size device (desc ++ " [classify " ++ key ++ "]") kwargs;
       Ok (<[key := results]> runs, Some key))
    (∅, None).

(** The loop over methods and tasks, filling
    [benchmark_results_kwargs[method][task]]. *)
Definition score_tasks (key : option string)
    (samples : list ClassificationSample)
    : result (gmap string (gmap string ClassifierMetrics)) :=
  for_in ["editor"; "baseline"]
    (fun method kwargs =>
       for_in ["contextual"; "decontextual"]
         (fun task kwargs =>
            m ← task_metrics key method task samples;
            Ok (<[method := <[task := m]> (default ∅ (kwargs !! method))]> kwargs))
         kwargs)
    ∅.

(** Measure how well the editor acts as a classifier. *)
Definition classification (editor : Editor) (dataset : data.Dataset)
    (batch_size : Z) (desc : option string) (device : option Device)
    (kwargs : editors.Kwargs) : result ClassificationBenchmarkResults :=
  let desc := default "classification benchmark" desc in
  precomputed ← editors.classification_inputs_from_dataset
    (editor_mt editor) dataset [editor_layer editor] batch_size device
    (desc ++ " [compute reps]");
  '(runs, key) ← classify_runs editor dataset batch_size desc device kwargs;
  runs_contextual ← getitem runs "contextual";
  runs_decontextual ← getitem runs "decontextual";
  let samples :=
    make_sample <$> zip3 precomputed runs_contextual runs_decontextual in
  benchmark_results_kwargs ← score_tasks key samples;
  editor_kwargs ← getitem benchmark_results_kwargs "editor";
  baseline_kwargs ← getitem benchmark_results_kwargs "baseline";
  editor_results ← make_ClassifierResults editor_kwargs;
  baseline_results ← make_ClassifierResults baseline_kwargs;
  Ok {| samples := samples;
        editor := editor_results;
        baseline := baseline_results |}.

End classification.

(** ** src/benchmarks.py: the essence benchmark

    The state of this file is the model: the edits applied to it, its random
    number generator and the trace of its computations.  Records passed to
    the logger and the progress bar are not part of it.  The argument
    [pad_token_id] of the unedited generation call is read from the
    tokenizer of the model and is not listed in [GenerateArgs]. *)

(** Single sample from the essence benchmark; [essence_sample_id] is the
    field [id]. *)
Record EssenceSample : Type :=
  { essence_sample_id : string;
    generation : string;
    references : list string;
    essence_score : float;
    fluency_generation_score : float;
    fluency_references_score : float }.

(** Wrapper around essence benchmark metrics; [essence_metric] is the field
    [essence]. *)
Record EssenceMetrics `{metrics.MetricsAPI} : Type :=
  { essence_metric : metrics.Metric;
    fluency_generaton : metrics.Metric;
    fluency_references : metrics.Metric }.

(** Essence benchmark results. *)
Record EssenceBenchmarkResults `{metrics.MetricsAPI} : Type :=
  { essence_samples : list EssenceSample;
    essence_metrics : EssenceMetrics }.

(** The five lists the loop over the batches extends. *)
Record EssenceLists : Type :=
  { generations : list string;
    reference_groups : list (list string);
    essence_scores : list float;
    fluency_generation_scores : list float;
    fluency_references_scores : list float }.

(** [torch.utils.data.DataLoader(dataset, batch_size=batch_size)]: contiguous
    batches in dataset order. *)
Definition DataLoader (dataset : data.Dataset) (batch_size : Z)
    : result (list (list data.ContextMediationSample)) :=
  if batch_size <=? 0
  then Raise (ValueError "batch_size should be a positive integer value")
  else Ok (chunks (Z.to_nat batch_size) dataset).

(** The two argument checks at the top of [essence]. *)
Definition essence_validate (dataset : data.Dataset) (prompt_template : string)
    (use_references : option (list (list string))) : result unit :=
  if decide (count prompt_template "{}" ≠ 1%nat) then
    Raise (ValueError ("prompt template needs 1 empty slot: " ++ prompt_template))
  else
    match use_references with
    | Some use_references =>
        if decide (length use_references ≠ length dataset) then
          Raise (ValueError
            ("size mismatch: use_references=" ++ pretty (length use_references)
             ++ ", dataset=" ++ pretty (length dataset)))
        else Ok tt
    | None => Ok tt
    end.

Section essence.
Context `{models.ModelAPI} `{metrics.MetricsAPI}.

(** The body of the loop over the samples of a batch: the three scores of
    one generation and its references. *)
Definition score_sample (tfidf_vectorizer : metrics.Vectorizer)
    (item : data.ContextMediationSample * string * list string)
    (scores : list float * list float * list float)
    : result (list float * list float * list float) :=
  let '(_, generation, references) := item in
  let '(essence_scores, fluency_generation_scores, fluency_references_scores) :=
    scores in
  essence_score ← metrics.tfidf_similarity generation references tfidf_vectorizer;
  fluency_generation_score ← metrics.weighted_n_gram_entropy generation;
  fluency_references_score ← metrics.weighted_n_gram_entropy_refs references;
  Ok ((essence_scores ++ [essence_score])%list,
      (fluency_generation_scores ++ [fluency_generation_score])%list,
      (fluency_references_scores ++ [fluency_references_score])%list).

(** The body of the loop over the batches. *)
Definition essence_batch (editor : Editor) (alpha beta : float) (batch_size : Z)
    (prompt_template : string) (max_new_tokens max_length : option Z)
    (use_references : option (list (list string)))
    (tfidf_vectorizer : metrics.Vectorizer) (device : option Device)
    (past_key_values : option models.KeyValues)
    (item : nat * list data.ContextMediationSample) (lists : EssenceLists)
    : M models.World EssenceLists :=
  let batch_index := item.1 in
  let batch := item.2 in
  let ids := data.id <$> batch in
  let entities := data.entity <$> batch in
  let attributes := data.attribute <$> batch in
  prompts ← models.pure (comprehension (models.format prompt_template) entities);
  let past_key_values_for_batch :=
    (fun kvs => models.expand kvs (length entities)) <$> past_key_values in
  let inputs := models.inputs_from_batch (editor_mt editor) prompts device in
  batch_reference_groups ←
    match use_references return M models.World (list (list string)) with
    | None =>
        outputs ← models.model_generate (editor_mt editor)
          {| models.gen_inputs := inputs;
             models.gen_use_cache := bool_decide (is_Some past_key_values_for_batch);
             models.gen_past_key_values := past_key_values_for_batch;
             models.gen_max_new_tokens := max_new_tokens;
             models.gen_max_length := max_length |};
        mret ((fun r => [r]) <$> models.batch_decode (editor_mt editor) outputs)
    | Some use_references =>
        let start := Z.to_nat (Z.of_nat batch_index * batch_size) in
        let end_ := (start + length entities)%nat in
        mret (slice use_references start end_)
    end;
  outputs ← editors.apply editor alpha beta device (fun edited_mt =>
    models.model_generate_edited edited_mt
      {| models.egen_batch :=
           {| data.batch_id := ids;
              data.batch_source := data.source <$> batch;
              data.batch_entity := entities;
              data.batch_prompt := prompts;
              data.batch_attribute := attributes;
              data.batch_context := data.context <$> batch;
              data.batch_target_mediated := None;
              data.batch_target_unmediated := None |};
         models.egen_inputs := inputs;
         models.egen_max_new_tokens := max_new_tokens;
         models.egen_max_length := max_length;
         models.egen_past_key_values_for_batch := past_key_values_for_batch;
         models.egen_use_cache := bool_decide (is_Some past_key_values_for_batch) |});
  let batch_generations := models.batch_decode (editor_mt editor) outputs in
  scores ← models.pure
    (for_in (zip3 batch batch_generations batch_reference_groups)
       (score_sample tfidf_vectorizer)
       (essence_scores lists, fluency_generation_scores lists,
        fluency_references_scores lists));
  mret
    {| generations := (generations lists ++ batch_generations)%list;
       reference_groups := (reference_groups lists ++ batch_reference_groups)%list;
       essence_scores := scores.1.1;
       fluency_generation_scores := scores.1.2;
       fluency_references_scores := scores.2 |}.

(** [essence] from the defaults on, once its arguments are checked. *)
Definition essence_run (editor : Editor) (dataset : data.Dataset)
    (alpha beta : float) (batch_size : Z) (prompt_prefix : option string)
    (prompt_template : string) (max_new_tokens max_length : option Z)
    (use_references : option (list (list string)))
    (tfidf_vectorizer : option metrics.Vectorizer) (desc : option string)
    (device : option Device) : M models.World EssenceBenchmarkResults :=
  let max_length :=
    if bool_decide (max_length = None) && bool_decide (max_new_tokens = None)
    then Some DEFAULT_MAX_LENGTH else max_length in
  tfidf_vectorizer ←
    match tfidf_vectorizer return M models.World metrics.Vectorizer with
    | None => models.pure metrics.load_tfidf_vectorizer
    | Some tfidf_vectorizer => mret tfidf_vectorizer
    end;
  let desc := default "essence benchmark" desc in
  (* Precompute key/values for prompt prefix. *)
  past_key_values ←
    match prompt_prefix return M models.World (option models.KeyValues) with
    | None => mret None
    | Some prompt_prefix =>
        let inputs := models.tokenizer (editor_mt editor) prompt_prefix device in
        kvs ← models.model_forward (editor_mt editor) inputs;
        mret (Some kvs)
    end;
  loader ← models.pure (DataLoader dataset batch_size);
  lists ← for_inM (enumerate loader)
    (essence_batch editor alpha beta batch_size prompt_template max_new_tokens
       max_length use_references tfidf_vectorizer device past_key_values)
    {| generations := []; reference_groups := []; essence_scores := [];
       fluency_generation_scores := []; fluency_references_scores := [] |};
  let samples :=
    (fun '(sample, (generation, (references, (essence_score,
           (fluency_generation_score, fluency_references_score))))) =>
       {| essence_sample_id := data.id sample;
          generation := generation;
          references := references;
          essence_score := essence_score;
          fluency_generation_score := fluency_generation_score;
          fluency_references_score := fluency_references_score |})
    <$> zip dataset (zip (generations lists) (zip (reference_groups lists)
          (zip (essence_scores lists) (zip (fluency_generation_scores lists)
             (fluency_references_scores lists))))) in
  essence_metric ← models.pure (metrics.aggregate (essence_scores lists) false);
  fluency_generaton ← models.pure
    (metrics.aggregate (fluency_generation_scores lists) false);
  fluency_references ← models.pure
    (metrics.aggregate (fluency_references_scores lists) false);
  mret
    {| essence_samples := samples;
       essence_metrics :=
         {| essence_metric := essence_metric;
            fluency_generaton := fluency_generaton;
            fluency_references := fluency_references |} |}.

(** The cap on the length that [essence] passes to generation. *)
Definition effective_max_length (max_new_tokens max_length : option Z) : option Z :=
  match max_length, max_new_tokens with
  | None, None => Some DEFAULT_MAX_LENGTH
  | _, _ => max_length
  end.

(** What every model computation of [essence] satisfies. *)
Definition essence_call (unedited : list models.Edit) (editor : Editor)
    (alpha beta : float) (device : option Device)
    (max_new_tokens max_length : option Z) (entry : list models.Edit * models.ModelCall) : Prop :=
  models.ran_under unedited
    {| models.edit_editor := editor; models.edit_alpha := alpha;
       models.edit_beta := beta; models.edit_device := device |} entry
  ∧ models.capped max_new_tokens max_length entry.

(** The computations [essence] has a use for: a forward pass only for the
    key/values of a prompt prefix, an unedited generation call only for
    references that were not supplied. *)
Definition essence_needed (prompt_prefix : option string)
    (use_references : option (list (list string)))
    (entry : list models.Edit * models.ModelCall) : Prop :=
  match entry.2 with
  | models.Forward _ => is_Some prompt_prefix
  | models.Generate _ => use_references = None
  | models.GenerateEdited _ => True
  end.

(** Measures how well the editor preserves the edited entity's essence. *)
Definition essence (editor : Editor) (dataset : data.Dataset)
    (alpha beta : float) (batch_size : Z) (prompt_prefix : option string)
    (prompt_template : string) (max_new_tokens max_length : option Z)
    (use_references : option (list (list string)))
    (tfidf_vectorizer : option metrics.Vectorizer) (desc : option string)
    (device : option Device) : M models.World EssenceBenchmarkResults :=
  models.pure (essence_validate dataset prompt_template use_references);;
  essence_run editor dataset alpha beta batch_size prompt_prefix prompt_template
    max_new_tokens max_length use_references tfidf_vectorizer desc device.

End essence.

End benchmarks.

(** ** scripts/benchmark.py: the benchmark driver *)

Module pathlib.

(** A path is the list of its components; [p / c] appends one. *)
Definition Path : Type := list string.
Definition div (p : Path) (c : string) : Path := (p ++ [c])%list.
Definition parent (p : Path) : Path := removelast p.

(** [str(p)]. *)
Definition str (p : Path) : string :=
  match p with
  | [] => "."
  | c :: cs => fold_left (fun acc c' => acc ++ "/" ++ c') cs c
  end.

(** The directories [mkdir(parents=True)] makes sure exist: every non-empty
    prefix of the path. *)
Fixpoint ancestors_and_self (p : Path) : list Path :=
  match p with
  | [] => []
  | c :: cs => [c] :: ((c ::.) <$> ancestors_and_self cs)
  end.

End pathlib.

Notation "p // c" := (pathlib.div p c) (at level 40, left associativity).


Module scripts_benchmark.

Import pathlib.

Inductive level : Type := DEBUG | INFO | WARNING.

(** The keyword arguments of one call of [editor.evaluate]. *)
Record EvaluateArgs `{Externals} : Type :=
  { ev_editor : Editor;
    ev_dataset : data.Dataset;
    ev_batch_size : Z;
    ev_device : option Device;
    ev_desc : string;
    ev_return_before : bool;
    ev_return_after : bool;
    ev_max_new_tokens : option Z;
    ev_max_length : option Z }.

(** The part of the world the driver acts on: regular files with their
    contents, directories, the records passed to the loggers, and the calls
    made to [torch.load] and to [editor.evaluate], oldest first. *)
Record World `{Externals} : Type :=
  { files : gmap Path string;
    dirs : gset Path;
    log : list (level * string);
    weight_loads : list Path;
    evaluate_calls : list EvaluateArgs }.

(** The capabilities the driver consumes: the registry of editor factories,
    moving an editor to a device, decoding a weights file, loading weights
    into an editor, evaluating an editor over a dataset, and the persistence
    format of an [EditorEvaluateRun]. *)
Class DriverAPI `{Externals} : Type :=
  { StateDict : Type;
    SUPPORTED_EDITORS : gmap string (ModelAndTokenizer → Z → Editor);
    editor_to : Editor → option Device → Editor;
    torch_load : string → option Device → result StateDict;
    load_state_dict : Editor → StateDict → result Editor;
    evaluate : EvaluateArgs → result editors.EditorEvaluateRun;
    to_json : editors.EditorEvaluateRun → string;
    from_json : string → result editors.EditorEvaluateRun }.

Section world.
Context `{Externals}.

(** A computation that does not touch the world. *)
Definition pure {A : Type} (r : result A) : M World A := lift r.

(** The world after one more record has been logged. *)
Definition logged (lvl : level) (msg : string) (w : World) : World :=
  {| files := files w; dirs := dirs w; log := (log w ++ [(lvl, msg)])%list;
     weight_loads := weight_loads w; evaluate_calls := evaluate_calls w |}.

Definition logger (lvl : level) (msg : string) : M World unit :=
  modify (logged lvl msg).

(** A path is present in a world as a regular file or as a directory. *)
Definition present (w : World) (p : Path) : bool :=
  bool_decide (is_Some (files w !! p)) || bool_decide (p ∈ dirs w).

(** [p.exists()]. *)
Definition exists_ (p : Path) : M World bool :=
  w ← get;
  mret (present w p).

(** [p.open("r").read()]. *)
Definition read_text (p : Path) : M World string :=
  w ← get;
  match files w !! p with
  | Some content => mret content
  | None => raise (OSError ("cannot read " ++ str p))
  end.

(** [p.mkdir(exist_ok=True, parents=True)]: it fails when the path or one of
    its ancestors is a regular file. *)
Definition mkdir (p : Path) : M World unit :=
  w ← get;
  if bool_decide (Exists (fun q => is_Some (files w !! q)) (ancestors_and_self p))
  then raise (OSError ("not a directory: " ++ str p))
  else
    modify (fun w : World =>
      {| files := files w;
         dirs := dirs w ∪ list_to_set (ancestors_and_self p);
         log := log w; weight_loads := weight_loads w;
         evaluate_calls := evaluate_calls w |}).

(** [p.open("w").write(content)]. *)
Definition write_text (p : Path) (content : string) : M World unit :=
  w ← get;
  if bool_decide (p ∈ dirs w)
  then raise (OSError ("is a directory: " ++ str p))
  else if bool_decide (p ≠ [] ∧ parent p ≠ [] ∧ parent p ∉ dirs w)
  then raise (OSError ("no such directory: " ++ str (parent p)))
  else
    modify (fun w : World =>
      {| files := <[p := content]> (files w); dirs := dirs w; log := log w;
         weight_loads := weight_loads w; evaluate_calls := evaluate_calls w |}).

End world.

(** Modelled from the spec: one snippet of the external corpus keyed by a
    relation identifier and a target identifier ([data.load_attribute_snippets]
    is not part of the sources). *)
Record Snippet : Type := { text : string }.

(** What [main] has set up when it enters the loop over the layers. *)
Record Setup `{Externals} `{metrics.MetricsAPI} : Type :=
  { editor_type : string;
    editors_dir : option Path;
    device : option Device;
    mt : ModelAndTokenizer;
    prompts : data.Dataset;
    paraphrase_prompts : data.Dataset;
    generation_prompts : data.Dataset;
    attribute_snippets : gmap string (gmap string (list Snippet));
    tfidf_vectorizer : metrics.Vectorizer;
    results_dir : Path;
    args_batch_size : Z;
    args_max_length : Z }.

(** [grouped[k].append(v)] on a [defaultdict(list)]: a missing key is added
    after the existing ones, with the one-element list. *)
Fixpoint defaultdict_append {V : Type} (grouped : list (string * list V))
    (k : string) (v : V) : list (string * list V) :=
  match grouped with
  | [] => [(k, [v])]
  | (k', vs) :: grouped' =>
      if decide (k = k') then (k', (vs ++ [v])%list) :: grouped'
      else (k', vs) :: defaultdict_append grouped' k v
  end.

(** Group results by sample ID. *)
Definition group_by_id (results : editors.EditorEvaluateRun)
    : list (string * list editors.EditorEvaluateResult) :=
  fold_left
    (fun grouped result =>
       defaultdict_append grouped (data.id (editors.result_sample result)) result)
    (editors.results results) [].

(** The distinct elements of a sequence in the order in which each occurs
    first: the order of groups that grouping is specified to have. *)
Fixpoint first_occurrences (ids : list string) : list string :=
  match ids with
  | [] => []
  | k :: ids' => k :: filter (fun k' => k' ≠ k) (first_occurrences ids')
  end.

(** [d.values()]. *)
Definition values {K V : Type} (d : list (K * V)) : list V := snd <$> d.

(** The target of [for [sample] in ...]. *)
Definition unpack1 {A : Type} (xs : list A) : result A :=
  match xs with
  | [x] => Ok x
  | [] => Raise (ValueError "not enough values to unpack (expected 1, got 0)")
  | _ => Raise (ValueError "too many values to unpack (expected 1)")
  end.

(** [sample.after_generations[0]]. *)
Definition first_generation (sample : editors.EditorEvaluateResult) : result string :=
  match editors.after_generations sample with
  | None => Raise (TypeError "'NoneType' object is not subscriptable")
  | Some [] => Raise (IndexError "list index out of range")
  | Some (g :: _) => Ok g
  end.

(** [next(iter(samples))]. *)
Definition next_iter {A : Type} (xs : list A) : result A :=
  match xs with
  | x :: _ => Ok x
  | [] => Raise StopIteration
  end.

Section driver.
Context `{DriverAPI} `{metrics.MetricsAPI}.

Definition editor_evaluate (args : EvaluateArgs) : M World editors.EditorEvaluateRun :=
  modify (fun w : World =>
    {| files := files w; dirs := dirs w; log := log w;
       weight_loads := weight_loads w;
       evaluate_calls := (evaluate_calls w ++ [args])%list |});;
  pure (evaluate args).

(** [torch.load(weights_file, map_location=device)]. *)
Definition torch_load_file (weights_file : Path) (device : option Device)
    : M World StateDict :=
  modify (fun w : World =>
    {| files := files w; dirs := dirs w; log := log w;
       weight_loads := (weight_loads w ++ [weights_file])%list;
       evaluate_calls := evaluate_calls w |});;
  content ← read_text weights_file;
  pure (torch_load content device).

(** Load editor of given type from the directory, assuming default options. *)
Definition load_editor (editor_type : string) (mt : ModelAndTokenizer)
    (layer : Z) (editors_dir : option Path) (device : option Device)
    : M World (option Editor) :=
  editor_factory ← pure (getitem SUPPORTED_EDITORS editor_type);
  let editor := editor_factory mt layer in
  let editor := editor_to editor device in
  if decide (editor_type ≠ "identity") then
    match editors_dir with
    | None =>
        logger WARNING "editors_dir not specified for non-identity editor";;
        mret None
    | Some editors_dir =>
        let weights_file :=
          editors_dir // editor_type // pretty layer // "weights.pth" in
        found ← exists_ weights_file;
        if negb found then
          logger WARNING
            ("weights expected at " ++ str weights_file ++ " but not found");;
          mret None
        else
          logger INFO ("loading editor weights from " ++ str weights_file);;
          state_dict ← torch_load_file weights_file device;
          editor ← pure (load_state_dict editor state_dict);
          mret (Some editor)
    end
  else mret (Some editor).

Context (setup : Setup).

(** The three subsets with the keyword arguments each is evaluated with:
    [(max_new_tokens, max_length)]. *)
Definition subsets : list (string * data.Dataset * (option Z * option Z)) :=
  [ ("prompts", prompts setup, (Some 1, None));
    ("paraphrase_prompts", paraphrase_prompts setup, (Some 1, None));
    ("generation_prompts", generation_prompts setup,
     (None, Some (args_max_length setup))) ].

Definition results_file (layer : Z) (key : string) : Path :=
  results_dir setup // pretty layer // (key ++ "_results.json").

(** The body of the loop over the subsets: load the persisted run of the
    subset when its results file exists, evaluate and persist otherwise. *)
Definition evaluate_subset (editor : Editor) (layer : Z)
    (item : string * data.Dataset * (option Z * option Z))
    (results : gmap string editors.EditorEvaluateRun)
    : M World (gmap string editors.EditorEvaluateRun) :=
  let '(key, subset, (max_new_tokens, max_length)) := item
    return M World (gmap string editors.EditorEvaluateRun) in
  let results_file := results_file layer key in
  found ← exists_ results_file;
  if found : bool then
    logger INFO
      ("found existing " ++ key ++ " generations at " ++ str results_file);;
    content ← read_text results_file;
    run ← pure (from_json content);
    mret (<[key := run]> results)
  else
    mkdir (parent results_file);;
    logger INFO
      (key ++ ": found " ++ pretty (length subset) ++ " entries");;
    generations ← editor_evaluate
      {| ev_editor := editor;
         ev_dataset := subset;
         ev_batch_size := args_batch_size setup;
         ev_device := device setup;
         ev_desc := "evaluate on " ++ key ++ " (layer " ++ pretty layer ++ ")";
         ev_return_before := false;
         ev_return_after := true;
         ev_max_new_tokens := max_new_tokens;
         ev_max_length := max_length |};
    logger INFO
      ("writing " ++ key ++ " generations to " ++ str results_file);;
    write_text results_file (to_json generations);;
    mret (<[key := generations]> results).

(** How a run returned by one step of the loop relates to the results file
    of its subset afterwards: it was loaded from the file, or it was computed
    by [evaluate] and the file holds its document. *)
Definition persisted_as (run : editors.EditorEvaluateRun) (content : string) : Prop :=
  from_json content = Ok run
  ∨ ∃ args, evaluate args = Ok run ∧ content = to_json run.

(** The runs persisted in three documents, as a pass over the subsets loads
    them. *)
Definition loaded (c1 c2 c3 : string)
    : result (gmap string editors.EditorEvaluateRun) :=
  r1 ← from_json c1;
  r2 ← from_json c2;
  r3 ← from_json c3;
  Ok (<["generation_prompts" := r3]>
        (<["paraphrase_prompts" := r2]> (<["prompts" := r1]> ∅))).

Definition evaluate_subsets (editor : Editor) (layer : Z)
    : M World (gmap string editors.EditorEvaluateRun) :=
  for_inM subsets (evaluate_subset editor layer) ∅.

(** The references of one group of generation results: the texts of the
    snippets stored for the relation and the new target of the rewrite
    requested by the first sample of the group. *)
Definition consistency_references_of
    (samples : list editors.EditorEvaluateResult) : result (list string) :=
  sample ← next_iter samples;
  let cf_requested_rewrite :=
    data.requested_rewrite (data.source (editors.result_sample sample)) in
  by_target ← getitem (V := gmap string (list Snippet))
    (attribute_snippets setup) (data.relation_id cf_requested_rewrite);
  snippets ← getitem (V := list Snippet)
    by_target (data.target_new_id cf_requested_rewrite);
  Ok (text <$> (snippets : list Snippet)).

(** From the three runs of a layer to its [scores.json]. *)
Definition score_layer (layer : Z)
    (results : gmap string editors.EditorEvaluateRun) : M World unit :=
  prompts_results ← pure (getitem results "prompts");
  let prompts_results_by_id := group_by_id prompts_results in
  mediated ← pure (comprehension
    (fun group => sample ← unpack1 group;
                  Ok [editors.after_target_mediated_score sample])
    (values prompts_results_by_id));
  unmediated ← pure (comprehension
    (fun group => sample ← unpack1 group;
                  Ok [editors.after_target_unmediated_score sample])
    (values prompts_results_by_id));
  efficacy ← pure (metrics.efficacy mediated unmediated);
  paraphrase_results ← pure (getitem results "paraphrase_prompts");
  let paraphrase_prompts_results_by_id := group_by_id paraphrase_results in
  paraphrase_efficacy ← pure (metrics.efficacy
    (fmap (M := list) editors.after_target_mediated_score
       <$> values paraphrase_prompts_results_by_id)
    (fmap (M := list) editors.after_target_unmediated_score
       <$> values paraphrase_prompts_results_by_id));
  generation_results ← pure (getitem results "generation_prompts");
  let generation_prompts_results_by_id := group_by_id generation_results in
  generation_prompts_outputs ← pure (comprehension
    (comprehension first_generation) (values generation_prompts_results_by_id));
  consistency_references ← pure (comprehension
    consistency_references_of (values generation_prompts_results_by_id));
  consistency ← pure (metrics.tfidf_similarity_batch
    generation_prompts_outputs consistency_references (tfidf_vectorizer setup));
  fluency ← pure (metrics.average_n_gram_entropy generation_prompts_outputs);
  let scores indent :=
    metrics.scores_json indent efficacy paraphrase_efficacy consistency fluency in
  logger INFO
    ("benchmark complete! results:" ++ String (Ascii.ascii_of_nat 10) (scores (Some 1)));;
  write_text (results_dir setup // pretty layer // "scores.json") (scores None).

(** The body of the loop over the layers. *)
Definition benchmark_layer (layer : Z) : M World unit :=
  editor ← load_editor (editor_type setup) (mt setup) layer
    (editors_dir setup) (device setup);
  match editor with
  | None =>
      logger WARNING ("skipping benchmark for layer " ++ pretty layer)
  | Some editor =>
      results ← evaluate_subsets editor layer;
      score_layer layer results
  end.

(** [for layer in layers: ...], the loop of [main]. *)
Definition main_loop (layers : list Z) : M World unit :=
  for_inM layers (fun layer _ => benchmark_layer layer) tt.

(** The calls of [editor.evaluate] the loop makes: with the batch size and
    the device of the setup, for the results after the edit only, on one of
    the three subsets with its own caps. *)
Definition loop_evaluate_call (args : EvaluateArgs) : Prop :=
  ev_batch_size args = args_batch_size setup
  ∧ ev_device args = device setup
  ∧ ev_return_before args = false
  ∧ ev_return_after args = true
  ∧ (ev_dataset args, ev_max_new_tokens args, ev_max_length args)
    ∈ [ (prompts setup, Some 1, None);
        (paraphrase_prompts setup, Some 1, None);
        (generation_prompts setup, None, Some (args_max_length setup)) ].

(** The weights file of one of the [layers], for an editor type that has
    weights. *)
Definition loop_weights_file (layers : list Z) (p : Path) : Prop :=
  editor_type setup ≠ "identity"
  ∧ ∃ dir layer,
      editors_dir setup = Some dir
      ∧ layer ∈ layers
      ∧ p = dir // editor_type setup // pretty layer // "weights.pth".

(** What relates the world [w'] the loop over [layers] has reached to the
    world [w] it started in, also when it stops on an exception: the calls of
    [editor.evaluate] and of [torch.load] it added, and the files it left as
    they were. *)
Definition loop_invariant (layers : list Z) (w w' : World) : Prop :=
  (∃ new, evaluate_calls w' = (evaluate_calls w ++ new)%list
          ∧ Forall loop_evaluate_call new)
  ∧ (∃ new, weight_loads w' = (weight_loads w ++ new)%list
            ∧ Forall (loop_weights_file layers) new)
  ∧ (∀ p content, files w !! p = Some content → last p ≠ Some "scores.json" →
       files w' !! p = Some content)
  ∧ (∀ p, ¬ results_dir setup `prefix_of` p → files w' !! p = files w !! p).

(** The directories of the world [w'] the loop over [layers] has reached,
    against those of the world [w] it started in: none is gone, and a new
    one is the results directory of one of the layers or a directory above
    it. *)
Definition loop_directories (layers : list Z) (w w' : World) : Prop :=
  (∀ p, p ∈ dirs w → p ∈ dirs w')
  ∧ (∀ p, p ∈ dirs w' →
       p ∈ dirs w
       ∨ ∃ layer, layer ∈ layers
                  ∧ p ∈ ancestors_and_self (results_dir setup // pretty layer)).

End driver.

(** ** scripts/benchmark.py: prepending the context to the prompt

    [Dataset.map] calls the function on the rows in order and replaces the
    columns the function returns.  A text is the string of the bytes of its
    UTF-8 encoding, and a character the string of the bytes that encode it;
    [startswith] and the removal of periods and blanks are the same on the
    characters and on the bytes of such a text.  [str.lower] on one
    character is a parameter. *)

(** [s.rstrip(chars)]: [s] without its longest suffix made of [chars]. *)
Fixpoint rstrip (chars : list Ascii.ascii) (s : string) : string :=
  match s with
  | EmptyString => EmptyString
  | String c s' =>
      match rstrip chars s' with
      | EmptyString =>
          if bool_decide (c ∈ chars) then EmptyString else String c EmptyString
      | rest => String c rest
      end
  end.

(** The number of bytes of the character whose encoding starts with [c]. *)
Definition utf8_width (c : Ascii.ascii) : nat :=
  let n := Ascii.nat_of_ascii c in
  if (n <? 192)%nat then 1%nat
  else if (n <? 224)%nat then 2%nat
  else if (n <? 240)%nat then 3%nat
  else 4%nat.

(** [(s[:n], s[n:])] on bytes. *)
Fixpoint split_at (n : nat) (s : string) : string * string :=
  match n, s with
  | S n', String c s' => let '(taken, rest) := split_at n' s' in (String c taken, rest)
  | _, _ => (EmptyString, s)
  end.

(** [(s[0], s[1:])]; there is no [s[0]] in the empty text. *)
Definition first_character (s : string) : option (string * string) :=
  match s with
  | EmptyString => None
  | String c _ => Some (split_at (utf8_width c) s)
  end.

Section prepend_context.
Context (lower : string → string).

Definition prepend_context_for_fow (row : data.ContextMediationSample)
    : result data.ContextMediationSample :=
  let entity := data.entity row in
  let prompt := data.prompt row in
  let context := data.context row in
  context ←
    (if negb (String.prefix entity context) then
       match first_character context with
       | None => Raise (IndexError "string index out of range")
       | Some (first, rest) =>
           Ok (lower first ++ rstrip [Ascii.ascii_of_nat 46; Ascii.ascii_of_nat 32] rest)
       end
     else Ok context);
  Ok {| data.id := data.id row;
        data.entity := data.entity row;
        data.prompt := "Suppose " ++ context ++ ". " ++ prompt;
        data.context := data.context row;
        data.attribute := data.attribute row;
        data.source := data.source row |}.

(** Prepend context to the prompt. *)
Definition prepend_context (dataset : data.Dataset) : result data.Dataset :=
  comprehension prepend_context_for_fow dataset.

(** A row and the row [prepend_context] makes of it: the prompt is the old
    one after a sentence made of the context, every other column is as it
    was. *)
Definition context_prepended (row row' : data.ContextMediationSample) : Prop :=
  data.id row' = data.id row
  ∧ data.entity row' = data.entity row
  ∧ data.context row' = data.context row
  ∧ data.attribute row' = data.attribute row
  ∧ data.source row' = data.source row
  ∧ ∃ sentence,
      data.prompt row' = "Suppose " ++ sentence ++ ". " ++ data.prompt row
      ∧ if String.prefix (data.entity row) (data.context row)
        then sentence = data.context row
        else ∃ first rest,
               first_character (data.context row) = Some (first, rest)
               ∧ sentence
                 = lower first
                   ++ rstrip [Ascii.ascii_of_nat 46; Ascii.ascii_of_nat 32] rest.

End prepend_context.

(** ** scripts/benchmark.py: the editors directory and the layers of [main]

    [int] on a string and the order in which [iterdir] yields the entries of
    a directory, given the files and the directories there are, are
    parameters. *)

Section layers.
Context `{Externals}.
Context (int : string → result Z)
  (listdir : gmap Path string → gset Path → Path → list Path).

(** [p.name]. *)
Definition name (p : Path) : string := default EmptyString (last p).

(** [list(p.iterdir())]. *)
Definition iterdir (p : Path) : M World (list Path) :=
  w ← get;
  if bool_decide (p ∈ dirs w) then mret (listdir (files w) (dirs w) p)
  else raise (OSError ("not a directory: " ++ str p)).

(** The check of the editors directory in [main]. *)
Definition check_editors (editor_type : option string)
    (editors_dir : option Path) : M World unit :=
  if decide (editor_type ≠ Some "identity") then
    logger INFO
      ("will look for " ++ default "None" editor_type ++ " editors in "
       ++ from_option str "None" editors_dir);;
    match editors_dir, editor_type with
    | Some editors_dir, Some editor_type =>
        found ← exists_ (editors_dir // editor_type);
        if negb found
        then raise (ValueError ("editors not found at " ++ str editors_dir))
        else mret tt
    | _, _ =>
        raise (TypeError "expected str, bytes or os.PathLike object, not NoneType")
    end
  else mret tt.

(** The layers [main] goes over: those of the command line or, without
    them, the sorted numbers that name the directories in [editors_dir]. *)
Definition select_layers (layers : option (list Z)) (editors_dir : option Path)
    : M World (list Z) :=
  match layers with
  | Some layers => mret layers
  | None =>
      match editors_dir with
      | None => raise (AttributeError "iterdir")
      | Some editors_dir =>
          entries ← iterdir editors_dir;
          w ← get;
          layers ← pure (comprehension (fun layer_dir => int (name layer_dir))
                           (filter (fun layer_dir => layer_dir ∈ dirs w) entries));
          mret (merge_sort Z.le layers)
      end
  end.

Definition main_layers (editor_type : option string) (editors_dir : option Path)
    (layers : option (list Z)) : M World (list Z) :=
  check_editors editor_type editors_dir;;
  select_layers layers editors_dir.

End layers.

End scripts_benchmark.

(** ** Concrete instances on which the embedding is evaluated *)

Module fixtures.

(** A system with a single editor, model and device. *)
Definition unit_externals : Externals :=
  {| Editor := unit;
     ModelAndTokenizer := unit;
     Device := unit;
     editor_mt := fun _ => tt;
     editor_layer := fun _ => 0 |}.

(** A baseline model that prefers the target over the comparator in both
    settings, and an editor that scores the mediated target at 0.75 and the
    unmediated one at 0.25 whatever the prompt. *)
Definition fixed_scores : @editors.ClassifyAPI unit_externals :=
  {| editors.Kwargs := unit;
     editors.classification_inputs_from_dataset := fun _ dataset _ _ _ _ =>
       Ok ((fun _ =>
              {| precompute.prompt_in_context_target_logp := (-1)%float;
                 precompute.prompt_in_context_comparator_logp := (-2)%float;
                 precompute.prompt_target_logp := (-1)%float;
                 precompute.prompt_comparator_logp := (-2)%float |}) <$> dataset);
     editors.classify := fun _ dataset _ _ _ _ _ =>
       Ok ((fun sample =>
              {| editors.sample := sample;
                 editors.score_mediated := 0.75%float;
                 editors.score_unmediated := 0.25%float |}) <$> dataset) |}.

Definition sample_1 : data.ContextMediationSample :=
  {| data.id := "1";
     data.entity := "Paris";
     data.prompt := "Paris is located in";
     data.context := "Paris is located in Italy";
     data.attribute := "is located in Italy";
     data.source :=
       {| data.requested_rewrite :=
            {| data.relation_id := "P17"; data.target_new_id := "Q38" |} |} |}.

Definition sample_3 : data.ContextMediationSample :=
  {| data.id := "3";
     data.entity := "Berlin";
     data.prompt := "Berlin is located in";
     data.context := "Berlin is located in Peru";
     data.attribute := "is located in Peru";
     data.source :=
       {| data.requested_rewrite :=
            {| data.relation_id := "P17"; data.target_new_id := "Q419" |} |} |}.

Definition sample_2 : data.ContextMediationSample :=
  {| data.id := "2";
     data.entity := "Rome";
     data.prompt := "Rome is located in";
     data.context := "Rome is located in Spain";
     data.attribute := "is located in Spain";
     data.source :=
       {| data.requested_rewrite :=
            {| data.relation_id := "P17"; data.target_new_id := "Q29" |} |} |}.

(** An evaluation result of a sample with a given generated text. *)
Definition result_of (sample : data.ContextMediationSample) (generation : string)
    : editors.EditorEvaluateResult :=
  {| editors.result_sample := sample;
     editors.after_generations := Some [generation];
     editors.after_target_mediated_score := Some 0.75%float;
     editors.after_target_unmediated_score := Some 0.25%float |}.

(** Metric summaries that record nothing. *)
Definition unit_metrics : metrics.MetricsAPI :=
  {| metrics.Metric := unit;
     metrics.Vectorizer := unit;
     metrics.efficacy := fun _ _ => Ok tt;
     metrics.tfidf_similarity_batch := fun _ _ _ => Ok tt;
     metrics.average_n_gram_entropy := fun _ => Ok tt;
     metrics.tfidf_similarity := fun _ _ _ => Ok 0.5%float;
     metrics.weighted_n_gram_entropy := fun _ => Ok 0.5%float;
     metrics.weighted_n_gram_entropy_refs := fun _ => Ok 0.5%float;
     metrics.aggregate := fun _ _ => Ok tt;
     metrics.load_tfidf_vectorizer := Ok tt;
     metrics.scores_json := fun _ _ _ _ _ => "{}" |}.

(** The run every evaluation of the fixture returns, and its document. *)
Definition the_run : editors.EditorEvaluateRun :=
  {| editors.results := [result_of sample_1 "Paris is located in Italy"] |}.

(** A driver with two registered editor types whose evaluation always
    returns [the_run], persisted as the document ["run"]. *)
Definition two_editors : @scripts_benchmark.DriverAPI unit_externals :=
  {| scripts_benchmark.StateDict := unit;
     scripts_benchmark.SUPPORTED_EDITORS :=
       <["identity" := fun _ _ => tt]> (<["linear" := fun _ _ => tt]> ∅);
     scripts_benchmark.editor_to := fun editor _ => editor;
     scripts_benchmark.torch_load := fun _ _ => Ok tt;
     scripts_benchmark.load_state_dict := fun editor _ => Ok editor;
     scripts_benchmark.evaluate := fun _ => Ok the_run;
     scripts_benchmark.to_json := fun _ => "run";
     scripts_benchmark.from_json := fun document =>
       if decide (document = "run") then Ok the_run
       else Raise (ValueError "malformed document") |}.

Definition setup_linear : @scripts_benchmark.Setup unit_externals unit_metrics :=
  @scripts_benchmark.Build_Setup unit_externals unit_metrics
    (* editor_type *) "linear"
    (* editors_dir *) (Some ["editors"])
    (* device *) None
    (* mt *) tt
    (* prompts *) [sample_1]
    (* paraphrase_prompts *) [sample_1]
    (* generation_prompts *) [sample_1]
    (* attribute_snippets *)
    {[ "P17" := {[ "Q38" := [ {| scripts_benchmark.text := "Italy" |} ] ]} ]}
    (* tfidf_vectorizer *) tt
    (* results_dir *) ["results"]
    (* args_batch_size *) 16
    (* args_max_length *) 100.

(** A world with nothing on disk and nothing logged. *)
Definition empty_world : @scripts_benchmark.World unit_externals :=
  {| scripts_benchmark.files := ∅;
     scripts_benchmark.dirs := ∅;
     scripts_benchmark.log := [];
     scripts_benchmark.weight_loads := [];
     scripts_benchmark.evaluate_calls := [] |}.

(** A world where the weights of the linear editor exist for layer 1 only. *)
Definition world_with_layer_1 : @scripts_benchmark.World unit_externals :=
  {| scripts_benchmark.files := {[ ["editors"; "linear"; "1"; "weights.pth"] := "weights" ]};
     scripts_benchmark.dirs :=
       {[ ["editors"]; ["editors"; "linear"]; ["editors"; "linear"; "1"] ]};
     scripts_benchmark.log := [];
     scripts_benchmark.weight_loads := [];
     scripts_benchmark.evaluate_calls := [] |}.

(** A model on texts: inputs are the prompts, outputs the generated texts,
    cached key/values a text, the random number generator a counter. *)
Definition text_tensors : models.Tensors :=
  {| models.Inputs := list string;
     models.Outputs := list string;
     models.KeyValues := string;
     models.Rng := nat |}.

(** The unedited model continues every prompt with [" a city"]; with an edit
    applied it continues with [" a village"], and the edited generation call
    fails on a batch that holds the sample ["2"]. *)
Definition text_model : @models.ModelAPI unit_externals text_tensors :=
  @models.Build_ModelAPI unit_externals text_tensors
    (* tokenizer *) (fun _ text _ => [text])
    (* inputs_from_batch *) (fun _ prompts _ => prompts)
    (* expand *) (fun kvs _ => kvs)
    (* forward *) (fun _ _ _ => Ok "prefix")
    (* generate *)
    (fun _ edits seed args =>
       (Ok ((fun p => p ++ match edits with [] => " a city" | _ => " a village" end)
              <$> @models.gen_inputs text_tensors args), S seed))
    (* generate_edited *)
    (fun _ edits seed args =>
       (if bool_decide ("2" ∈ data.batch_id (@models.egen_batch text_tensors args))
        then Raise (RuntimeError "out of memory")
        else Ok ((fun p => p ++ match edits with [] => " a city" | _ => " a village" end)
                   <$> @models.egen_inputs text_tensors args), S seed))
    (* batch_decode *) (fun _ outputs => outputs)
    (* format *) (fun template entity => Ok (entity ++ " is")).

(** A model to which nothing is applied and which has computed nothing. *)
Definition fresh_model : @models.World unit_externals text_tensors :=
  @models.Build_World unit_externals text_tensors [] 0%nat [].

(** Metric summaries that count the groups of scores they are given; the
    efficacy rejects a score that is missing. *)
Definition counting_metrics : metrics.MetricsAPI :=
  {| metrics.Metric := nat;
     metrics.Vectorizer := unit;
     metrics.efficacy := fun mediated unmediated =>
       if forallb (forallb (fun score : option float =>
                              match score with Some _ => true | None => false end))
            (mediated ++ unmediated)%list
       then Ok (length mediated)
       else Raise (TypeError "unsupported operand type: NoneType");
     metrics.tfidf_similarity_batch := fun outputs _ _ => Ok (length outputs);
     metrics.average_n_gram_entropy := fun outputs => Ok (length outputs);
     metrics.tfidf_similarity := fun _ _ _ => Ok 0.5%float;
     metrics.weighted_n_gram_entropy := fun _ => Ok 0.5%float;
     metrics.weighted_n_gram_entropy_refs := fun _ => Ok 0.5%float;
     metrics.aggregate := fun scores _ => Ok (length scores);
     metrics.load_tfidf_vectorizer := Ok tt;
     metrics.scores_json := fun _ efficacy _ _ _ =>
       "efficacy over " ++ pretty efficacy ++ " prompts" |}.

Definition setup_counting : @scripts_benchmark.Setup unit_externals counting_metrics :=
  @scripts_benchmark.Build_Setup unit_externals counting_metrics
    "linear" (Some ["editors"]) None tt [sample_1] [sample_1] [sample_1]
    {[ "P17" := {[ "Q38" := [ {| scripts_benchmark.text := "Italy" |} ] ]} ]}
    tt ["results"] 16 100.

(** A world where the results directory of layer 1 exists and is empty. *)
Definition world_with_results_1 : @scripts_benchmark.World unit_externals :=
  {| scripts_benchmark.files := ∅;
     scripts_benchmark.dirs := {[ ["results"]; ["results"; "1"] ]};
     scripts_benchmark.log := [];
     scripts_benchmark.weight_loads := [];
     scripts_benchmark.evaluate_calls := [] |}.

(** A result of a sample whose mediated score was not computed. *)
Definition result_without_score (sample : data.ContextMediationSample)
    : editors.EditorEvaluateResult :=
  {| editors.result_sample := sample;
     editors.after_generations := Some ["text"];
     editors.after_target_mediated_score := None;
     editors.after_target_unmediated_score := Some 0.25%float |}.

(** Two prompts with different IDs, without and with the mediated score of
    the second. *)
Definition run_without_score : editors.EditorEvaluateRun :=
  {| editors.results := [result_of sample_1 "a"; result_without_score sample_3] |}.

Definition run_of_two : editors.EditorEvaluateRun :=
  {| editors.results := [result_of sample_1 "a"; result_of sample_3 "b"] |}.

Definition results_of_two : gmap string editors.EditorEvaluateRun :=
  <["prompts" := run_of_two]>
    (<["paraphrase_prompts" := the_run]> {[ "generation_prompts" := the_run ]}).

Definition setup_identity : @scripts_benchmark.Setup unit_externals unit_metrics :=
  @scripts_benchmark.Build_Setup unit_externals unit_metrics
    "identity" None None tt [sample_1] [sample_1] [sample_1]
    {[ "P17" := {[ "Q38" := [ {| scripts_benchmark.text := "Italy" |} ] ]} ]}
    tt ["results"] 16 100.

(** A driver whose evaluation runs out of memory when it is to generate
    without a cap on the number of new tokens. *)
Definition out_of_memory : @scripts_benchmark.DriverAPI unit_externals :=
  {| scripts_benchmark.StateDict := unit;
     scripts_benchmark.SUPPORTED_EDITORS := <["linear" := fun _ _ => tt]> ∅;
     scripts_benchmark.editor_to := fun editor _ => editor;
     scripts_benchmark.torch_load := fun _ _ => Ok tt;
     scripts_benchmark.load_state_dict := fun editor _ => Ok editor;
     scripts_benchmark.evaluate := fun args =>
       match scripts_benchmark.ev_max_new_tokens args with
       | None => Raise (RuntimeError "out of memory")
       | Some _ => Ok the_run
       end;
     scripts_benchmark.to_json := fun _ => "run";
     scripts_benchmark.from_json := fun document =>
       if decide (document = "run") then Ok the_run
       else Raise (ValueError "malformed document") |}.

(** [str.lower] on one character: the letters of the ASCII range and the
    two-byte capital letters from U+00C0 to U+00DE. *)
Definition lower_utf8 (c : string) : string :=
  match c with
  | String a EmptyString =>
      let n := Ascii.nat_of_ascii a in
      String (if (65 <=? n)%nat && (n <=? 90)%nat
              then Ascii.ascii_of_nat (n + 32) else a) EmptyString
  | String a (String b EmptyString) =>
      let n := Ascii.nat_of_ascii b in
      if (Ascii.nat_of_ascii a =? 195)%nat && (128 <=? n)%nat && (n <=? 158)%nat
         && negb (n =? 151)%nat
      then String a (String (Ascii.ascii_of_nat (n + 32)) EmptyString)
      else c
  | _ => c
  end.

(** [int] on a string of decimal digits; anything else is rejected. *)
Fixpoint digits_value (acc : Z) (s : string) : option Z :=
  match s with
  | EmptyString => Some acc
  | String c s' =>
      let n := Ascii.nat_of_ascii c in
      if (48 <=? n)%nat && (n <=? 57)%nat
      then digits_value (10 * acc + Z.of_nat (n - 48)) s'
      else None
  end.

Definition int_of_digits (s : string) : result Z :=
  match s, digits_value 0 s with
  | String _ _, Some n => Ok n
  | _, _ => Raise (ValueError ("invalid literal for int() with base 10: " ++ s))
  end.

(** The entries of a directory in the order of the paths. *)
Definition listdir (files : gmap pathlib.Path string) (dirs : gset pathlib.Path)
    (p : pathlib.Path) : list pathlib.Path :=
  filter (fun q => q ≠ [] ∧ pathlib.parent q = p) (elements (dom files ∪ dirs)).

(** A row whose context does not start with its entity. *)
Definition sample_4 : data.ContextMediationSample :=
  {| data.id := "4";
     data.entity := "Oslo";
     data.prompt := "Oslo is located in";
     data.context := "The capital Oslo is located in Chile. ";
     data.attribute := "is located in Chile";
     data.source :=
       {| data.requested_rewrite :=
            {| data.relation_id := "P17"; data.target_new_id := "Q298" |} |} |}.

(** A row without a context. *)
Definition sample_5 : data.ContextMediationSample :=
  {| data.id := "5";
     data.entity := "Lima";
     data.prompt := "Lima is located in";
     data.context := EmptyString;
     data.attribute := "is located in Chad";
     data.source :=
       {| data.requested_rewrite :=
            {| data.relation_id := "P17"; data.target_new_id := "Q657" |} |} |}.

(** A row whose context starts with a character of two bytes, U+00C4. *)
Definition sample_6 : data.ContextMediationSample :=
  {| data.id := "6";
     data.entity := "Rome";
     data.prompt := "Rome is located in";
     data.context :=
       String (Ascii.ascii_of_nat 195) (String (Ascii.ascii_of_nat 132)
         "rger in Rome.");
     data.attribute := "is located in Fiji";
     data.source :=
       {| data.requested_rewrite :=
            {| data.relation_id := "P17"; data.target_new_id := "Q712" |} |} |}.

(** The linear editor with the results directory [out/results]. *)
Definition setup_nested : @scripts_benchmark.Setup unit_externals unit_metrics :=
  @scripts_benchmark.Build_Setup unit_externals unit_metrics
    "linear" (Some ["editors"]) None tt [sample_1] [sample_1] [sample_1]
    {[ "P17" := {[ "Q38" := [ {| scripts_benchmark.text := "Italy" |} ] ]} ]}
    tt ["out"; "results"] 16 100.

End fixtures.

(** * Verified properties *)

(** ** Python prelude *)

Lemma result_bind_Ok {A B : Type} (m : result A) (f : A → result B) (b : B) :
  m ≫= f = Ok b → ∃ a, m = Ok a ∧ f a = Ok b.
Proof. destruct m as [a|e]; [eauto | discriminate]. Qed.

Lemma result_bind_Ok_l {A B : Type} (m : result A) (f : A → result B) (a : A) :
  m = Ok a → m ≫= f = f a.
Proof. by intros ->. Qed.

Lemma getitem_Some {V : Type} (d : gmap string V) (k : string) (v : V) :
  d !! k = Some v → getitem d k = Ok v.
Proof. unfold getitem. by intros ->. Qed.

(** Running a bind of stateful code. *)
Lemma M_bind_run {S A B : Type} (m : M S A) (f : A → M S B) (s : S) :
  (m ≫= f) s
  = match m s with
    | (s', Ok a) => f a s'
    | (s', Raise e) => (s', Raise e)
    end.
Proof. reflexivity. Qed.

Lemma M_bind_run_Ok {S A B : Type} (m : M S A) (f : A → M S B) (s s' : S) (a : A) :
  m s = (s', Ok a) → (m ≫= f) s = f a s'.
Proof. intros Hm. by rewrite M_bind_run, Hm. Qed.

Lemma M_bind_run_Raise {S A B : Type} (m : M S A) (f : A → M S B) (s s' : S) (e : exn) :
  m s = (s', Raise e) → (m ≫= f) s = (s', Raise e).
Proof. intros Hm. by rewrite M_bind_run, Hm. Qed.

(** One step of symbolic execution of stateful code. *)
Ltac mstep := rewrite M_bind_run; cbn beta iota.

Lemma M_bind_run_inv {S A B : Type} (m : M S A) (f : A → M S B) (s s' : S) (b : B) :
  (m ≫= f) s = (s', Ok b) → ∃ s1 a, m s = (s1, Ok a) ∧ f a s1 = (s', Ok b).
Proof.
  rewrite M_bind_run. destruct (m s) as [s1 [a|e]]; [eauto|discriminate].
Qed.

(** [bind_ok H as a Ha] splits [H : m ≫= f = Ok b] into [Ha : m = Ok a] and
    [H : f a = Ok b]. *)
Tactic Notation "bind_ok" hyp(H) "as" simple_intropattern(a) ident(Ha) :=
  apply result_bind_Ok in H as (a & Ha & H).

(** ** sklearn.metrics: joint negation of labels and predictions *)

Section sklearn_facts.
Import sklearn.

(** Negating both sequences exchanges the cells of the confusion matrix
    along both axes. *)
Lemma cell_negb (t p : bool) (y_true y_pred : list bool) :
  cell t p (negb <$> y_true) (negb <$> y_pred) = cell (negb t) (negb p) y_true y_pred.
Proof.
  revert y_pred. induction y_true as [|a y_true IH]; intros [|b y_pred]; try reflexivity.
  cbn [fmap list_fmap cell]. rewrite <- IH.
  by destruct a, b, t, p.
Qed.

Lemma accuracy_score_negb (y_true y_pred : list bool) :
  accuracy_score (negb <$> y_true) (negb <$> y_pred) = accuracy_score y_true y_pred.
Proof.
  unfold accuracy_score, check_consistent_length, tp, tn.
  rewrite !cell_negb, !length_fmap. cbn [negb].
  by rewrite Z.add_comm.
Qed.

Lemma matthews_corrcoef_negb (y_true y_pred : list bool) :
  matthews_corrcoef (negb <$> y_true) (negb <$> y_pred)
  = matthews_corrcoef y_true y_pred.
Proof.
  unfold matthews_corrcoef, check_consistent_length, tp, tn, fp, fn.
  rewrite !cell_negb, !length_fmap. cbn [negb].
  case_decide; [|reflexivity]. f_equal.
  generalize (cell true true y_true y_pred) (cell false false y_true y_pred)
    (cell false true y_true y_pred) (cell true false y_true y_pred).
  intros a b c d. cbv zeta.
  match goal with
  | |- (if ?x =? 0 then _ else _) = (if ?y =? 0 then _ else _) =>
      replace x with y by ring
  end.
  destruct (_ =? 0); [reflexivity|]. f_equal; ring.
Qed.

(** F1 is not symmetric in the two classes. *)
Lemma f1_score_negb_differs :
  f1_score (negb <$> [true; false]) (negb <$> [true; true])
  ≠ f1_score [true; false] [true; true].
Proof. vm_compute. discriminate. Qed.

End sklearn_facts.

(** ** src/benchmarks.py: classification *)

Section classification_facts.
Context `{editors.ClassifyAPI}.
Import benchmarks.

(** When the first loop ends, [key] is bound to its last element. *)
Lemma classify_runs_Ok editor dataset batch_size desc device kwargs runs key :
  classify_runs editor dataset batch_size desc device kwargs = Ok (runs, key) →
  ∃ rcs rds,
    editors.classify editor dataset "prompt_in_context" batch_size device
      (desc ++ " [classify contextual]") kwargs = Ok rcs
    ∧ editors.classify editor dataset "prompt" batch_size device
        (desc ++ " [classify decontextual]") kwargs = Ok rds
    ∧ runs = <["decontextual" := rds]> (<["contextual" := rcs]> ∅)
    ∧ key = Some "decontextual".
Proof.
  unfold classify_runs. cbn [for_in]. intros Hruns.
  bind_ok Hruns as [runs1 key1] Hfirst.
  bind_ok Hfirst as rcs Hrcs. injection Hfirst as <- <-.
  bind_ok Hruns as [runs2 key2] Hsecond.
  bind_ok Hsecond as rds Hrds. injection Hsecond as <- <-.
  injection Hruns as <- <-.
  rewrite decide_True in Hrcs by reflexivity.
  rewrite decide_False in Hrds by discriminate.
  eauto 10.
Qed.

Lemma make_ClassifierResults_pair (c d : ClassifierMetrics) :
  make_ClassifierResults (<["decontextual" := d]> (<["contextual" := c]> ∅))
  = Ok {| results_contextual := c; results_decontextual := d |}.
Proof.
  unfold make_ClassifierResults.
  rewrite lookup_insert_ne, lookup_insert_eq by discriminate.
  rewrite lookup_insert_eq.
  rewrite map_size_insert_None
    by (by rewrite lookup_insert_ne, lookup_empty by discriminate).
  rewrite map_size_insert_None, map_size_empty by apply lookup_empty.
  reflexivity.
Qed.

(** The second loop fills each of the four entries with [task_metrics]
    called with the binding of [key] it is given. *)
Lemma score_tasks_Ok key samples kwargs :
  score_tasks key samples = Ok kwargs →
  ∃ ec ed bc bd,
    task_metrics key "editor" "contextual" samples = Ok ec
    ∧ task_metrics key "editor" "decontextual" samples = Ok ed
    ∧ task_metrics key "baseline" "contextual" samples = Ok bc
    ∧ task_metrics key "baseline" "decontextual" samples = Ok bd
    ∧ kwargs !! "editor" = Some (<["decontextual" := ed]> (<["contextual" := ec]> ∅))
    ∧ kwargs !! "baseline" = Some (<["decontextual" := bd]> (<["contextual" := bc]> ∅)).
Proof.
  unfold score_tasks. cbn [for_in]. intros Hscore.
  bind_ok Hscore as kw2 Heditor.
  bind_ok Heditor as kw1 Hec. bind_ok Hec as ec Hec'. injection Hec as <-.
  bind_ok Heditor as kw2' Hed. bind_ok Hed as ed Hed'. injection Hed as <-.
  injection Heditor as <-.
  bind_ok Hscore as kw4 Hbaseline.
  bind_ok Hbaseline as kw3 Hbc. bind_ok Hbc as bc Hbc'. injection Hbc as <-.
  bind_ok Hbaseline as kw4' Hbd. bind_ok Hbd as bd Hbd'. injection Hbd as <-.
  injection Hbaseline as <-. injection Hscore as <-.
  exists ec, ed, bc, bd. do 4 (split; [assumption|]). split.
  - rewrite lookup_insert_ne by discriminate.
    rewrite !lookup_insert_eq, lookup_empty. reflexivity.
  - rewrite !lookup_insert_eq.
    rewrite !lookup_insert_ne, lookup_empty by discriminate. reflexivity.
Qed.

(** What [classification] returns, entry by entry: every entry of the
    report is computed by [task_metrics] under the binding
    [key = "decontextual"] left by the first loop. *)
Lemma classification_Ok editor dataset batch_size desc device kwargs r :
  classification editor dataset batch_size desc device kwargs = Ok r →
  ∃ pres rcs rds,
    editors.classification_inputs_from_dataset (editor_mt editor) dataset
      [editor_layer editor] batch_size device
      (default "classification benchmark" desc ++ " [compute reps]") = Ok pres
    ∧ editors.classify editor dataset "prompt_in_context" batch_size device
        (default "classification benchmark" desc ++ " [classify contextual]") kwargs
      = Ok rcs
    ∧ editors.classify editor dataset "prompt" batch_size device
        (default "classification benchmark" desc ++ " [classify decontextual]") kwargs
      = Ok rds
    ∧ samples r = make_sample <$> zip3 pres rcs rds
    ∧ task_metrics (Some "decontextual") "editor" "contextual" (samples r)
      = Ok (results_contextual (benchmarks.editor r))
    ∧ task_metrics (Some "decontextual") "editor" "decontextual" (samples r)
      = Ok (results_decontextual (benchmarks.editor r))
    ∧ task_metrics (Some "decontextual") "baseline" "contextual" (samples r)
      = Ok (results_contextual (baseline r))
    ∧ task_metrics (Some "decontextual") "baseline" "decontextual" (samples r)
      = Ok (results_decontextual (baseline r)).
Proof.
  unfold classification. intros Hr.
  bind_ok Hr as pres Hpres.
  bind_ok Hr as [runs key] Hruns.
  apply classify_runs_Ok in Hruns as (rcs & rds & Hrcs & Hrds & -> & ->).
  rewrite (result_bind_Ok_l _ _ rcs) in Hr
    by (apply getitem_Some; by rewrite lookup_insert_ne, lookup_insert_eq).
  rewrite (result_bind_Ok_l _ _ rds) in Hr
    by (apply getitem_Some; by rewrite lookup_insert_eq).
  bind_ok Hr as kw Hscore.
  apply score_tasks_Ok in Hscore as (ec & ed & bc & bd & Hec & Hed & Hbc & Hbd & Hke & Hkb).
  rewrite (result_bind_Ok_l _ _ _ (getitem_Some _ _ _ Hke)) in Hr.
  rewrite (result_bind_Ok_l _ _ _ (getitem_Some _ _ _ Hkb)) in Hr.
  rewrite (result_bind_Ok_l _ _ _ (make_ClassifierResults_pair ec ed)) in Hr.
  rewrite (result_bind_Ok_l _ _ _ (make_ClassifierResults_pair bc bd)) in Hr.
  injection Hr as <-. exists pres, rcs, rds. auto 10.
Qed.

Lemma getattrs_contextual {A : Type} (attr : ClassifierOutputs → A) samples :
  getattrs attr "contextual" samples = Ok (attr ∘ contextual <$> samples).
Proof.
  induction samples as [|sample samples IH]; [reflexivity|].
  cbn [getattrs]. rewrite IH. reflexivity.
Qed.

Lemma getattrs_decontextual {A : Type} (attr : ClassifierOutputs → A) samples :
  getattrs attr "decontextual" samples = Ok (attr ∘ decontextual <$> samples).
Proof.
  induction samples as [|sample samples IH]; [reflexivity|].
  cbn [getattrs]. rewrite IH. reflexivity.
Qed.

(** The three scores of two sequences of one length. *)
Lemma scores_same_length (y_true y_pred : list bool) :
  length y_true = length y_pred →
  ∃ a f m,
    sklearn.accuracy_score y_true y_pred = Ok a
    ∧ sklearn.f1_score y_true y_pred = Ok f
    ∧ sklearn.matthews_corrcoef y_true y_pred = Ok m.
Proof.
  intros Hlen.
  unfold sklearn.accuracy_score, sklearn.f1_score, sklearn.matthews_corrcoef,
    sklearn.check_consistent_length.
  rewrite !decide_True by assumption.
  do 3 eexists. repeat split; reflexivity.
Qed.

(** [task_metrics] returns for each of the two attribute names. *)
Lemma task_metrics_returns key method task samples :
  key = "contextual" ∨ key = "decontextual" →
  ∃ m, task_metrics (Some key) method task samples = Ok m.
Proof.
  intros Hkey. unfold task_metrics. cbn [mbind result_bind].
  assert (∃ y_true y_pred,
    getattrs label key samples = Ok y_true
    ∧ getattrs prediction key samples = Ok y_pred
    ∧ length y_true = length y_pred) as (y_true & y_pred & -> & -> & Hlen).
  { destruct Hkey as [-> | ->];
      rewrite ?getattrs_contextual, ?getattrs_decontextual;
      do 2 eexists; (split; [reflexivity|]); (split; [reflexivity|]);
      by rewrite !length_fmap. }
  cbn [mbind result_bind].
  match goal with
  | |- ∃ m, (sklearn.accuracy_score ?t ?p ≫= _) = _ =>
      destruct (scores_same_length t p) as (a & f & c & -> & -> & ->)
  end.
  - repeat case_decide; rewrite ?length_fmap, ?length_replicate; done.
  - cbn [mbind result_bind]. eauto.
Qed.

(** [classification] returns as soon as the three runs it consumes do. *)
Lemma classification_returns editor dataset batch_size desc device kwargs
    pres rcs rds :
  editors.classification_inputs_from_dataset (editor_mt editor) dataset
    [editor_layer editor] batch_size device
    (default "classification benchmark" desc ++ " [compute reps]") = Ok pres →
  editors.classify editor dataset "prompt_in_context" batch_size device
    (default "classification benchmark" desc ++ " [classify contextual]") kwargs
    = Ok rcs →
  editors.classify editor dataset "prompt" batch_size device
    (default "classification benchmark" desc ++ " [classify decontextual]") kwargs
    = Ok rds →
  ∃ r, classification editor dataset batch_size desc device kwargs = Ok r.
Proof.
  intros Hpres Hrcs Hrds. unfold classification.
  rewrite Hpres. cbn [mbind result_bind].
  change " [classify contextual]" with (" [classify " ++ "contextual" ++ "]") in Hrcs.
  change " [classify decontextual]" with (" [classify " ++ "decontextual" ++ "]") in Hrds.
  unfold classify_runs. cbn [for_in].
  rewrite (decide_True (P := "contextual" = "contextual")) by reflexivity.
  rewrite Hrcs. cbn [mbind result_bind].
  rewrite (decide_False (P := "decontextual" = "contextual")) by discriminate.
  rewrite Hrds. cbn [mbind result_bind].
  rewrite (result_bind_Ok_l _ _ rcs)
    by (apply getitem_Some; by rewrite lookup_insert_ne, lookup_insert_eq).
  rewrite (result_bind_Ok_l _ _ rds)
    by (apply getitem_Some; by rewrite lookup_insert_eq).
  set (samples := make_sample <$> zip3 pres rcs rds).
  destruct (task_metrics_returns "decontextual" "editor" "contextual" samples)
    as [ec Hec]; [by right|].
  destruct (task_metrics_returns "decontextual" "editor" "decontextual" samples)
    as [ed Hed]; [by right|].
  destruct (task_metrics_returns "decontextual" "baseline" "contextual" samples)
    as [bc Hbc]; [by right|].
  destruct (task_metrics_returns "decontextual" "baseline" "decontextual" samples)
    as [bd Hbd]; [by right|].
  unfold score_tasks. cbn [for_in].
  rewrite Hec. cbn [mbind result_bind]. rewrite Hed. cbn [mbind result_bind].
  rewrite Hbc. cbn [mbind result_bind]. rewrite Hbd. cbn [mbind result_bind].
  eexists. vm_compute. reflexivity.
Qed.

End classification_facts.

Lemma zip3_lookup {A B C : Type} (xs : list A) (ys : list B) (zs : list C)
    (i : nat) (x : A) (y : B) (z : C) :
  zip3 xs ys zs !! i = Some (x, y, z) →
  xs !! i = Some x ∧ ys !! i = Some y ∧ zs !! i = Some z.
Proof.
  revert ys zs i.
  induction xs as [|x' xs IH]; intros [|y' ys] [|z' zs] i; try discriminate.
  destruct i as [|i]; cbn.
  - intros [= -> -> ->]. done.
  - apply IH.
Qed.

Section classification_claims.
Context `{editors.ClassifyAPI}.
Import benchmarks.

(** C9: every sample built by [classification] stores, in its decontextual
    outputs, the decontextual run's unmediated score as [score_target] and
    its mediated score as [score_comparator], and in its contextual outputs
    the contextual run's scores the other way round; so the decontextual
    prediction is [score_unmediated > score_mediated] and the contextual
    prediction is [score_mediated > score_unmediated]. *)
Theorem classification_sample_score_assignment
    (editor : Editor) (dataset : data.Dataset) (batch_size : Z)
    (desc : option string) (device : option Device) (kwargs : editors.Kwargs)
    (r : ClassificationBenchmarkResults) :
  classification editor dataset batch_size desc device kwargs = Ok r →
  ∃ rcs rds,
    editors.classify editor dataset "prompt_in_context" batch_size device
      (default "classification benchmark" desc ++ " [classify contextual]") kwargs
      = Ok rcs
    ∧ editors.classify editor dataset "prompt" batch_size device
        (default "classification benchmark" desc ++ " [classify decontextual]") kwargs
      = Ok rds
    ∧ ∀ (i : nat) (s : ClassificationSample),
        samples r !! i = Some s →
        ∃ rc rd,
          rcs !! i = Some rc ∧ rds !! i = Some rd
          ∧ score_target (decontextual s) = editors.score_unmediated rd
          ∧ score_comparator (decontextual s) = editors.score_mediated rd
          ∧ score_target (contextual s) = editors.score_mediated rc
          ∧ score_comparator (contextual s) = editors.score_unmediated rc
          ∧ prediction (decontextual s)
            = float_gt (editors.score_unmediated rd) (editors.score_mediated rd)
          ∧ prediction (contextual s)
            = float_gt (editors.score_mediated rc) (editors.score_unmediated rc).
Proof.
  intros Hr.
  apply classification_Ok in Hr as (pres & rcs & rds & _ & Hrcs & Hrds & Hsamples & _).
  exists rcs, rds. split; [assumption|]. split; [assumption|].
  intros i s Hs. rewrite Hsamples, list_lookup_fmap in Hs.
  destruct (zip3 pres rcs rds !! i) as [[[pre rc] rd]|] eqn:Hzip; [|discriminate].
  injection Hs as <-.
  apply zip3_lookup in Hzip as (_ & Hrc & Hrd).
  exists rc, rd. done.
Qed.

End classification_claims.

(** The theorem at the one-sample dataset of the fixture. *)
Lemma classification_sample_score_assignment_witness :
  ∃ r,
    @benchmarks.classification _ fixtures.fixed_scores
      tt [fixtures.sample_1] 2 None None tt = Ok r
    ∧ ∃ rcs rds,
        @editors.classify _ fixtures.fixed_scores tt [fixtures.sample_1]
          "prompt_in_context" 2 None "classification benchmark [classify contextual]" tt
          = Ok rcs
        ∧ @editors.classify _ fixtures.fixed_scores tt [fixtures.sample_1]
            "prompt" 2 None "classification benchmark [classify decontextual]" tt
          = Ok rds
        ∧ ∀ (i : nat) (s : benchmarks.ClassificationSample),
            benchmarks.samples r !! i = Some s →
            ∃ rc rd,
              rcs !! i = Some rc ∧ rds !! i = Some rd
              ∧ benchmarks.score_target (benchmarks.decontextual s)
                = editors.score_unmediated rd
              ∧ benchmarks.score_comparator (benchmarks.decontextual s)
                = editors.score_mediated rd
              ∧ benchmarks.score_target (benchmarks.contextual s)
                = editors.score_mediated rc
              ∧ benchmarks.score_comparator (benchmarks.contextual s)
                = editors.score_unmediated rc
              ∧ benchmarks.prediction (benchmarks.decontextual s)
                = float_gt (editors.score_unmediated rd) (editors.score_mediated rd)
              ∧ benchmarks.prediction (benchmarks.contextual s)
                = float_gt (editors.score_mediated rc) (editors.score_unmediated rc).
Proof.
  eexists. split; [vm_compute; reflexivity|].
  apply (@classification_sample_score_assignment _ fixtures.fixed_scores
           tt [fixtures.sample_1] 2 None None tt).
  vm_compute. reflexivity.
Defined.

(** C1: the scores reported for the contextual task are not computed from the
    contextual classifier outputs.  On the one-sample dataset of the fixture
    the contextual outputs are classified correctly (scoring them gives
    accuracy 1/1), the decontextual outputs are not, and the report for the
    contextual task has accuracy 0/1: it is the score of the decontextual
    outputs, selected by the stale binding of [key]. *)
Theorem classification_contextual_task_scored_on_decontextual_outputs :
  ∃ r from_contextual,
    @benchmarks.classification _ fixtures.fixed_scores
      tt [fixtures.sample_1] 2 None None tt = Ok r
    ∧ benchmarks.task_metrics (Some "contextual") "editor" "contextual"
        (benchmarks.samples r) = Ok from_contextual
    ∧ benchmarks.accuracy from_contextual = sklearn.Ratio 1 1
    ∧ benchmarks.accuracy (benchmarks.results_contextual (benchmarks.editor r))
      = sklearn.Ratio 0 1
    ∧ benchmarks.task_metrics (Some "decontextual") "editor" "contextual"
        (benchmarks.samples r)
      = Ok (benchmarks.results_contextual (benchmarks.editor r)).
Proof.
  do 2 eexists. split; [vm_compute; reflexivity|].
  split; [vm_compute; reflexivity|].
  repeat split.
Qed.

(** C2: for the contextual task, [task_metrics] negates both the label and the
    prediction sequence element-wise before it computes accuracy, F1 and MCC;
    for two boolean sequences of one length this joint negation changes
    neither accuracy nor MCC, and it can change F1. *)
Theorem contextual_task_negates_labels_and_predictions :
  (∀ (key method : string) (samples : list benchmarks.ClassificationSample),
     benchmarks.task_metrics (Some key) method "contextual" samples
     = (y_true ← benchmarks.getattrs benchmarks.label key samples;
        y_pred ← benchmarks.getattrs benchmarks.prediction key samples;
        let y_pred :=
          if decide (method = "baseline")
          then replicate (length y_true)
                 (Z.of_nat (length y_true) <=? 2 * sum_bool y_true)
          else y_pred in
        accuracy ← sklearn.accuracy_score (negb <$> y_true) (negb <$> y_pred);
        f1 ← sklearn.f1_score (negb <$> y_true) (negb <$> y_pred);
        mcc ← sklearn.matthews_corrcoef (negb <$> y_true) (negb <$> y_pred);
        Ok {| benchmarks.f1 := f1;
              benchmarks.mcc := mcc;
              benchmarks.accuracy := accuracy |}))
  ∧ (∀ y_true y_pred : list bool,
       length y_true = length y_pred →
       ∃ accuracy mcc,
         sklearn.accuracy_score y_true y_pred = Ok accuracy
         ∧ sklearn.accuracy_score (negb <$> y_true) (negb <$> y_pred) = Ok accuracy
         ∧ sklearn.matthews_corrcoef y_true y_pred = Ok mcc
         ∧ sklearn.matthews_corrcoef (negb <$> y_true) (negb <$> y_pred) = Ok mcc)
  ∧ (∃ y_true y_pred : list bool,
       length y_true = length y_pred
       ∧ sklearn.f1_score (negb <$> y_true) (negb <$> y_pred)
         ≠ sklearn.f1_score y_true y_pred).
Proof.
  split; [|split].
  - intros key method samples. unfold benchmarks.task_metrics.
    cbn [mbind result_bind].
    destruct (benchmarks.getattrs benchmarks.label key samples) as [y_true|e];
      [|reflexivity].
    destruct (benchmarks.getattrs benchmarks.prediction key samples) as [y_pred|e];
      [|reflexivity].
    cbn [mbind result_bind].
    rewrite !(decide_True (P := "contextual" = "contextual")) by reflexivity.
    reflexivity.
  - intros y_true y_pred Hlen.
    destruct (scores_same_length y_true y_pred Hlen) as (a & _ & m & Ha & _ & Hm).
    exists a, m.
    by rewrite accuracy_score_negb, matthews_corrcoef_negb.
  - exists [true; false], [true; true]. split; [reflexivity|].
    apply f1_score_negb_differs.
Qed.

(** The invariance at labels [True, False] and predictions [True, True]. *)
Lemma contextual_task_negates_labels_and_predictions_witness :
  ∃ accuracy mcc,
    sklearn.accuracy_score [true; false] [true; true] = Ok accuracy
    ∧ sklearn.accuracy_score (negb <$> [true; false]) (negb <$> [true; true])
      = Ok accuracy
    ∧ sklearn.matthews_corrcoef [true; false] [true; true] = Ok mcc
    ∧ sklearn.matthews_corrcoef (negb <$> [true; false]) (negb <$> [true; true])
      = Ok mcc.
Proof.
  destruct contextual_task_negates_labels_and_predictions as (_ & Hinvariant & _).
  apply Hinvariant. reflexivity.
Defined.

(** ** scripts/benchmark.py: grouping by sample ID *)

Section group_by_id_facts.
Import scripts_benchmark.
Local Open Scope list_scope.

Lemma elem_of_first_occurrences (ids : list string) (k : string) :
  k ∈ first_occurrences ids ↔ k ∈ ids.
Proof.
  induction ids as [|k' ids IH]; [reflexivity|].
  cbn [first_occurrences]. rewrite !elem_of_cons, list_elem_of_filter, IH.
  destruct (decide (k = k')); tauto.
Qed.

Lemma NoDup_first_occurrences (ids : list string) : NoDup (first_occurrences ids).
Proof.
  induction ids as [|k ids IH]; [constructor|].
  cbn [first_occurrences]. constructor.
  - rewrite list_elem_of_filter. tauto.
  - by apply NoDup_filter.
Qed.

(** One more element at the end is a new last key when it is new, and
    changes nothing otherwise. *)
Lemma first_occurrences_snoc (ids : list string) (k : string) :
  first_occurrences (ids ++ [k])
  = if decide (k ∈ ids) then first_occurrences ids
    else first_occurrences ids ++ [k].
Proof.
  induction ids as [|k' ids IH]; [reflexivity|].
  cbn [app first_occurrences]. rewrite IH.
  destruct (decide (k = k')) as [->|Hne].
  - rewrite (decide_True (P := k' ∈ k' :: ids)) by left.
    case_decide; [reflexivity|].
    rewrite filter_app, filter_cons_False, filter_nil, app_nil_r by tauto.
    reflexivity.
  - case_decide as Hin.
    + rewrite decide_True by by right. reflexivity.
    + rewrite decide_False by (rewrite elem_of_cons; tauto).
      rewrite filter_app, filter_cons_True, filter_nil by done. reflexivity.
Qed.

(** The first occurrence of an earlier key precedes every occurrence of a
    later key. *)
Lemma first_occurrences_order (ids : list string) (i j : nat) (ki kj : string) :
  (i < j)%nat →
  first_occurrences ids !! i = Some ki →
  first_occurrences ids !! j = Some kj →
  ∃ p, ids !! p = Some ki ∧ ∀ q, ids !! q = Some kj → (p < q)%nat.
Proof.
  revert i j ki kj. induction ids as [|k ids IH] using rev_ind; [done|].
  intros i j ki kj Hij Hi Hj. rewrite first_occurrences_snoc in Hi, Hj.
  assert (∀ p q, ids !! p = Some ki → (ids ++ [k]) !! q = Some kj →
                 (∀ q, ids !! q = Some kj → (p < q)%nat) → (p < q)%nat) as Hext.
  { intros p q Hp Hq Hlt. apply lookup_lt_Some in Hp as Hplt.
    destruct (decide (q < length ids)%nat) as [Hq'|Hq'].
    - rewrite lookup_app_l in Hq by done. by apply Hlt.
    - lia. }
  case_decide as Hin.
  - destruct (IH i j ki kj Hij Hi Hj) as (p & Hp & Hlt).
    exists p. split; [by apply lookup_app_l_Some|]. eauto.
  - destruct (decide (j < length (first_occurrences ids))%nat) as [Hj'|Hj'].
    + rewrite lookup_app_l in Hi by lia. rewrite lookup_app_l in Hj by done.
      destruct (IH i j ki kj Hij Hi Hj) as (p & Hp & Hlt).
      exists p. split; [by apply lookup_app_l_Some|]. eauto.
    + apply lookup_lt_Some in Hj as Hjlt. rewrite length_app in Hjlt. cbn in Hjlt.
      rewrite lookup_app_r in Hj by lia.
      assert (kj = k) as ->.
      { destruct (j - length (first_occurrences ids))%nat; [by injection Hj|done]. }
      rewrite lookup_app_l in Hi by lia.
      assert (ki ∈ ids) as Hki.
      { apply elem_of_first_occurrences. by eapply list_elem_of_lookup_2. }
      apply list_elem_of_lookup_1 in Hki as [p Hp].
      exists p. split; [by apply lookup_app_l_Some|].
      intros q Hq. apply lookup_lt_Some in Hp as Hplt.
      destruct (decide (q < length ids)%nat) as [Hq'|Hq']; [|lia].
      rewrite lookup_app_l in Hq by done.
      exfalso. apply Hin. by eapply list_elem_of_lookup_2.
Qed.

(** Appending to a dictionary whose entries are given by a function of
    their keys. *)
Lemma defaultdict_append_fmap {V : Type} (f : string → list V) (keys : list string)
    (k : string) (v : V) :
  NoDup keys →
  (k ∉ keys → f k = []) →
  defaultdict_append ((fun k' => (k', f k')) <$> keys) k v
  = (fun k' => (k', if decide (k' = k) then f k' ++ [v] else f k'))
      <$> (if decide (k ∈ keys) then keys else keys ++ [k]).
Proof.
  intros Hnodup Hnew. induction keys as [|k' keys IH].
  - rewrite (decide_False (P := k ∈ [])) by apply not_elem_of_nil.
    cbn [fmap list_fmap app defaultdict_append].
    rewrite decide_True by done. rewrite Hnew by apply not_elem_of_nil.
    reflexivity.
  - apply NoDup_cons in Hnodup as [Hk' Hnodup].
    cbn [fmap list_fmap defaultdict_append].
    destruct (decide (k = k')) as [->|Hne].
    + rewrite (decide_True (P := k' ∈ k' :: keys)) by left.
      cbn [fmap list_fmap]. rewrite decide_True by done. f_equal.
      apply list_fmap_ext. intros _ k'' Hk''%list_elem_of_lookup_2.
      rewrite decide_False by (intros ->; done). reflexivity.
    + rewrite IH; [|done|].
      * destruct (decide (k ∈ keys)) as [Hin|Hin].
        -- rewrite (decide_True (P := k ∈ k' :: keys)) by by right.
           cbn [fmap list_fmap].
           rewrite (decide_False (P := k' = k)) by done. reflexivity.
        -- rewrite (decide_False (P := k ∈ k' :: keys))
             by (rewrite elem_of_cons; tauto).
           cbn [fmap list_fmap app].
           rewrite (decide_False (P := k' = k)) by done. reflexivity.
      * intros Hin. apply Hnew. rewrite elem_of_cons. tauto.
Qed.

Lemma filter_id_not_elem (rs : list editors.EditorEvaluateResult) (k : string) :
  k ∉ (fun r => data.id (editors.result_sample r)) <$> rs →
  filter (fun r => data.id (editors.result_sample r) = k) rs = [].
Proof.
  induction rs as [|r rs IH]; [reflexivity|].
  cbn [fmap list_fmap]. rewrite not_elem_of_cons. intros [Hne Hnotin].
  rewrite filter_cons_False by congruence. by apply IH.
Qed.

(** [group_by_id] in closed form: one group per distinct ID in order of
    first occurrence, holding the results with that ID in input order. *)
Lemma group_by_id_closed_form (run : editors.EditorEvaluateRun) :
  group_by_id run
  = (fun k =>
       (k, filter (fun r => data.id (editors.result_sample r) = k)
             (editors.results run)))
      <$> first_occurrences
            ((fun r => data.id (editors.result_sample r)) <$> editors.results run).
Proof.
  destruct run as [rs]. unfold group_by_id. cbn [editors.results].
  induction rs as [|r rs IH] using rev_ind; [reflexivity|].
  rewrite fold_left_app. cbn [fold_left]. rewrite IH.
  rewrite (defaultdict_append_fmap
    (fun k => filter (fun r0 => data.id (editors.result_sample r0) = k) rs)).
  - rewrite fmap_app. cbn [fmap list_fmap]. rewrite first_occurrences_snoc.
    assert (∀ ks : list string,
      (fun k' =>
         (k', if decide (k' = data.id (editors.result_sample r))
              then filter (fun r0 => data.id (editors.result_sample r0) = k') rs ++ [r]
              else filter (fun r0 => data.id (editors.result_sample r0) = k') rs))
        <$> ks
      = (fun k =>
           (k, filter (fun r0 => data.id (editors.result_sample r0) = k) (rs ++ [r])))
          <$> ks) as ->.
    { intros ks. apply list_fmap_ext. intros _ k' _. f_equal.
      rewrite filter_app. case_decide as Hk.
      - rewrite filter_cons_True, filter_nil by congruence. reflexivity.
      - rewrite filter_cons_False, filter_nil, app_nil_r by congruence.
        reflexivity. }
    destruct (decide (_ ∈ first_occurrences _)) as [Hin|Hin];
      rewrite elem_of_first_occurrences in Hin.
    + rewrite decide_True by done. reflexivity.
    + rewrite decide_False by done. reflexivity.
  - apply NoDup_first_occurrences.
  - rewrite elem_of_first_occurrences. apply filter_id_not_elem.
Qed.

End group_by_id_facts.

(** C3: [group_by_id] returns the groups in the order in which their IDs
    occur first in the input ([first_occurrences]: no ID twice, exactly the
    IDs of the input, and the first occurrence of an earlier group's ID
    precedes every occurrence of a later group's ID), and each group holds the
    results of its ID in their input order. *)
Theorem group_by_id_order_preserving (run : editors.EditorEvaluateRun) :
  let sample_id := fun r => data.id (editors.result_sample r) in
  let ids := sample_id <$> editors.results run in
  let grouped := scripts_benchmark.group_by_id run in
  grouped.*1 = scripts_benchmark.first_occurrences ids
  ∧ NoDup grouped.*1
  ∧ (∀ k, k ∈ grouped.*1 ↔ k ∈ ids)
  ∧ (∀ (i j : nat) (ki kj : string),
       (i < j)%nat → grouped.*1 !! i = Some ki → grouped.*1 !! j = Some kj →
       ∃ p, ids !! p = Some ki ∧ ∀ q, ids !! q = Some kj → (p < q)%nat)
  ∧ (∀ (k : string) (group : list editors.EditorEvaluateResult),
       (k, group) ∈ grouped →
       group = filter (fun r => sample_id r = k) (editors.results run)).
Proof.
  intros sample_id ids grouped.
  assert (grouped.*1 = scripts_benchmark.first_occurrences ids) as Hkeys.
  { unfold grouped. rewrite group_by_id_closed_form.
    rewrite <- list_fmap_compose. apply list_fmap_id. }
  split; [exact Hkeys|]. rewrite Hkeys.
  split; [apply NoDup_first_occurrences|].
  split; [apply elem_of_first_occurrences|].
  split; [apply first_occurrences_order|].
  intros k group Hin. unfold grouped in Hin.
  rewrite group_by_id_closed_form in Hin.
  apply list_elem_of_fmap in Hin as (k' & [= -> ->] & _). reflexivity.
Qed.

(** The theorem on three results with the IDs 2, 1, 2: the group of ID 2 is
    made of the first and the third result, in this order. *)
Lemma group_by_id_order_preserving_witness :
  [fixtures.result_of fixtures.sample_2 "a"; fixtures.result_of fixtures.sample_2 "c"]
  = filter (fun r => data.id (editors.result_sample r) = "2")
      [fixtures.result_of fixtures.sample_2 "a";
       fixtures.result_of fixtures.sample_1 "b";
       fixtures.result_of fixtures.sample_2 "c"].
Proof.
  destruct (group_by_id_order_preserving
    {| editors.results :=
         [fixtures.result_of fixtures.sample_2 "a";
          fixtures.result_of fixtures.sample_1 "b";
          fixtures.result_of fixtures.sample_2 "c"] |}) as (_ & _ & _ & _ & Hgroup).
  apply (Hgroup "2"). vm_compute. left.
Defined.

(** ** scripts/benchmark.py: loading editors and the loop over the layers *)

Section driver_facts.
Context `{scripts_benchmark.DriverAPI} `{metrics.MetricsAPI}.
Import scripts_benchmark pathlib.

Lemma exists_spec (p : Path) (w : World) : exists_ p w = (w, Ok (present w p)).
Proof. reflexivity. Qed.

Lemma load_editor_identity mt layer editors_dir device factory (w : World) :
  SUPPORTED_EDITORS !! "identity" = Some factory →
  load_editor "identity" mt layer editors_dir device w
  = (w, Ok (Some (editor_to (factory mt layer) device))).
Proof.
  intros Hfactory. unfold load_editor, pure, lift, getitem.
  rewrite Hfactory. reflexivity.
Qed.

Lemma load_editor_no_dir editor_type mt layer device factory (w : World) :
  SUPPORTED_EDITORS !! editor_type = Some factory →
  editor_type ≠ "identity" →
  load_editor editor_type mt layer None device w
  = (logged WARNING "editors_dir not specified for non-identity editor" w, Ok None).
Proof.
  intros Hfactory Htype. unfold load_editor, pure, lift, getitem.
  rewrite Hfactory. mstep.
  rewrite decide_True by assumption. reflexivity.
Qed.

Lemma load_editor_missing_weights editor_type mt layer dir device factory (w : World) :
  SUPPORTED_EDITORS !! editor_type = Some factory →
  editor_type ≠ "identity" →
  present w (dir // editor_type // pretty layer // "weights.pth") = false →
  load_editor editor_type mt layer (Some dir) device w
  = (logged WARNING
       ("weights expected at "
        ++ str (dir // editor_type // pretty layer // "weights.pth")
        ++ " but not found") w,
     Ok None).
Proof.
  intros Hfactory Htype Hmissing. unfold load_editor, pure, lift, getitem.
  rewrite Hfactory. mstep.
  rewrite decide_True by assumption.
  mstep. rewrite exists_spec, Hmissing. reflexivity.
Qed.

(** With the weights file in place [load_editor] loads it: it returns an
    editor or raises, and never returns [None]. *)
Lemma load_editor_weights_present editor_type mt layer dir device factory (w : World) :
  SUPPORTED_EDITORS !! editor_type = Some factory →
  editor_type ≠ "identity" →
  present w (dir // editor_type // pretty layer // "weights.pth") = true →
  (load_editor editor_type mt layer (Some dir) device w).2 ≠ Ok None.
Proof.
  intros Hfactory Htype Hpresent. unfold load_editor, pure, lift, getitem.
  rewrite Hfactory. mstep.
  rewrite decide_True by assumption.
  mstep. rewrite exists_spec, Hpresent. cbn [negb].
  cbv [mbind M_bind mret M_ret modify get raise lift pure logger
       torch_load_file read_text].
  cbn [files logged].
  destruct (files w !! _) as [content|]; [|discriminate].
  destruct (torch_load content device) as [state_dict|e]; [|discriminate].
  destruct (load_state_dict _ state_dict) as [editor|e]; discriminate.
Qed.

(** C10: for a registered editor type, [load_editor] returns [None] exactly
    when the type is not ["identity"] and either no editors directory is
    given or the expected weights file does not exist; for ["identity"] it
    returns the constructed editor and leaves the world as it is, so that no
    weights file is read. *)
Theorem load_editor_returns_None_iff
    (editor_type : string) (mt : ModelAndTokenizer) (layer : Z)
    (editors_dir : option Path) (device : option Device)
    (factory : ModelAndTokenizer → Z → Editor) (w : World) :
  SUPPORTED_EDITORS !! editor_type = Some factory →
  ((load_editor editor_type mt layer editors_dir device w).2 = Ok None
   ↔ editor_type ≠ "identity"
     ∧ (editors_dir = None
        ∨ ∃ dir, editors_dir = Some dir
                 ∧ present w (dir // editor_type // pretty layer // "weights.pth")
                   = false))
  ∧ (editor_type = "identity" →
     load_editor editor_type mt layer editors_dir device w
     = (w, Ok (Some (editor_to (factory mt layer) device)))).
Proof.
  intros Hfactory. split.
  - destruct (decide (editor_type = "identity")) as [->|Htype].
    + rewrite (load_editor_identity _ _ _ _ factory) by assumption.
      split; [discriminate|]. intros [Hne _]. done.
    + destruct editors_dir as [dir|].
      * destruct (present w (dir // editor_type // pretty layer // "weights.pth"))
          eqn:Hpresent.
        -- split.
           ++ intros Hnone. exfalso.
              by eapply load_editor_weights_present.
           ++ intros (_ & [Hdir | (dir' & [= <-] & Hmissing)]); [discriminate|].
              congruence.
        -- rewrite (load_editor_missing_weights _ _ _ _ _ factory) by assumption.
           split; [|reflexivity]. intros _. split; [assumption|]. right. eauto.
      * rewrite (load_editor_no_dir _ _ _ _ factory) by assumption.
        split; [|reflexivity]. intros _. split; [assumption|]. by left.
  - intros ->. by apply load_editor_identity.
Qed.

Lemma main_loop_cons (setup : Setup) (layer : Z) (layers : list Z) (w : World) :
  main_loop setup (layer :: layers) w
  = match benchmark_layer setup layer w with
    | (w', Ok _) => main_loop setup layers w'
    | (w', Raise e) => (w', Raise e)
    end.
Proof.
  unfold main_loop. cbn [for_inM]. rewrite M_bind_run.
  destruct (benchmark_layer setup layer w) as [w' [[]|e]]; reflexivity.
Qed.

(** C7: when the editor type is registered and is not ["identity"], and no
    editors directory is given or the weights file of the layer does not
    exist, [load_editor] logs a warning and returns [None], and the loop of
    [main] logs a second warning and goes on with the remaining layers. *)
Theorem main_loop_skips_layer_without_weights
    (setup : Setup) (layer : Z) (layers : list Z)
    (factory : ModelAndTokenizer → Z → Editor) (w : World) :
  SUPPORTED_EDITORS !! editor_type setup = Some factory →
  editor_type setup ≠ "identity" →
  (editors_dir setup = None
   ∨ ∃ dir, editors_dir setup = Some dir
            ∧ present w (dir // editor_type setup // pretty layer // "weights.pth")
              = false) →
  ∃ warning,
    load_editor (editor_type setup) (mt setup) layer (editors_dir setup)
      (device setup) w
    = (logged WARNING warning w, Ok None)
    ∧ main_loop setup (layer :: layers) w
      = main_loop setup layers
          (logged WARNING ("skipping benchmark for layer " ++ pretty layer)
             (logged WARNING warning w)).
Proof.
  intros Hfactory Htype Hweights.
  assert (∃ warning,
    load_editor (editor_type setup) (mt setup) layer (editors_dir setup)
      (device setup) w = (logged WARNING warning w, Ok None)) as [warning Hload].
  { destruct Hweights as [-> | (dir & -> & Hmissing)].
    - eexists. by eapply load_editor_no_dir.
    - eexists. by eapply load_editor_missing_weights. }
  exists warning. split; [assumption|].
  rewrite main_loop_cons. unfold benchmark_layer.
  rewrite (M_bind_run_Ok _ _ _ _ _ Hload). reflexivity.
Qed.

End driver_facts.

(** ** scripts/benchmark.py: resuming from persisted results *)

Section resume_facts.
Context `{scripts_benchmark.DriverAPI} `{metrics.MetricsAPI}.
Import scripts_benchmark pathlib.

(** Symbolic execution of driver code. *)
Ltac drun :=
  cbv [mbind M_bind mret M_ret modify get raise lift pure logger exists_
       read_text write_text mkdir editor_evaluate];
  cbn [files dirs log weight_loads evaluate_calls logged].

Lemma present_file (w : World) (p : Path) (content : string) :
  files w !! p = Some content → present w p = true.
Proof.
  intros Hfile. unfold present.
  rewrite bool_decide_eq_true_2 by (by rewrite Hfile). reflexivity.
Qed.

(** A subset whose results file exists is loaded from it: the world changes
    by one log record only. *)
Lemma evaluate_subset_found (setup : Setup) (editor : Editor) (layer : Z)
    (key : string) (subset : data.Dataset) (kwargs : option Z * option Z)
    (results : gmap string editors.EditorEvaluateRun) (content : string) (w : World) :
  files w !! results_file setup layer key = Some content →
  evaluate_subset setup editor layer (key, subset, kwargs) results w
  = (logged INFO
       ("found existing " ++ key ++ " generations at "
        ++ str (results_file setup layer key)) w,
     run ← from_json content; Ok (<[key := run]> results)).
Proof.
  intros Hfile. destruct kwargs as [max_new_tokens max_length].
  unfold evaluate_subset. drun.
  rewrite (present_file _ _ _ Hfile), Hfile.
  destruct (from_json content) as [run|e]; reflexivity.
Qed.

Lemma evaluate_subset_Ok (setup : Setup) (editor : Editor) (layer : Z)
    (key : string) (subset : data.Dataset) (kwargs : option Z * option Z)
    (results results' : gmap string editors.EditorEvaluateRun) (w w' : World) :
  evaluate_subset setup editor layer (key, subset, kwargs) results w = (w', Ok results') →
  ∃ run content,
    results' = <[key := run]> results
    ∧ files w' !! results_file setup layer key = Some content
    ∧ persisted_as run content
    ∧ ∀ p, p ≠ results_file setup layer key → files w' !! p = files w !! p.
Proof.
  destruct kwargs as [max_new_tokens max_length].
  unfold evaluate_subset. drun. intros Hrun.
  destruct (present w (results_file setup layer key)).
  - destruct (files w !! results_file setup layer key) as [content|] eqn:Hfile;
      [|discriminate].
    destruct (from_json content) as [run|e] eqn:Hrun'; [|discriminate].
    injection Hrun as <- <-. exists run, content.
    split; [reflexivity|]. split; [assumption|]. split; [by left|]. done.
  - destruct (bool_decide (Exists _ _)); [discriminate|].
    match type of Hrun with
    | context [evaluate ?args] =>
        destruct (evaluate args) as [run|e] eqn:Hevaluate; [|discriminate]
    end.
    cbn [dirs] in Hrun.
    destruct (bool_decide (results_file setup layer key ∈ _)); [discriminate|].
    destruct (bool_decide (_ ∧ _)); [discriminate|].
    injection Hrun as <- <-. exists run, (to_json run). cbn [files].
    split; [reflexivity|]. split; [apply lookup_insert_eq|].
    split; [right; eauto|].
    intros p Hp. by rewrite lookup_insert_ne.
Qed.

Lemma results_file_ne (setup : Setup) (layer : Z) (key key' : string) :
  key ++ "_results.json" ≠ key' ++ "_results.json" →
  results_file setup layer key ≠ results_file setup layer key'.
Proof.
  unfold results_file, div. intros Hne Heq.
  apply app_inj_tail in Heq as [_ Heq]. done.
Qed.

(** The runs a completed pass over the three subsets returns, and the results
    files it leaves behind. *)
Lemma evaluate_subsets_Ok (setup : Setup) (editor : Editor) (layer : Z)
    (results : gmap string editors.EditorEvaluateRun) (w w' : World) :
  evaluate_subsets setup editor layer w = (w', Ok results) →
  ∃ r1 r2 r3 c1 c2 c3,
    results = <["generation_prompts" := r3]>
                (<["paraphrase_prompts" := r2]> (<["prompts" := r1]> ∅))
    ∧ files w' !! results_file setup layer "prompts" = Some c1
    ∧ files w' !! results_file setup layer "paraphrase_prompts" = Some c2
    ∧ files w' !! results_file setup layer "generation_prompts" = Some c3
    ∧ persisted_as r1 c1 ∧ persisted_as r2 c2 ∧ persisted_as r3 c3.
Proof.
  unfold evaluate_subsets, subsets. cbn [for_inM]. intros Hrun.
  apply M_bind_run_inv in Hrun as (w1 & acc1 & Hstep1 & Hrun).
  apply M_bind_run_inv in Hrun as (w2 & acc2 & Hstep2 & Hrun).
  apply M_bind_run_inv in Hrun as (w3 & acc3 & Hstep3 & Hrun).
  injection Hrun as <- <-.
  apply evaluate_subset_Ok in Hstep1 as (r1 & c1 & -> & Hc1 & Hp1 & _).
  apply evaluate_subset_Ok in Hstep2 as (r2 & c2 & -> & Hc2 & Hp2 & Hframe2).
  apply evaluate_subset_Ok in Hstep3 as (r3 & c3 & -> & Hc3 & Hp3 & Hframe3).
  exists r1, r2, r3, c1, c2, c3.
  split; [reflexivity|].
  split.
  { rewrite Hframe3, Hframe2; [assumption| |];
      apply results_file_ne; vm_compute; discriminate. }
  split.
  { rewrite Hframe3; [assumption|].
    apply results_file_ne; vm_compute; discriminate. }
  auto.
Qed.

(** A pass over fully persisted results loads them and evaluates nothing. *)
Lemma evaluate_subsets_persisted (setup : Setup) (editor : Editor) (layer : Z)
    (c1 c2 c3 : string) (w : World) :
  files w !! results_file setup layer "prompts" = Some c1 →
  files w !! results_file setup layer "paraphrase_prompts" = Some c2 →
  files w !! results_file setup layer "generation_prompts" = Some c3 →
  ∃ w',
    evaluate_subsets setup editor layer w = (w', loaded c1 c2 c3)
    ∧ files w' = files w
    ∧ dirs w' = dirs w
    ∧ weight_loads w' = weight_loads w
    ∧ evaluate_calls w' = evaluate_calls w.
Proof.
  intros Hc1 Hc2 Hc3. unfold evaluate_subsets, subsets, loaded. cbn [for_inM].
  rewrite M_bind_run, (evaluate_subset_found _ _ _ _ _ _ _ c1) by assumption.
  destruct (from_json c1) as [r1|e]; cbn [mbind result_bind]; [|eauto 10].
  rewrite M_bind_run, (evaluate_subset_found _ _ _ _ _ _ _ c2) by assumption.
  destruct (from_json c2) as [r2|e]; cbn [mbind result_bind]; [|eauto 10].
  rewrite M_bind_run, (evaluate_subset_found _ _ _ _ _ _ _ c3) by assumption.
  destruct (from_json c3) as [r3|e]; cbn [mbind result_bind]; eauto 10.
Qed.

Lemma persisted_as_roundtrip (run : editors.EditorEvaluateRun) (content : string) :
  (∀ args run, evaluate args = Ok run → from_json (to_json run) = Ok run) →
  persisted_as run content → from_json content = Ok run.
Proof. intros Hroundtrip [Hloaded | (args & Hevaluate & ->)]; eauto. Qed.

(** C4: in the loop over the subsets, a subset whose results file exists is
    deserialized from that file, and the world changes by one log record only,
    so [editor.evaluate] is not called for it.  Hence a pass over three
    existing results files makes no call to [evaluate], leaves the files as
    they are and returns the runs it loads; and after a pass that completed,
    a second pass does so, every later pass returns the same runs, and these
    are the runs of the first pass when documents written by [to_json] are
    read back by [from_json]. *)
Theorem resumed_run_loads_persisted_results
    (setup : Setup) (editor : Editor) (layer : Z) (w : World) :
  (∀ key subset kwargs results content,
     files w !! results_file setup layer key = Some content →
     evaluate_subset setup editor layer (key, subset, kwargs) results w
     = (logged INFO
          ("found existing " ++ key ++ " generations at "
           ++ str (results_file setup layer key)) w,
        run ← from_json content; Ok (<[key := run]> results)))
  ∧ (∀ c1 c2 c3,
       files w !! results_file setup layer "prompts" = Some c1 →
       files w !! results_file setup layer "paraphrase_prompts" = Some c2 →
       files w !! results_file setup layer "generation_prompts" = Some c3 →
       ∃ w',
         evaluate_subsets setup editor layer w = (w', loaded c1 c2 c3)
         ∧ evaluate_calls w' = evaluate_calls w
         ∧ files w' = files w)
  ∧ (∀ w1 results1,
       evaluate_subsets setup editor layer w = (w1, Ok results1) →
       ∀ editor2, ∃ w2 results2,
         evaluate_subsets setup editor2 layer w1 = (w2, results2)
         ∧ evaluate_calls w2 = evaluate_calls w1
         ∧ files w2 = files w1
         ∧ (∀ editor3, ∃ w3,
              evaluate_subsets setup editor3 layer w2 = (w3, results2)
              ∧ evaluate_calls w3 = evaluate_calls w2)
         ∧ ((∀ args run, evaluate args = Ok run → from_json (to_json run) = Ok run) →
            results2 = Ok results1)).
Proof.
  split; [|split].
  - intros key subset kwargs results content Hfile.
    by apply evaluate_subset_found.
  - intros c1 c2 c3 Hc1 Hc2 Hc3.
    destruct (evaluate_subsets_persisted setup editor layer c1 c2 c3 w Hc1 Hc2 Hc3)
      as (w' & Hrun & Hfiles & _ & _ & Hcalls).
    eauto.
  - intros w1 results1 Hfirst editor2.
    apply evaluate_subsets_Ok in Hfirst
      as (r1 & r2 & r3 & c1 & c2 & c3 & -> & Hc1 & Hc2 & Hc3 & Hp1 & Hp2 & Hp3).
    destruct (evaluate_subsets_persisted setup editor2 layer c1 c2 c3 w1 Hc1 Hc2 Hc3)
      as (w2 & Hsecond & Hfiles & _ & _ & Hcalls).
    exists w2, (loaded c1 c2 c3).
    split; [assumption|]. split; [assumption|]. split; [assumption|]. split.
    + intros editor3. rewrite <- Hfiles in Hc1, Hc2, Hc3.
      destruct (evaluate_subsets_persisted setup editor3 layer c1 c2 c3 w2 Hc1 Hc2 Hc3)
        as (w3 & Hthird & _ & _ & _ & Hcalls3).
      eauto.
    + intros Hroundtrip. unfold loaded.
      rewrite (persisted_as_roundtrip r1 c1), (persisted_as_roundtrip r2 c2),
        (persisted_as_roundtrip r3 c3) by assumption.
      reflexivity.
Qed.

End resume_facts.

(** Two passes of the fixture over layer 1, starting from an empty disk: the
    first evaluates and persists the three subsets, the second loads them,
    evaluates nothing and returns the same runs. *)
Lemma resumed_run_loads_persisted_results_witness :
  let first :=
    @scripts_benchmark.evaluate_subsets _ fixtures.two_editors _
      fixtures.setup_linear tt 1 fixtures.empty_world in
  let results1 :=
    <["generation_prompts" := fixtures.the_run]>
      (<["paraphrase_prompts" := fixtures.the_run]>
         (<["prompts" := fixtures.the_run]> ∅)) in
  first.2 = Ok results1
  ∧ length (scripts_benchmark.evaluate_calls first.1) = 3%nat
  ∧ ∃ w2 results2,
      @scripts_benchmark.evaluate_subsets _ fixtures.two_editors _
        fixtures.setup_linear tt 1 first.1 = (w2, results2)
      ∧ scripts_benchmark.evaluate_calls w2 = scripts_benchmark.evaluate_calls first.1
      ∧ results2 = Ok results1.
Proof.
  intros first results1.
  assert (first.2 = Ok results1) as Hresults by (vm_compute; reflexivity).
  split; [exact Hresults|]. split; [vm_compute; reflexivity|].
  destruct (@resumed_run_loads_persisted_results _ fixtures.two_editors _
              fixtures.setup_linear tt 1 fixtures.empty_world) as (_ & _ & Hsecond).
  fold first in Hsecond. clearbody first. destruct first as [w1 r1].
  cbn [fst snd] in *. subst r1.
  destruct (Hsecond w1 results1 eq_refl tt)
    as (w2 & results2 & Hrun & Hcalls & _ & _ & Hsame).
  exists w2, results2. split; [exact Hrun|]. split; [exact Hcalls|].
  apply Hsame. intros args run [= <-]. reflexivity.
Defined.

(** The linear editor of the fixture on an empty disk: no weights, [None]. *)
Lemma load_editor_returns_None_iff_witness :
  ((@scripts_benchmark.load_editor _ fixtures.two_editors
      "linear" tt 3 (Some ["editors"]) None fixtures.empty_world).2 = Ok None
   ↔ "linear" ≠ "identity"
     ∧ (Some ["editors"] = None
        ∨ ∃ dir, Some ["editors"] = Some dir
                 ∧ scripts_benchmark.present fixtures.empty_world
                     (dir // "linear" // pretty 3 // "weights.pth") = false))
  ∧ ("linear" = "identity" →
     @scripts_benchmark.load_editor _ fixtures.two_editors
       "linear" tt 3 (Some ["editors"]) None fixtures.empty_world
     = (fixtures.empty_world, Ok (Some tt))).
Proof.
  apply (@load_editor_returns_None_iff _ fixtures.two_editors
           "linear" tt 3 (Some ["editors"]) None (fun _ _ => tt)).
  reflexivity.
Defined.

(** Layers 2 and 1 with weights on disk for layer 1 only: layer 2 is skipped
    with two warnings and the loop goes on with layer 1. *)
Lemma main_loop_skips_layer_without_weights_witness :
  ∃ warning,
    @scripts_benchmark.load_editor _ fixtures.two_editors
      "linear" tt 2 (Some ["editors"]) None fixtures.world_with_layer_1
    = (scripts_benchmark.logged scripts_benchmark.WARNING warning
         fixtures.world_with_layer_1, Ok None)
    ∧ @scripts_benchmark.main_loop _ fixtures.two_editors _ fixtures.setup_linear
        [2; 1] fixtures.world_with_layer_1
      = @scripts_benchmark.main_loop _ fixtures.two_editors _ fixtures.setup_linear
          [1]
          (scripts_benchmark.logged scripts_benchmark.WARNING
             ("skipping benchmark for layer " ++ pretty 2)
             (scripts_benchmark.logged scripts_benchmark.WARNING warning
                fixtures.world_with_layer_1)).
Proof.
  apply (@main_loop_skips_layer_without_weights _ fixtures.two_editors _
           fixtures.setup_linear 2 [1] (fun _ _ => tt) fixtures.world_with_layer_1).
  - reflexivity.
  - discriminate.
  - right. exists ["editors"]. split; [reflexivity|]. vm_compute. reflexivity.
Defined.

(** ** src/benchmarks.py: the essence benchmark *)

Section essence_facts.
Context `{models.ModelAPI} `{metrics.MetricsAPI}.
Import models benchmarks.

Implicit Types (unedited : list Edit) (P : list Edit * ModelCall → Prop).

Lemma keeps_pure {A : Type} unedited P (r : result A) : keeps unedited P (pure r).
Proof.
  intros w Hw. split; [assumption|]. exists []. split; [|constructor].
  cbn. by rewrite app_nil_r.
Qed.

Lemma keeps_mret {A : Type} unedited P (a : A) :
  keeps unedited P (mret a : M World A).
Proof. apply (keeps_pure unedited P (Ok a)). Qed.

Lemma keeps_bind {A B : Type} unedited P (m : M World A) (f : A → M World B) :
  keeps unedited P m → (∀ a, keeps unedited P (f a)) → keeps unedited P (m ≫= f).
Proof.
  intros Hm Hf w Hw. rewrite M_bind_run.
  destruct (Hm w Hw) as (Hedits & new & Hcalls & Hnew).
  destruct (m w) as [w1 [a|e]]; cbn [fst] in *.
  - destruct (Hf a w1 Hedits) as (Hedits' & new' & Hcalls' & Hnew').
    split; [assumption|]. exists (new ++ new')%list.
    split; [|by apply Forall_app].
    by rewrite Hcalls', Hcalls, app_assoc.
  - split; [assumption|]. eauto.
Qed.

Lemma keeps_for_inM {A B : Type} unedited P (xs : list A) (body : A → B → M World B)
    (acc : B) :
  (∀ x acc, keeps unedited P (body x acc)) → keeps unedited P (for_inM xs body acc).
Proof.
  intros Hbody. revert acc. induction xs as [|x xs IH]; intros acc; cbn [for_inM].
  - apply keeps_mret.
  - apply keeps_bind; [apply Hbody|]. intros acc'. apply IH.
Qed.

Lemma keeps_model_forward unedited P mt inputs :
  P (unedited, Forward inputs) → keeps unedited P (model_forward mt inputs).
Proof.
  intros HP w Hw. unfold model_forward. cbn. split; [assumption|].
  exists [(unedited, Forward inputs)]. rewrite Hw. split; [reflexivity|].
  by constructor.
Qed.

Lemma keeps_model_generate unedited P mt args :
  P (unedited, Generate args) → keeps unedited P (model_generate mt args).
Proof.
  intros HP w Hw. unfold model_generate.
  destruct (generate mt (active_edits w) (rng w) args) as [r rng']. cbn.
  split; [assumption|].
  exists [(unedited, Generate args)]. rewrite Hw. split; [reflexivity|].
  by constructor.
Qed.

(** A generation call in the scope of [editors.apply]: it runs under the
    edit, and the edits are restored when the scope is left. *)
Lemma keeps_apply_generate_edited unedited P editor alpha beta device args :
  P ({| edit_editor := editor; edit_alpha := alpha; edit_beta := beta;
        edit_device := device |} :: unedited, GenerateEdited args) →
  keeps unedited P
    (editors.apply editor alpha beta device
       (fun edited_mt => model_generate_edited edited_mt args)).
Proof.
  intros HP w Hw. unfold editors.apply, model_generate_edited.
  cbn [active_edits rng calls].
  destruct (generate_edited _ _ _ args) as [r rng']. cbn.
  split; [assumption|]. rewrite Hw. eexists. split; [reflexivity|].
  by constructor.
Qed.

Lemma keeps_essence_batch unedited editor alpha beta batch_size prompt_template
    max_new_tokens max_length use_references tfidf_vectorizer device
    past_key_values item lists :
  keeps unedited
    (essence_call unedited editor alpha beta device max_new_tokens max_length)
    (essence_batch editor alpha beta batch_size prompt_template max_new_tokens
       max_length use_references tfidf_vectorizer device past_key_values item lists).
Proof.
  unfold essence_batch. cbv zeta.
  apply keeps_bind; [apply keeps_pure|]. intros prompts.
  apply keeps_bind.
  { destruct use_references as [refs|]; [apply keeps_mret|].
    apply keeps_bind; [|intros outputs; apply keeps_mret].
    apply keeps_model_generate. by repeat split. }
  intros batch_reference_groups.
  apply keeps_bind.
  { apply keeps_apply_generate_edited. by repeat split. }
  intros outputs.
  apply keeps_bind; [apply keeps_pure|]. intros scores. apply keeps_mret.
Qed.

Lemma keeps_essence_run unedited editor dataset alpha beta batch_size prompt_prefix
    prompt_template max_new_tokens max_length use_references tfidf_vectorizer
    desc device :
  keeps unedited
    (essence_call unedited editor alpha beta device max_new_tokens
       (effective_max_length max_new_tokens max_length))
    (essence_run editor dataset alpha beta batch_size prompt_prefix prompt_template
       max_new_tokens max_length use_references tfidf_vectorizer desc device).
Proof.
  unfold essence_run. cbv zeta.
  replace (if bool_decide (max_length = None) && bool_decide (max_new_tokens = None)
           then Some DEFAULT_MAX_LENGTH else max_length)
    with (effective_max_length max_new_tokens max_length)
    by (by destruct max_length, max_new_tokens).
  apply keeps_bind.
  { destruct tfidf_vectorizer; [apply keeps_mret | apply keeps_pure]. }
  intros vectorizer.
  apply keeps_bind.
  { destruct prompt_prefix as [prefix|]; [|apply keeps_mret].
    apply keeps_bind; [|intros kvs; apply keeps_mret].
    apply keeps_model_forward. by repeat split. }
  intros past_key_values.
  apply keeps_bind; [apply keeps_pure|]. intros loader.
  apply keeps_bind.
  { apply keeps_for_inM. intros item lists. apply keeps_essence_batch. }
  intros lists.
  apply keeps_bind; [apply keeps_pure|]. intros essence_metric.
  apply keeps_bind; [apply keeps_pure|]. intros fluency_generaton.
  apply keeps_bind; [apply keeps_pure|]. intros fluency_references.
  apply keeps_mret.
Qed.

Lemma keeps_essence unedited editor dataset alpha beta batch_size prompt_prefix
    prompt_template max_new_tokens max_length use_references tfidf_vectorizer
    desc device :
  keeps unedited
    (essence_call unedited editor alpha beta device max_new_tokens
       (effective_max_length max_new_tokens max_length))
    (essence editor dataset alpha beta batch_size prompt_prefix prompt_template
       max_new_tokens max_length use_references tfidf_vectorizer desc device).
Proof.
  unfold essence. apply keeps_bind; [apply keeps_pure|].
  intros _. apply keeps_essence_run.
Qed.

(** C5: whatever [essence] is called with, and whether it returns or raises,
    the edits applied to the model when it ends are those applied when it
    started, so that a generation call with the same seed and inputs gives
    after it what it gave before it; every scope of [editors.apply] leaves the
    model as it found it, whether its block returns or raises; and in the
    trace of [essence] each generation call through the handle of a scope ran
    under the edit, each other computation, in particular each one made after
    a scope was left, under the edits applied at the start. *)
Theorem essence_restores_model
    (editor : Editor) (dataset : data.Dataset) (alpha beta : float)
    (batch_size : Z) (prompt_prefix : option string) (prompt_template : string)
    (max_new_tokens max_length : option Z)
    (use_references : option (list (list string)))
    (tfidf_vectorizer : option metrics.Vectorizer) (desc : option string)
    (device : option Device) (w : World) :
  let w' :=
    (essence editor dataset alpha beta batch_size prompt_prefix prompt_template
       max_new_tokens max_length use_references tfidf_vectorizer desc device w).1 in
  active_edits w' = active_edits w
  ∧ (∀ mt seed args,
       generate mt (active_edits w') seed args
       = generate mt (active_edits w) seed args)
  ∧ (∀ (A : Type) (block : ModelAndTokenizer → M World A) (w0 : World),
       active_edits (editors.apply editor alpha beta device block w0).1
       = active_edits w0)
  ∧ ∃ new,
      calls w' = (calls w ++ new)%list
      ∧ Forall
          (ran_under (active_edits w)
             {| edit_editor := editor; edit_alpha := alpha; edit_beta := beta;
                edit_device := device |}) new.
Proof.
  intros w'.
  destruct (keeps_essence (active_edits w) editor dataset alpha beta batch_size
              prompt_prefix prompt_template max_new_tokens max_length
              use_references tfidf_vectorizer desc device w eq_refl)
    as (Hedits & new & Hcalls & Hnew).
  fold w' in Hedits, Hcalls.
  split; [assumption|]. split; [by rewrite Hedits|]. split.
  - intros A block w0. unfold editors.apply.
    destruct (block _ _) as [w1 r]. reflexivity.
  - exists new. split; [assumption|].
    eapply Forall_impl; [exact Hnew|]. by intros entry [Hran _].
Qed.

(** C6: [essence] raises a [ValueError] and leaves the world as it is, so
    that the model has computed nothing, when the prompt template does not
    contain the slot exactly once, and when references are supplied whose
    number differs from the size of the dataset; when the template contains
    the slot once and the references, if supplied, are as many as the
    samples, both checks pass and [essence] goes on with its work. *)
Theorem essence_rejects_malformed_arguments
    (editor : Editor) (dataset : data.Dataset) (alpha beta : float)
    (batch_size : Z) (prompt_prefix : option string) (prompt_template : string)
    (max_new_tokens max_length : option Z)
    (use_references : option (list (list string)))
    (tfidf_vectorizer : option metrics.Vectorizer) (desc : option string)
    (device : option Device) (w : World) :
  (count prompt_template "{}" ≠ 1%nat
   ∨ (∃ refs, use_references = Some refs ∧ length refs ≠ length dataset) →
   ∃ msg,
     essence editor dataset alpha beta batch_size prompt_prefix prompt_template
       max_new_tokens max_length use_references tfidf_vectorizer desc device w
     = (w, Raise (ValueError msg)))
  ∧ (count prompt_template "{}" = 1%nat →
     (∀ refs, use_references = Some refs → length refs = length dataset) →
     essence_validate dataset prompt_template use_references = Ok tt
     ∧ essence editor dataset alpha beta batch_size prompt_prefix prompt_template
         max_new_tokens max_length use_references tfidf_vectorizer desc device w
       = essence_run editor dataset alpha beta batch_size prompt_prefix
           prompt_template max_new_tokens max_length use_references
           tfidf_vectorizer desc device w).
Proof.
  split.
  - intros Hbad.
    assert (∃ msg, essence_validate dataset prompt_template use_references
                   = Raise (ValueError msg)) as [msg Hmsg].
    { unfold essence_validate.
      destruct (decide (count prompt_template "{}" ≠ 1%nat)) as [|Hone]; [eauto|].
      destruct Hbad as [Htemplate | (refs & -> & Hlen)]; [done|].
      rewrite decide_True by assumption. eauto. }
    exists msg. unfold essence, pure, lift. rewrite M_bind_run, Hmsg. reflexivity.
  - intros Hone Hrefs.
    assert (essence_validate dataset prompt_template use_references = Ok tt)
      as Hvalid.
    { unfold essence_validate. rewrite decide_False by (intros Hne; done).
      destruct use_references as [refs|]; [|reflexivity].
      rewrite decide_False; [reflexivity|]. intros Hne. apply Hne. by apply Hrefs. }
    split; [assumption|].
    unfold essence, pure, lift. rewrite M_bind_run, Hvalid. reflexivity.
Qed.

End essence_facts.

(** A template with two slots is rejected, and a template with one slot is
    accepted, on the fixture. *)
Lemma essence_rejects_malformed_arguments_witness :
  (∃ msg,
     @benchmarks.essence _ _ fixtures.text_model fixtures.unit_metrics
       tt [fixtures.sample_1] 1 0 2 (Some "The") "{} is {}" None None None None
       None None fixtures.fresh_model
     = (fixtures.fresh_model, Raise (ValueError msg)))
  ∧ (benchmarks.essence_validate [fixtures.sample_1] "{} is" (Some [["Paris"]]) = Ok tt
     ∧ @benchmarks.essence _ _ fixtures.text_model fixtures.unit_metrics
         tt [fixtures.sample_1] 1 0 2 (Some "The") "{} is" None None
         (Some [["Paris"]]) None None None fixtures.fresh_model
       = @benchmarks.essence_run _ _ fixtures.text_model fixtures.unit_metrics
           tt [fixtures.sample_1] 1 0 2 (Some "The") "{} is" None None
           (Some [["Paris"]]) None None None fixtures.fresh_model).
Proof.
  split.
  - apply (@essence_rejects_malformed_arguments _ _ fixtures.text_model
             fixtures.unit_metrics tt [fixtures.sample_1] 1%float 0%float 2
             (Some "The") "{} is {}" None None None None None None
             fixtures.fresh_model).
    left. vm_compute. discriminate.
  - apply (@essence_rejects_malformed_arguments _ _ fixtures.text_model
             fixtures.unit_metrics tt [fixtures.sample_1] 1%float 0%float 2
             (Some "The") "{} is" None None (Some [["Paris"]]) None None None
             fixtures.fresh_model).
    + reflexivity.
    + intros refs [= <-]. reflexivity.
Defined.

(** The fixture on three samples in batches of two: the model computes the
    prefix, generates references and edited text for the first batch under
    the fallback cap of 100, and the edited generation call of the second
    batch raises; the edits are those of the start (none) when [essence]
    ends. *)
Example essence_raising_in_scope :
  let w' :=
    (@benchmarks.essence _ _ fixtures.text_model fixtures.unit_metrics
       tt [fixtures.sample_1; fixtures.sample_1; fixtures.sample_2] 1 0 2
       (Some "The") "{} is" None None None None None None fixtures.fresh_model) in
  w'.2 = Raise (RuntimeError "out of memory")
  ∧ models.active_edits w'.1 = []
  ∧ (λ entry : list models.Edit * models.ModelCall,
       (length entry.1,
        match entry.2 with
        | models.Forward _ => None
        | models.Generate args => Some (models.gen_max_length args)
        | models.GenerateEdited args => Some (models.egen_max_length args)
        end)) <$> models.calls w'.1
    = [(0%nat, None); (0%nat, Some (Some 100)); (1%nat, Some (Some 100));
       (0%nat, Some (Some 100)); (1%nat, Some (Some 100))].
Proof. vm_compute. repeat split. Qed.

(** * Further properties of the code *)

(** ** src/benchmarks.py: what the classification report contains *)

Section classification_report.
Import sklearn benchmarks.

Lemma cell_replicate_neq (t p b : bool) (y_true : list bool) :
  p ≠ b → cell t p y_true (replicate (length y_true) b) = 0.
Proof.
  intros Hne. induction y_true as [|a y_true IH]; [reflexivity|].
  cbn [length replicate cell]. rewrite IH.
  rewrite (bool_decide_eq_false_2 (b = p)) by congruence.
  by rewrite andb_false_r.
Qed.

Lemma cell_replicate_eq (t b : bool) (y_true : list bool) :
  cell t b y_true (replicate (length y_true) b)
  = Z.of_nat (length (filter (fun a => a = t) y_true)).
Proof.
  induction y_true as [|a y_true IH]; [reflexivity|].
  cbn [length replicate cell]. rewrite IH.
  rewrite (bool_decide_eq_true_2 (b = b)) by reflexivity. rewrite andb_true_r.
  destruct (decide (a = t)) as [Heq|Hne].
  - rewrite filter_cons_True, bool_decide_eq_true_2 by assumption.
    cbn [length]. lia.
  - rewrite filter_cons_False, bool_decide_eq_false_2 by assumption. lia.
Qed.

Lemma sum_bool_filter (y_true : list bool) :
  sum_bool y_true = Z.of_nat (length (filter (fun a => a = true) y_true)).
Proof.
  induction y_true as [|a y_true IH]; [reflexivity|].
  cbn [sum_bool fold_right]. fold (sum_bool y_true). rewrite IH.
  destruct a.
  - rewrite filter_cons_True by reflexivity. cbn [length]. lia.
  - rewrite filter_cons_False by discriminate. lia.
Qed.

Lemma filter_true_false_length (y_true : list bool) :
  (length (filter (fun a => a = true) y_true)
   + length (filter (fun a => a = false) y_true))%nat = length y_true.
Proof.
  induction y_true as [|a y_true IH]; [reflexivity|].
  destruct a.
  - rewrite filter_cons_True, filter_cons_False by done. cbn [length]. lia.
  - rewrite filter_cons_False, filter_cons_True by done. cbn [length]. lia.
Qed.

(** The scores of the constant prediction of the majority label. *)
Lemma majority_scores (y_true : list bool) :
  let n := Z.of_nat (length y_true) in
  let majority := n <=? 2 * sum_bool y_true in
  let y_pred := replicate (length y_true) majority in
  accuracy_score y_true y_pred
  = Ok {| num := Z.max (sum_bool y_true) (n - sum_bool y_true); den := n |}
  ∧ matthews_corrcoef y_true y_pred = Ok {| cov := 0; var_prod := 1 |}.
Proof.
  intros n majority y_pred.
  unfold accuracy_score, matthews_corrcoef, check_consistent_length.
  rewrite !decide_True by (unfold y_pred; by rewrite length_replicate).
  unfold tp, tn, fp, fn, y_pred.
  pose proof (filter_true_false_length y_true) as Htotal.
  pose proof (sum_bool_filter y_true) as Hsum.
  destruct majority eqn:Hmajority; unfold majority in Hmajority.
  - apply Z.leb_le in Hmajority.
    rewrite (cell_replicate_neq _ false true) by discriminate.
    rewrite (cell_replicate_neq _ false true) by discriminate.
    rewrite !cell_replicate_eq. fold n. rewrite <- Hsum.
    split.
    + f_equal. f_equal. unfold n in *. lia.
    + cbv zeta.
      match goal with
      | |- Ok (if ?x =? 0 then _ else _) = _ => replace x with 0; [reflexivity|]
      end.
      unfold n in *. nia.
  - apply Z.leb_gt in Hmajority.
    rewrite (cell_replicate_neq _ true false) by discriminate.
    rewrite (cell_replicate_neq _ true false) by discriminate.
    rewrite !cell_replicate_eq. rewrite <- Hsum.
    split.
    + f_equal. f_equal. unfold n in *. lia.
    + cbv zeta.
      match goal with
      | |- Ok (if ?x =? 0 then _ else _) = _ => replace x with 0; [reflexivity|]
      end.
      unfold n in *. nia.
Qed.

Lemma filter_fmap_length {A B : Type} (f : A → B) (P : B → Prop)
    `{!∀ b, Decision (P b)} (l : list A) :
  length (filter P (f <$> l)) = length (filter (fun a => P (f a)) l).
Proof.
  induction l as [|a l IH]; [reflexivity|].
  cbn [fmap list_fmap]. destruct (decide (P (f a))) as [Ha|Ha].
  - rewrite !filter_cons_True by assumption. cbn [length]. by rewrite IH.
  - rewrite !filter_cons_False by assumption. exact IH.
Qed.

(** The agreements between the two sequences of one classifier output per
    sample are the outputs that are [correct]. *)
Lemma agreements_correct (outputs : list ClassifierOutputs) :
  tp (label <$> outputs) (prediction <$> outputs)
  + tn (label <$> outputs) (prediction <$> outputs)
  = Z.of_nat (length (filter (fun o => correct o = true) outputs)).
Proof.
  unfold tp, tn. induction outputs as [|o outputs IH]; [reflexivity|].
  cbn [fmap list_fmap cell].
  destruct (decide (prediction o = label o)) as [Heq|Hne].
  - rewrite filter_cons_True by (unfold correct; by rewrite bool_decide_eq_true_2).
    cbn [length]. rewrite Heq.
    destruct (label o); repeat case_bool_decide; try done; cbn [andb]; lia.
  - rewrite filter_cons_False by (unfold correct; by rewrite bool_decide_eq_false_2).
    destruct (label o), (prediction o); try done;
      repeat case_bool_decide; try done; cbn [andb]; lia.
Qed.

Lemma task_metrics_decontextual (method task : string)
    (samples : list ClassificationSample) (m : ClassifierMetrics) :
  task_metrics (Some "decontextual") method task samples = Ok m →
  let y_true := label ∘ decontextual <$> samples in
  let y_pred :=
    if decide (method = "baseline")
    then replicate (length y_true) (Z.of_nat (length y_true) <=? 2 * sum_bool y_true)
    else prediction ∘ decontextual <$> samples in
  accuracy_score y_true y_pred = Ok (accuracy m)
  ∧ matthews_corrcoef y_true y_pred = Ok (mcc m).
Proof.
  intros Hm y_true y_pred. unfold task_metrics in Hm.
  cbn [mbind result_bind] in Hm.
  rewrite !getattrs_decontextual in Hm. cbn [mbind result_bind] in Hm.
  fold y_true in Hm. fold y_pred in Hm.
  destruct (decide (task = "contextual")).
  - rewrite accuracy_score_negb, matthews_corrcoef_negb in Hm.
    destruct (accuracy_score y_true y_pred) as [a|]; [|discriminate].
    cbn [mbind result_bind] in Hm.
    destruct (f1_score _ _) as [f|]; [|discriminate]. cbn [mbind result_bind] in Hm.
    destruct (matthews_corrcoef y_true y_pred) as [c|]; [|discriminate].
    by injection Hm as <-.
  - destruct (accuracy_score y_true y_pred) as [a|]; [|discriminate].
    cbn [mbind result_bind] in Hm.
    destruct (f1_score _ _) as [f|]; [|discriminate]. cbn [mbind result_bind] in Hm.
    destruct (matthews_corrcoef y_true y_pred) as [c|]; [|discriminate].
    by injection Hm as <-.
Qed.

End classification_report.

Section classification_report_claims.
Context `{editors.ClassifyAPI}.
Import sklearn benchmarks.

(** X1: in every report of [classification], the accuracy and the MCC listed
    for the contextual task equal those listed for the decontextual task, for
    the editor and for the baseline: both tasks are scored on the
    decontextual outputs, and the negation applied for the contextual task
    changes neither score. *)
Theorem classification_tasks_share_accuracy_and_mcc
    (editor : Editor) (dataset : data.Dataset) (batch_size : Z)
    (desc : option string) (device : option Device) (kwargs : editors.Kwargs)
    (r : ClassificationBenchmarkResults) :
  classification editor dataset batch_size desc device kwargs = Ok r →
  accuracy (results_contextual (benchmarks.editor r))
  = accuracy (results_decontextual (benchmarks.editor r))
  ∧ mcc (results_contextual (benchmarks.editor r))
    = mcc (results_decontextual (benchmarks.editor r))
  ∧ accuracy (results_contextual (baseline r))
    = accuracy (results_decontextual (baseline r))
  ∧ mcc (results_contextual (baseline r)) = mcc (results_decontextual (baseline r)).
Proof.
  intros Hr.
  apply classification_Ok in Hr
    as (pres & rcs & rds & _ & _ & _ & _ & Hec & Hed & Hbc & Hbd).
  apply task_metrics_decontextual in Hec as [Hec1 Hec2].
  apply task_metrics_decontextual in Hed as [Hed1 Hed2].
  apply task_metrics_decontextual in Hbc as [Hbc1 Hbc2].
  apply task_metrics_decontextual in Hbd as [Hbd1 Hbd2].
  repeat split; congruence.
Qed.

(** X2: the baseline of a report predicts the majority label of the
    decontextual outputs for every sample ([True] on a tie), so its accuracy
    is the larger of the two label counts over the number of samples, at
    least one half, and its MCC is 0. *)
Theorem classification_baseline_scores
    (editor : Editor) (dataset : data.Dataset) (batch_size : Z)
    (desc : option string) (device : option Device) (kwargs : editors.Kwargs)
    (r : ClassificationBenchmarkResults) :
  classification editor dataset batch_size desc device kwargs = Ok r →
  let positives :=
    Z.of_nat (length (filter (fun s => label (decontextual s) = true) (samples r))) in
  let n := Z.of_nat (length (samples r)) in
  accuracy (results_decontextual (baseline r))
  = {| num := Z.max positives (n - positives); den := n |}
  ∧ n ≤ 2 * num (accuracy (results_decontextual (baseline r)))
  ∧ mcc (results_decontextual (baseline r)) = {| cov := 0; var_prod := 1 |}.
Proof.
  intros Hr positives n.
  apply classification_Ok in Hr as (pres & rcs & rds & _ & _ & _ & _ & _ & _ & _ & Hbd).
  apply task_metrics_decontextual in Hbd as [Haccuracy Hmcc].
  rewrite decide_True in Haccuracy, Hmcc by reflexivity.
  destruct (majority_scores (label ∘ decontextual <$> samples r)) as [Ha Hm].
  rewrite Ha in Haccuracy. rewrite Hm in Hmcc.
  injection Haccuracy as <-. injection Hmcc as <-.
  assert (sum_bool (label ∘ decontextual <$> samples r) = positives) as ->.
  { rewrite sum_bool_filter. unfold positives.
    by rewrite (filter_fmap_length (label ∘ decontextual)). }
  rewrite length_fmap. fold n. cbn [num]. split; [reflexivity|].
  split; [lia|reflexivity].
Qed.

(** X3: the accuracy a report lists for the editor on the decontextual task
    is the number of samples whose decontextual outputs are [correct]
    (prediction equal to label) over the number of samples. *)
Theorem classification_accuracy_counts_correct
    (editor : Editor) (dataset : data.Dataset) (batch_size : Z)
    (desc : option string) (device : option Device) (kwargs : editors.Kwargs)
    (r : ClassificationBenchmarkResults) :
  classification editor dataset batch_size desc device kwargs = Ok r →
  accuracy (results_decontextual (benchmarks.editor r))
  = {| num := Z.of_nat (length (filter (fun s => correct (decontextual s) = true)
                                   (samples r)));
       den := Z.of_nat (length (samples r)) |}.
Proof.
  intros Hr.
  apply classification_Ok in Hr as (pres & rcs & rds & _ & _ & _ & _ & _ & Hed & _).
  apply task_metrics_decontextual in Hed as [Haccuracy _].
  rewrite decide_False in Haccuracy by discriminate.
  unfold accuracy_score, check_consistent_length in Haccuracy.
  rewrite decide_True in Haccuracy by (by rewrite !length_fmap).
  injection Haccuracy as <-. rewrite length_fmap.
  rewrite !list_fmap_compose, agreements_correct.
  by rewrite (filter_fmap_length decontextual).
Qed.

End classification_report_claims.

(** The three theorems on the one-sample report of the fixture. *)
Lemma classification_tasks_share_accuracy_and_mcc_witness :
  ∃ r,
    @benchmarks.classification _ fixtures.fixed_scores
      tt [fixtures.sample_1] 2 None None tt = Ok r
    ∧ benchmarks.accuracy (benchmarks.results_contextual (benchmarks.editor r))
      = benchmarks.accuracy (benchmarks.results_decontextual (benchmarks.editor r))
    ∧ benchmarks.mcc (benchmarks.results_contextual (benchmarks.editor r))
      = benchmarks.mcc (benchmarks.results_decontextual (benchmarks.editor r))
    ∧ benchmarks.accuracy (benchmarks.results_contextual (benchmarks.baseline r))
      = benchmarks.accuracy (benchmarks.results_decontextual (benchmarks.baseline r))
    ∧ benchmarks.mcc (benchmarks.results_contextual (benchmarks.baseline r))
      = benchmarks.mcc (benchmarks.results_decontextual (benchmarks.baseline r)).
Proof.
  eexists. split; [vm_compute; reflexivity|].
  apply (@classification_tasks_share_accuracy_and_mcc _ fixtures.fixed_scores
           tt [fixtures.sample_1] 2 None None tt).
  vm_compute. reflexivity.
Defined.

Lemma classification_baseline_scores_witness :
  ∃ r,
    @benchmarks.classification _ fixtures.fixed_scores
      tt [fixtures.sample_1] 2 None None tt = Ok r
    ∧ benchmarks.accuracy (benchmarks.results_decontextual (benchmarks.baseline r))
      = sklearn.Ratio 1 1
    ∧ sklearn.den (benchmarks.accuracy
                     (benchmarks.results_decontextual (benchmarks.baseline r)))
      ≤ 2 * sklearn.num (benchmarks.accuracy
                           (benchmarks.results_decontextual (benchmarks.baseline r)))
    ∧ benchmarks.mcc (benchmarks.results_decontextual (benchmarks.baseline r))
      = sklearn.Correlation 0 1.
Proof.
  eexists. split; [vm_compute; reflexivity|].
  apply (@classification_baseline_scores _ fixtures.fixed_scores
           tt [fixtures.sample_1] 2 None None tt).
  vm_compute. reflexivity.
Defined.

Lemma classification_accuracy_counts_correct_witness :
  ∃ r,
    @benchmarks.classification _ fixtures.fixed_scores
      tt [fixtures.sample_1] 2 None None tt = Ok r
    ∧ benchmarks.accuracy (benchmarks.results_decontextual (benchmarks.editor r))
      = sklearn.Ratio 0 1.
Proof.
  eexists. split; [vm_compute; reflexivity|].
  apply (@classification_accuracy_counts_correct _ fixtures.fixed_scores
           tt [fixtures.sample_1] 2 None None tt).
  vm_compute. reflexivity.
Defined.

Lemma zip3_length {A B C : Type} (xs : list A) (ys : list B) (zs : list C) :
  length (zip3 xs ys zs) = (length xs `min` (length ys `min` length zs))%nat.
Proof.
  revert ys zs.
  induction xs as [|x xs IH]; intros [|y ys] [|z zs]; cbn [zip3 length]; try lia.
  rewrite IH. lia.
Qed.

Section classification_samples.
Context `{editors.ClassifyAPI}.
Import benchmarks.

(** X4: a report holds as many samples as the shortest of the precomputed
    rows and the two classification runs, the rest being dropped without an
    error; the i-th sample takes its ID from the i-th result of the
    contextual run and its four log-probabilities from the i-th precomputed
    row. *)
Theorem classification_samples_aligned
    (editor : Editor) (dataset : data.Dataset) (batch_size : Z)
    (desc : option string) (device : option Device) (kwargs : editors.Kwargs)
    (r : ClassificationBenchmarkResults) :
  classification editor dataset batch_size desc device kwargs = Ok r →
  ∃ pres rcs rds,
    editors.classification_inputs_from_dataset (editor_mt editor) dataset
      [editor_layer editor] batch_size device
      (default "classification benchmark" desc ++ " [compute reps]") = Ok pres
    ∧ editors.classify editor dataset "prompt_in_context" batch_size device
        (default "classification benchmark" desc ++ " [classify contextual]") kwargs
      = Ok rcs
    ∧ editors.classify editor dataset "prompt" batch_size device
        (default "classification benchmark" desc ++ " [classify decontextual]") kwargs
      = Ok rds
    ∧ length (samples r)
      = (length pres `min` (length rcs `min` length rds))%nat
    ∧ ∀ (i : nat) (s : ClassificationSample),
        samples r !! i = Some s →
        ∃ pre rc,
          pres !! i = Some pre ∧ rcs !! i = Some rc
          ∧ id s = data.id (editors.sample rc)
          ∧ logp_target (contextual s) = precompute.prompt_in_context_target_logp pre
          ∧ logp_comparator (contextual s)
            = precompute.prompt_in_context_comparator_logp pre
          ∧ logp_target (decontextual s) = precompute.prompt_target_logp pre
          ∧ logp_comparator (decontextual s) = precompute.prompt_comparator_logp pre.
Proof.
  intros Hr.
  apply classification_Ok in Hr
    as (pres & rcs & rds & Hpres & Hrcs & Hrds & Hsamples & _).
  exists pres, rcs, rds. do 3 (split; [assumption|]).
  rewrite Hsamples, length_fmap, zip3_length. split; [reflexivity|].
  intros i s Hs. rewrite list_lookup_fmap in Hs.
  destruct (zip3 pres rcs rds !! i) as [[[pre rc] rd]|] eqn:Hzip; [|discriminate].
  injection Hs as <-. apply zip3_lookup in Hzip as (Hpre & Hrc & _).
  exists pre, rc. done.
Qed.

End classification_samples.

(** The theorem on the one-sample dataset of the fixture. *)
Lemma classification_samples_aligned_witness :
  ∃ r,
    @benchmarks.classification _ fixtures.fixed_scores
      tt [fixtures.sample_1] 2 None None tt = Ok r
    ∧ length (benchmarks.samples r) = 1%nat.
Proof.
  eexists. split; [vm_compute; reflexivity|].
  destruct (@classification_samples_aligned _ fixtures.fixed_scores
              tt [fixtures.sample_1] 2 None None tt _ eq_refl)
    as (pres & rcs & rds & [= <-] & [= <-] & [= <-] & Hlength & _).
  exact Hlength.
Defined.

(** ** scripts/benchmark.py: groups and the efficacy of a layer *)

Section groups.
Import scripts_benchmark.
Local Open Scope list_scope.

Implicit Types (rs : list editors.EditorEvaluateResult) (keys : list string).

(** The groups of duplicate-free keys that cover the IDs of the results hold
    each result once. *)
Lemma concat_groups_Permutation rs keys :
  NoDup keys →
  (∀ r, r ∈ rs → data.id (editors.result_sample r) ∈ keys) →
  concat ((fun k => filter (fun r => data.id (editors.result_sample r) = k) rs) <$> keys)
  ≡ₚ rs.
Proof.
  intros Hnodup. revert rs. induction Hnodup as [|k keys Hk Hnodup IH]; intros rs Hcover.
  - destruct rs as [|r rs]; [reflexivity|].
    specialize (Hcover r ltac:(left)). by apply elem_of_nil in Hcover.
  - cbn [fmap list_fmap concat].
    transitivity
      (filter (fun r => data.id (editors.result_sample r) = k) rs
       ++ filter (fun r => ¬ data.id (editors.result_sample r) = k) rs);
      [|apply filter_app_complement].
    apply Permutation_app_head.
    rewrite <- (IH (filter (fun r => ¬ data.id (editors.result_sample r) = k) rs)).
    + apply reflexive_eq. f_equal. apply list_fmap_ext.
      intros _ k' Hk'%list_elem_of_lookup_2.
      rewrite list_filter_filter_l; [reflexivity|].
      intros r Hr Hrk. apply Hk. by rewrite <- Hrk, Hr.
    + intros r [Hne Hr]%list_elem_of_filter.
      specialize (Hcover r Hr). apply elem_of_cons in Hcover as [Heq|Hin]; done.
Qed.

(** X5: the groups of [group_by_id] are not empty and, put one after the
    other, hold every result of the run exactly once. *)
Theorem group_by_id_partitions (run : editors.EditorEvaluateRun) :
  Forall (fun group => group ≠ []) (values (group_by_id run))
  ∧ concat (values (group_by_id run)) ≡ₚ editors.results run.
Proof.
  unfold values. rewrite group_by_id_closed_form, <- list_fmap_compose.
  split.
  - apply Forall_fmap, Forall_forall. intros k Hk.
    apply (proj1 (elem_of_first_occurrences _ _)) in Hk.
    apply list_elem_of_fmap in Hk as (r & -> & Hr). cbn.
    intros Hempty.
    assert (r ∈ filter
                  (fun r0 => data.id (editors.result_sample r0)
                             = data.id (editors.result_sample r))
                  (editors.results run)) as Hin
      by (by apply list_elem_of_filter).
    rewrite Hempty in Hin. by apply elem_of_nil in Hin.
  - apply concat_groups_Permutation; [apply NoDup_first_occurrences|].
    intros r Hr. apply elem_of_first_occurrences.
    apply list_elem_of_fmap. eauto.
Qed.

Lemma filter_all {A : Type} (P : A → Prop) `{!∀ x, Decision (P x)} (l : list A) :
  (∀ x, x ∈ l → P x) → filter P l = l.
Proof.
  induction l as [|x l IH]; [reflexivity|]. intros Hall.
  rewrite filter_cons_True by (apply Hall; left).
  rewrite IH; [reflexivity|]. intros y Hy. apply Hall. by right.
Qed.

(** With IDs that are all different, every group is one result, in input
    order. *)
Lemma group_by_id_unique (run : editors.EditorEvaluateRun) :
  NoDup ((fun r => data.id (editors.result_sample r)) <$> editors.results run) →
  values (group_by_id run) = (fun r => [r]) <$> editors.results run.
Proof.
  unfold values. rewrite group_by_id_closed_form, <- list_fmap_compose.
  destruct run as [rs]. cbn [editors.results].
  induction rs as [|r rs IH]; [reflexivity|].
  cbn [fmap list_fmap]. intros [Hr Hnodup]%NoDup_cons.
  cbn [first_occurrences fmap list_fmap compose snd].
  rewrite filter_cons_True by reflexivity.
  rewrite (filter_id_not_elem rs) by assumption.
  f_equal. rewrite <- (IH Hnodup).
  rewrite filter_all.
  - apply list_fmap_ext. intros _ k Hk%list_elem_of_lookup_2.
    unfold compose. cbn [snd].
    rewrite filter_cons_False; [reflexivity|].
    intros Heq. apply Hr. rewrite Heq.
    by apply (proj1 (elem_of_first_occurrences _ _)) in Hk.
  - intros k Hk ->.
    by apply (proj1 (elem_of_first_occurrences _ _)) in Hk.
Qed.

Lemma duplicate_id_group rs :
  ¬ NoDup ((fun r => data.id (editors.result_sample r)) <$> rs) →
  ∃ k, k ∈ (fun r => data.id (editors.result_sample r)) <$> rs
       ∧ (2 ≤ length (filter (fun r => data.id (editors.result_sample r) = k) rs))%nat.
Proof.
  induction rs as [|r rs IH]; intros Hdup.
  - exfalso. apply Hdup. constructor.
  - cbn [fmap list_fmap] in *.
    destruct (decide (data.id (editors.result_sample r)
                      ∈ (fun r => data.id (editors.result_sample r)) <$> rs))
      as [Hin|Hnotin].
    + exists (data.id (editors.result_sample r)). split; [left|].
      rewrite filter_cons_True by reflexivity. cbn [length].
      apply list_elem_of_fmap in Hin as (r' & Heq & Hr').
      assert (r' ∈ filter
                     (fun r0 => data.id (editors.result_sample r0)
                                = data.id (editors.result_sample r)) rs) as Hfiltered
        by (by apply list_elem_of_filter).
      destruct (filter _ rs); [by apply elem_of_nil in Hfiltered|cbn [length]; lia].
    + destruct IH as (k & Hk & Hlen).
      { intros Hnodup. apply Hdup. by constructor. }
      exists k. split; [by right|].
      destruct (decide (data.id (editors.result_sample r) = k)).
      * rewrite filter_cons_True by assumption. cbn [length]. lia.
      * by rewrite filter_cons_False.
Qed.

(** Unpacking one result from every group fails on the first group that
    holds more than one. *)
Lemma comprehension_unpack1_many {B : Type} (f : editors.EditorEvaluateResult → B)
    (groups : list (list editors.EditorEvaluateResult)) :
  Forall (fun group => group ≠ []) groups →
  Exists (fun group => (2 ≤ length group)%nat) groups →
  comprehension (fun group => sample ← unpack1 group; Ok (f sample)) groups
  = Raise (ValueError "too many values to unpack (expected 1)").
Proof.
  intros Hnonempty Hmany. induction Hmany as [group groups Hgroup|group groups Hmany IH].
  - destruct group as [|r [|r' group]]; cbn [length] in Hgroup; [lia|lia|].
    reflexivity.
  - apply Forall_cons in Hnonempty as [Hgroup Hnonempty].
    cbn [comprehension]. destruct group as [|r [|r' group]]; [done| |reflexivity].
    cbn [unpack1 mbind result_bind]. by rewrite IH.
Qed.

Lemma comprehension_unpack1_singletons {B : Type}
    (f : editors.EditorEvaluateResult → B) rs :
  comprehension (fun group => sample ← unpack1 group; Ok (f sample))
    ((fun r => [r]) <$> rs)
  = Ok (f <$> rs).
Proof.
  induction rs as [|r rs IH]; [reflexivity|].
  cbn [fmap list_fmap comprehension unpack1 mbind result_bind].
  by rewrite IH.
Qed.

End groups.

Section efficacy_of_prompts.
Context `{scripts_benchmark.DriverAPI} `{metrics.MetricsAPI}.
Import scripts_benchmark.

(** X6: when two results of the prompts run share a sample ID, scoring the
    layer raises the [ValueError] of unpacking a group of more than one
    result, before any metric is computed and without touching the world: no
    scores file is written. *)
Theorem score_layer_rejects_shared_prompt_ids
    (setup : Setup) (layer : Z) (results : gmap string editors.EditorEvaluateRun)
    (run : editors.EditorEvaluateRun) (w : World) :
  results !! "prompts" = Some run →
  ¬ NoDup ((fun r => data.id (editors.result_sample r)) <$> editors.results run) →
  score_layer setup layer results w
  = (w, Raise (ValueError "too many values to unpack (expected 1)")).
Proof.
  intros Hrun Hdup. unfold score_layer.
  rewrite M_bind_run. unfold pure at 1, lift at 1.
  rewrite (getitem_Some _ _ _ Hrun). cbv zeta.
  rewrite M_bind_run. unfold pure at 1, lift at 1.
  rewrite comprehension_unpack1_many; [reflexivity| |].
  - apply group_by_id_partitions.
  - apply duplicate_id_group in Hdup as (k & Hk & Hlen).
    unfold values. rewrite group_by_id_closed_form, <- list_fmap_compose.
    apply Exists_fmap, Exists_exists. exists k.
    split; [by apply elem_of_first_occurrences|]. exact Hlen.
Qed.

Lemma driver_pure_Ok {A : Type} (r : result A) (w w' : World) (a : A) :
  pure r w = (w', Ok a) → w' = w ∧ r = Ok a.
Proof. unfold pure, lift. by intros [= -> ->]. Qed.

Lemma write_text_Ok (p : pathlib.Path) (content : string) (w w' : World) (u : unit) :
  write_text p content w = (w', Ok u) → files w' !! p = Some content.
Proof.
  unfold write_text.
  cbv [mbind M_bind mret M_ret modify get raise].
  repeat case_match; intros [= <- _]; [].
  cbn [files]. apply lookup_insert_eq.
Qed.

(** X7: when the sample IDs of the prompts run are all different, the
    efficacy of the layer is computed on one singleton list per result, in
    the order of the run, for the mediated and for the unmediated scores: an
    error of the metric on them is the error of scoring the layer, raised
    with the world as it was, and when scoring the layer returns, the
    efficacy in the scores file is the one the metric returns on them. *)
Theorem score_layer_efficacy_arguments
    (setup : Setup) (layer : Z) (results : gmap string editors.EditorEvaluateRun)
    (run : editors.EditorEvaluateRun) (w : World) :
  results !! "prompts" = Some run →
  NoDup ((fun r => data.id (editors.result_sample r)) <$> editors.results run) →
  let mediated :=
    (fun r => [editors.after_target_mediated_score r]) <$> editors.results run in
  let unmediated :=
    (fun r => [editors.after_target_unmediated_score r]) <$> editors.results run in
  (∀ e, metrics.efficacy mediated unmediated = Raise e →
        score_layer setup layer results w = (w, Raise e))
  ∧ (∀ w' u, score_layer setup layer results w = (w', Ok u) →
       ∃ efficacy paraphrase_efficacy consistency fluency,
         metrics.efficacy mediated unmediated = Ok efficacy
         ∧ files w' !! (results_dir setup // pretty layer // "scores.json")
           = Some (metrics.scores_json None efficacy paraphrase_efficacy
                     consistency fluency)).
Proof.
  intros Hrun Hnodup mediated unmediated.
  assert (∀ k : metrics.Metric → M World unit,
    score_layer setup layer results w
    = (efficacy ← pure (metrics.efficacy mediated unmediated);
       k efficacy) w
    → score_layer setup layer results w
      = match metrics.efficacy mediated unmediated with
        | Ok efficacy => k efficacy w
        | Raise e => (w, Raise e)
        end) as Hstep.
  { intros k ->. rewrite M_bind_run. unfold pure at 1, lift at 1.
    by destruct (metrics.efficacy mediated unmediated). }
  unshelve epose proof (Hstep _ _) as Hscore; [shelve| |].
  { unfold score_layer.
    rewrite M_bind_run. unfold pure at 1, lift at 1.
    rewrite (getitem_Some _ _ _ Hrun). cbv zeta.
    rewrite (group_by_id_unique run Hnodup).
    rewrite M_bind_run. unfold pure at 1, lift at 1.
    rewrite comprehension_unpack1_singletons.
    rewrite M_bind_run. unfold pure at 1, lift at 1.
    rewrite comprehension_unpack1_singletons.
    reflexivity. }
  clear Hstep. split.
  - intros e Hefficacy. rewrite Hscore, Hefficacy. reflexivity.
  - intros w' u Hreturns. rewrite Hscore in Hreturns.
    destruct (metrics.efficacy mediated unmediated) as [efficacy|e];
      [|discriminate].
    apply M_bind_run_inv in Hreturns as (w1 & ? & [-> _]%driver_pure_Ok & Hreturns).
    cbv zeta in Hreturns.
    apply M_bind_run_inv in Hreturns
      as (w1 & paraphrase_efficacy & [-> _]%driver_pure_Ok & Hreturns).
    apply M_bind_run_inv in Hreturns as (w1 & ? & [-> _]%driver_pure_Ok & Hreturns).
    cbv zeta in Hreturns.
    apply M_bind_run_inv in Hreturns as (w1 & ? & [-> _]%driver_pure_Ok & Hreturns).
    apply M_bind_run_inv in Hreturns as (w1 & ? & [-> _]%driver_pure_Ok & Hreturns).
    apply M_bind_run_inv in Hreturns
      as (w1 & consistency & [-> _]%driver_pure_Ok & Hreturns).
    apply M_bind_run_inv in Hreturns
      as (w1 & fluency & [-> _]%driver_pure_Ok & Hreturns).
    cbv zeta in Hreturns.
    apply M_bind_run_inv in Hreturns as (w1 & [] & _ & Hreturns).
    apply write_text_Ok in Hreturns.
    exists efficacy, paraphrase_efficacy, consistency, fluency.
    split; [reflexivity|exact Hreturns].
Qed.

End efficacy_of_prompts.

(** Two results of one sample in the prompts run: scoring the layer fails. *)
Lemma score_layer_rejects_shared_prompt_ids_witness :
  scripts_benchmark.score_layer fixtures.setup_linear 1
    {[ "prompts" :=
         {| editors.results :=
              [fixtures.result_of fixtures.sample_1 "a";
               fixtures.result_of fixtures.sample_1 "b"] |} ]}
    fixtures.empty_world
  = (fixtures.empty_world, Raise (ValueError "too many values to unpack (expected 1)")).
Proof.
  apply (score_layer_rejects_shared_prompt_ids fixtures.setup_linear 1 _
           {| editors.results :=
                [fixtures.result_of fixtures.sample_1 "a";
                 fixtures.result_of fixtures.sample_1 "b"] |}).
  - reflexivity.
  - cbn. intros Hnodup. apply NoDup_cons in Hnodup as [Hnotin _].
    apply Hnotin. left.
Defined.

(** Two results with different IDs in the prompts run.  When the mediated
    score of the second is missing, the metric rejects the two singleton
    lists and scoring the layer fails with its error; when both are there,
    the scores file holds the efficacy over the two prompts. *)
Lemma score_layer_efficacy_arguments_witness :
  scripts_benchmark.score_layer fixtures.setup_counting 1
    {[ "prompts" := fixtures.run_without_score ]} fixtures.empty_world
  = (fixtures.empty_world, Raise (TypeError "unsupported operand type: NoneType"))
  ∧ let returned :=
      scripts_benchmark.score_layer fixtures.setup_counting 1
        fixtures.results_of_two fixtures.world_with_results_1 in
    returned.2 = Ok tt
    ∧ scripts_benchmark.files returned.1 !! ["results"; "1"; "scores.json"]
      = Some "efficacy over 2 prompts".
Proof.
  assert (NoDup ["1"; "3"]) as Hids.
  { apply NoDup_cons. split; [|apply NoDup_singleton].
    by intros [=]%list_elem_of_singleton. }
  split.
  - apply (score_layer_efficacy_arguments fixtures.setup_counting 1
             {[ "prompts" := fixtures.run_without_score ]}
             fixtures.run_without_score fixtures.empty_world);
      [reflexivity|exact Hids|reflexivity].
  - intros returned.
    assert (returned = (returned.1, Ok tt)) as Hreturned
      by (vm_compute; reflexivity).
    split; [by rewrite Hreturned|].
    destruct (score_layer_efficacy_arguments fixtures.setup_counting 1
                fixtures.results_of_two fixtures.run_of_two
                fixtures.world_with_results_1 eq_refl Hids)
      as [_ Hscores].
    destruct (Hscores _ _ Hreturned)
      as (efficacy & paraphrase_efficacy & consistency & fluency & Hefficacy & Hfile).
    vm_compute in Hefficacy. injection Hefficacy as <-. exact Hfile.
Defined.

(** ** scripts/benchmark.py: what the loop over the layers does to the world *)

Section loop_invariants.
Context `{scripts_benchmark.DriverAPI} `{metrics.MetricsAPI}.
Import scripts_benchmark pathlib.
Local Open Scope list_scope.

Implicit Types (setup : Setup) (layers : list Z) (w : World).

Lemma loop_invariant_unchanged setup layers w w' :
  files w' = files w →
  evaluate_calls w' = evaluate_calls w →
  weight_loads w' = weight_loads w →
  loop_invariant setup layers w w'.
Proof.
  intros Hfiles Hcalls Hloads. unfold loop_invariant.
  rewrite Hfiles, Hcalls, Hloads. repeat split; try done.
  - exists []. by rewrite app_nil_r.
  - exists []. by rewrite app_nil_r.
Qed.

Lemma loop_invariant_refl setup layers w : loop_invariant setup layers w w.
Proof. by apply loop_invariant_unchanged. Qed.

Lemma loop_invariant_trans setup layers w1 w2 w3 :
  loop_invariant setup layers w1 w2 → loop_invariant setup layers w2 w3 →
  loop_invariant setup layers w1 w3.
Proof.
  intros ((c1 & Hc1 & Hc1') & (l1 & Hl1 & Hl1') & Hkeep1 & Hout1)
         ((c2 & Hc2 & Hc2') & (l2 & Hl2 & Hl2') & Hkeep2 & Hout2).
  repeat split.
  - exists (c1 ++ c2). rewrite Hc2, Hc1, app_assoc. split; [done|by apply Forall_app].
  - exists (l1 ++ l2). rewrite Hl2, Hl1, app_assoc. split; [done|by apply Forall_app].
  - intros p content Hp Hname. apply Hkeep2; [|done]. by apply Hkeep1.
  - intros p Hp. rewrite Hout2, Hout1 by done. reflexivity.
Qed.

Lemma loop_invariant_mono setup layers layers' w w' :
  layers ⊆ layers' →
  loop_invariant setup layers w w' → loop_invariant setup layers' w w'.
Proof.
  intros Hsub (Hcalls & (new & Hloads & Hnew) & Hkeep & Hout).
  repeat split; try done. exists new. split; [done|].
  eapply Forall_impl; [exact Hnew|].
  intros p (Htype & dir & layer & Hdir & Hlayer & ->).
  split; [done|]. exists dir, layer. auto.
Qed.

Lemma invariant_bind {A B : Type} setup layers (m : M World A) (f : A → M World B) :
  (∀ w, loop_invariant setup layers w (m w).1) →
  (∀ a w, loop_invariant setup layers w (f a w).1) →
  ∀ w, loop_invariant setup layers w ((m ≫= f) w).1.
Proof.
  intros Hm Hf w. rewrite M_bind_run. specialize (Hm w).
  destruct (m w) as [w1 [a|e]]; cbn [fst] in *; [|assumption].
  eapply loop_invariant_trans; [exact Hm|apply Hf].
Qed.

Lemma invariant_pure {A : Type} setup layers (r : result A) w :
  loop_invariant setup layers w (pure r w).1.
Proof. apply loop_invariant_refl. Qed.

Lemma invariant_mret {A : Type} setup layers (a : A) w :
  loop_invariant setup layers w ((mret a : M World A) w).1.
Proof. apply loop_invariant_refl. Qed.

Lemma invariant_logger setup layers lvl msg w :
  loop_invariant setup layers w (logger lvl msg w).1.
Proof. by apply loop_invariant_unchanged. Qed.

Lemma invariant_for_inM {A B : Type} setup layers (xs : list A)
    (body : A → B → M World B) (acc : B) :
  (∀ x acc w, x ∈ xs → loop_invariant setup layers w (body x acc w).1) →
  ∀ w, loop_invariant setup layers w (for_inM xs body acc w).1.
Proof.
  revert acc. induction xs as [|x xs IH]; intros acc Hbody; cbn [for_inM].
  - apply invariant_mret.
  - apply invariant_bind.
    + intros w. apply Hbody. left.
    + intros acc' w. apply IH. intros x' acc'' w' Hx'. apply Hbody. by right.
Qed.

(** Writing a file under the results directory that is new or is a scores
    file. *)
Lemma invariant_write_text setup layers p content w :
  results_dir setup `prefix_of` p →
  files w !! p = None ∨ last p = Some "scores.json" →
  loop_invariant setup layers w (write_text p content w).1.
Proof.
  intros Hunder Hnew. unfold write_text, get, raise, modify.
  rewrite M_bind_run. cbn beta iota.
  case_bool_decide; cbn beta iota; [apply loop_invariant_refl|].
  case_bool_decide; cbn beta iota; [apply loop_invariant_refl|].
  cbn [fst]. unfold loop_invariant. cbn [files evaluate_calls weight_loads].
  repeat split.
  - exists []. by rewrite app_nil_r.
  - exists []. by rewrite app_nil_r.
  - intros q c Hq Hname. rewrite lookup_insert_ne; [assumption|].
    intros <-. destruct Hnew; congruence.
  - intros q Hq. rewrite lookup_insert_ne; [reflexivity|]. by intros <-.
Qed.

Lemma results_dir_prefix setup (layer : Z) (name : string) :
  results_dir setup `prefix_of` results_dir setup // pretty layer // name.
Proof. unfold div. rewrite <- app_assoc. by eexists. Qed.

Lemma last_div (p : Path) (name : string) : last (p // name) = Some name.
Proof. unfold div. apply last_snoc. Qed.

Lemma invariant_score_layer setup layers (layer : Z)
    (results : gmap string editors.EditorEvaluateRun) w :
  loop_invariant setup layers w (score_layer setup layer results w).1.
Proof.
  revert w. unfold score_layer.
  repeat (apply invariant_bind; [intros w; apply invariant_pure|intros ?]; cbv zeta).
  apply invariant_bind; [intros w; apply invariant_logger|intros _].
  intros w. apply invariant_write_text.
  - apply results_dir_prefix.
  - right. apply last_div.
Qed.

Lemma invariant_torch_load_file setup layers (p : Path) w :
  loop_weights_file setup layers p →
  loop_invariant setup layers w (torch_load_file p (device setup) w).1.
Proof.
  intros Hp. unfold torch_load_file.
  cbv [mbind M_bind mret M_ret modify get raise lift pure read_text].
  cbn [files].
  assert (loop_invariant setup layers w
            {| files := files w; dirs := dirs w; log := log w;
               weight_loads := weight_loads w ++ [p];
               evaluate_calls := evaluate_calls w |}) as Hloaded.
  { unfold loop_invariant. cbn [files evaluate_calls weight_loads].
    repeat split; try done.
    - exists []. by rewrite app_nil_r.
    - exists [p]. split; [done|]. by constructor. }
  destruct (files w !! p) as [content|]; [|exact Hloaded].
  destruct (torch_load content (device setup)); exact Hloaded.
Qed.

Lemma invariant_load_editor setup (layer : Z) w :
  loop_invariant setup [layer] w
    (load_editor (editor_type setup) (mt setup) layer (editors_dir setup)
       (device setup) w).1.
Proof.
  revert w. unfold load_editor.
  apply invariant_bind; [intros w; apply invariant_pure|intros factory]. cbv zeta.
  case_decide as Htype; [|intros w; apply invariant_mret].
  destruct (editors_dir setup) as [dir|] eqn:Hdir.
  - apply invariant_bind; [intros w; apply loop_invariant_refl|intros found].
    destruct found; cbn [negb].
    + apply invariant_bind; [intros w; apply invariant_logger|intros _].
      apply invariant_bind.
      * intros w. apply invariant_torch_load_file.
        split; [assumption|]. exists dir, layer.
        split; [assumption|]. split; [left|reflexivity].
      * intros state_dict.
        apply invariant_bind; [intros w; apply invariant_pure|intros editor].
        intros w. apply invariant_mret.
    + apply invariant_bind; [intros w; apply invariant_logger|intros _].
      intros w. apply invariant_mret.
  - apply invariant_bind; [intros w; apply invariant_logger|intros _].
    intros w. apply invariant_mret.
Qed.

Lemma invariant_evaluate_subset setup layers (editor : Editor) (layer : Z)
    (item : string * data.Dataset * (option Z * option Z))
    (results : gmap string editors.EditorEvaluateRun) w :
  item ∈ subsets setup →
  loop_invariant setup layers w (evaluate_subset setup editor layer item results w).1.
Proof.
  intros Hitem. destruct item as [[key subset] [max_new_tokens max_length]].
  assert ((subset, max_new_tokens, max_length)
          ∈ [ (prompts setup, Some 1, None);
              (paraphrase_prompts setup, Some 1, None);
              (generation_prompts setup, None, Some (args_max_length setup)) ])
    as Hcaps.
  { unfold subsets in Hitem.
    repeat (apply elem_of_cons in Hitem as [[= -> -> -> ->]|Hitem];
            [set_solver|]).
    by apply elem_of_nil in Hitem. }
  unfold evaluate_subset.
  cbv [mbind M_bind mret M_ret modify get raise lift pure logger exists_
       read_text write_text mkdir editor_evaluate].
  cbn [files dirs log weight_loads evaluate_calls logged].
  destruct (present w (results_file setup layer key)) eqn:Hpresent.
  - destruct (files w !! results_file setup layer key) as [content|];
      [destruct (from_json content)|]; by apply loop_invariant_unchanged.
  - case_bool_decide; [apply loop_invariant_refl|].
    match goal with
    | |- context [evaluate ?args] =>
        assert (loop_evaluate_call setup args) as Hcall by (by repeat split);
        destruct (evaluate args) as [run|e]
    end.
    + cbn [dirs].
      assert (files w !! results_file setup layer key = None) as Hnew.
      { unfold present in Hpresent. apply orb_false_elim in Hpresent as [Hfile _].
        apply bool_decide_eq_false in Hfile.
        destruct (files w !! _); [|reflexivity]. exfalso. apply Hfile. eauto. }
      repeat case_bool_decide; cbn [fst]; unfold loop_invariant;
        cbn [files evaluate_calls weight_loads logged].
      all: repeat split; try done.
      all: try (eexists; split; [reflexivity|]; by constructor).
      all: try (exists []; by rewrite app_nil_r).
      * intros p content Hp _. rewrite lookup_insert_ne; [assumption|].
        intros <-. pose proof (eq_trans (eq_sym Hp) Hnew) as Habsurd.
        discriminate Habsurd.
      * intros p Hp. rewrite lookup_insert_ne; [reflexivity|].
        intros <-. apply Hp. apply results_dir_prefix.
    + cbn [fst]. unfold loop_invariant. cbn [files evaluate_calls weight_loads].
      repeat split; try done.
      * eexists. split; [reflexivity|]. by constructor.
      * exists []. by rewrite app_nil_r.
Qed.

Lemma invariant_benchmark_layer setup (layer : Z) w :
  loop_invariant setup [layer] w (benchmark_layer setup layer w).1.
Proof.
  revert w. unfold benchmark_layer.
  apply invariant_bind; [apply invariant_load_editor|intros [editor|]].
  - apply invariant_bind; [|intros results w; apply invariant_score_layer].
    unfold evaluate_subsets. apply invariant_for_inM.
    intros item acc w Hitem. by apply invariant_evaluate_subset.
  - intros w. apply invariant_logger.
Qed.

Lemma invariant_main_loop setup layers w :
  loop_invariant setup layers w (main_loop setup layers w).1.
Proof.
  revert w. unfold main_loop. apply invariant_for_inM.
  intros layer [] w Hlayer.
  eapply loop_invariant_mono; [|apply invariant_benchmark_layer].
  intros layer' ->%list_elem_of_singleton. exact Hlayer.
Qed.

(** X8: every call of [editor.evaluate] made by the loop over the layers,
    whether the loop returns or raises, has the batch size and the device of
    the setup, asks for the results after the edit and not for those before
    it, and evaluates the prompts or the paraphrase prompts with one new
    token and no length cap, or the generation prompts with the length cap
    of the arguments and no cap on new tokens. *)
Theorem main_loop_evaluate_calls setup layers w :
  ∃ new,
    evaluate_calls (main_loop setup layers w).1 = evaluate_calls w ++ new
    ∧ Forall (loop_evaluate_call setup) new.
Proof. apply invariant_main_loop. Qed.

Lemma loop_directories_unchanged setup layers w w' :
  dirs w' = dirs w → loop_directories setup layers w w'.
Proof. intros Hdirs. unfold loop_directories. rewrite Hdirs. split; auto. Qed.

Lemma loop_directories_trans setup layers w1 w2 w3 :
  loop_directories setup layers w1 w2 → loop_directories setup layers w2 w3 →
  loop_directories setup layers w1 w3.
Proof.
  intros [Hkept1 Hnew1] [Hkept2 Hnew2]. split.
  - intros p Hp. by apply Hkept2, Hkept1.
  - intros p Hp. apply Hnew2 in Hp as [Hp|Hp]; [by apply Hnew1|by right].
Qed.

Lemma loop_directories_mono setup layers layers' w w' :
  layers ⊆ layers' →
  loop_directories setup layers w w' → loop_directories setup layers' w w'.
Proof.
  intros Hsub [Hkept Hnew]. split; [assumption|].
  intros p Hp. apply Hnew in Hp as [Hp|(layer & Hlayer & Hp)]; [by left|].
  right. exists layer. split; [by apply Hsub|assumption].
Qed.

Lemma directories_bind {A B : Type} setup layers (m : M World A) (f : A → M World B) :
  (∀ w, loop_directories setup layers w (m w).1) →
  (∀ a w, loop_directories setup layers w (f a w).1) →
  ∀ w, loop_directories setup layers w ((m ≫= f) w).1.
Proof.
  intros Hm Hf w. rewrite M_bind_run. specialize (Hm w).
  destruct (m w) as [w1 [a|e]]; cbn [fst] in *; [|assumption].
  eapply loop_directories_trans; [exact Hm|apply Hf].
Qed.

Lemma directories_for_inM {A B : Type} setup layers (xs : list A)
    (body : A → B → M World B) (acc : B) :
  (∀ x acc w, x ∈ xs → loop_directories setup layers w (body x acc w).1) →
  ∀ w, loop_directories setup layers w (for_inM xs body acc w).1.
Proof.
  revert acc. induction xs as [|x xs IH]; intros acc Hbody; cbn [for_inM].
  - intros w. by apply loop_directories_unchanged.
  - apply directories_bind.
    + intros w. apply Hbody. left.
    + intros acc' w. apply IH. intros x' acc'' w' Hx'. apply Hbody. by right.
Qed.

(** Loading an editor and scoring a layer make no directory. *)
Lemma dirs_load_editor (editor_type : string) (mt : ModelAndTokenizer) (layer : Z)
    (editors_dir : option Path) (device : option Device) w :
  dirs (load_editor editor_type mt layer editors_dir device w).1 = dirs w.
Proof.
  unfold load_editor, torch_load_file.
  cbv [mbind M_bind mret M_ret modify get raise lift pure logger exists_ read_text].
  cbn [files dirs log weight_loads evaluate_calls logged].
  repeat case_match; simplify_eq; reflexivity.
Qed.

Lemma dirs_score_layer setup (layer : Z)
    (results : gmap string editors.EditorEvaluateRun) w :
  dirs (score_layer setup layer results w).1 = dirs w.
Proof.
  unfold score_layer.
  cbv [mbind M_bind mret M_ret modify get raise lift pure logger write_text].
  cbn [files dirs log weight_loads evaluate_calls logged].
  repeat case_match; simplify_eq; reflexivity.
Qed.

Lemma parent_results_file setup (layer : Z) (key : string) :
  parent (results_file setup layer key) = results_dir setup // pretty layer.
Proof. unfold results_file, parent, div. apply removelast_last. Qed.

(** One subset makes the results directory of the layer and those above
    it, when its results file does not exist, and no other directory. *)
Lemma directories_evaluate_subset setup (editor : Editor) (layer : Z)
    (item : string * data.Dataset * (option Z * option Z))
    (results : gmap string editors.EditorEvaluateRun) w :
  loop_directories setup [layer] w
    (evaluate_subset setup editor layer item results w).1.
Proof.
  destruct item as [[key subset] [max_new_tokens max_length]].
  unfold evaluate_subset.
  cbv [mbind M_bind mret M_ret modify get raise lift pure logger exists_
       read_text write_text mkdir editor_evaluate].
  cbn [files dirs log weight_loads evaluate_calls logged].
  rewrite parent_results_file.
  assert (∀ w', dirs w' = dirs w
                          ∪ list_to_set
                              (ancestors_and_self (results_dir setup // pretty layer)) →
          loop_directories setup [layer] w w') as Hmade.
  { intros w' Hdirs. unfold loop_directories. rewrite Hdirs. split.
    - intros p Hp. by apply elem_of_union_l.
    - intros p [Hp|Hp]%elem_of_union; [by left|].
      right. exists layer. split; [left|]. by apply elem_of_list_to_set in Hp. }
  destruct (present w (results_file setup layer key)).
  - repeat case_match; simplify_eq; by apply loop_directories_unchanged.
  - case_bool_decide; [by apply loop_directories_unchanged|].
    repeat case_match; simplify_eq; by apply Hmade.
Qed.

Lemma directories_benchmark_layer setup (layer : Z) w :
  loop_directories setup [layer] w (benchmark_layer setup layer w).1.
Proof.
  revert w. unfold benchmark_layer.
  apply directories_bind.
  { intros w. apply loop_directories_unchanged, dirs_load_editor. }
  intros [editor|].
  - apply directories_bind.
    + unfold evaluate_subsets. apply directories_for_inM.
      intros item acc w _. apply directories_evaluate_subset.
    + intros results w. apply loop_directories_unchanged, dirs_score_layer.
  - intros w. by apply loop_directories_unchanged.
Qed.

Lemma directories_main_loop setup layers w :
  loop_directories setup layers w (main_loop setup layers w).1.
Proof.
  revert w. unfold main_loop. apply directories_for_inM.
  intros layer [] w Hlayer.
  eapply loop_directories_mono; [|apply directories_benchmark_layer].
  intros layer' ->%list_elem_of_singleton. exact Hlayer.
Qed.

(** X9: the loop over the layers, whether it returns or raises, leaves every
    file that exists and is not named [scores.json] with the content it had,
    so that results files are written once and never overwritten, and leaves
    every file outside the results directory as it was; it removes no
    directory, and the directories it makes are the results directories of
    the layers and the directories above them, of which some may lie outside
    the results directory. *)
Theorem main_loop_keeps_files setup layers w :
  (∀ p content,
     files w !! p = Some content → last p ≠ Some "scores.json" →
     files (main_loop setup layers w).1 !! p = Some content)
  ∧ (∀ p, ¬ results_dir setup `prefix_of` p →
       files (main_loop setup layers w).1 !! p = files w !! p)
  ∧ (∀ p, p ∈ dirs w → p ∈ dirs (main_loop setup layers w).1)
  ∧ (∀ p, p ∈ dirs (main_loop setup layers w).1 →
       p ∈ dirs w
       ∨ ∃ layer, layer ∈ layers
                  ∧ p ∈ ancestors_and_self (results_dir setup // pretty layer)).
Proof.
  destruct (invariant_main_loop setup layers w) as (_ & _ & Hkeep & Hout).
  destruct (directories_main_loop setup layers w) as [Hkept Hnew].
  by repeat split.
Qed.

(** X10: the only files the loop over the layers passes to [torch.load],
    whether it returns or raises, are weights files
    [editors_dir/editor_type/layer/weights.pth] of the layers it is given;
    for the identity editor it loads nothing. *)
Theorem main_loop_weight_loads setup layers w :
  ∃ new,
    weight_loads (main_loop setup layers w).1 = weight_loads w ++ new
    ∧ Forall (loop_weights_file setup layers) new
    ∧ (editor_type setup = "identity" → new = []).
Proof.
  destruct (invariant_main_loop setup layers w) as (_ & (new & Hloads & Hnew) & _).
  exists new. split; [assumption|]. split; [assumption|].
  intros Hidentity. destruct new as [|p new]; [reflexivity|].
  apply Forall_cons in Hnew as [[Htype _] _]. done.
Qed.

End loop_invariants.

(** The loop of the fixture with the results directory [out/results] over
    the layers 1 and 2: the weights of layer 1 are still on disk, unchanged,
    the directory of the editors is still there, and the directory [out],
    which lies outside the results directory, has been made as one of the
    directories above the results directory of layer 1. *)
Lemma main_loop_keeps_files_witness :
  let w' :=
    (@scripts_benchmark.main_loop _ fixtures.two_editors _ fixtures.setup_nested
       [1; 2] fixtures.world_with_layer_1).1 in
  scripts_benchmark.files w' !! ["editors"; "linear"; "1"; "weights.pth"]
  = Some "weights"
  ∧ ["editors"] ∈ scripts_benchmark.dirs w'
  ∧ ["out"] ∈ scripts_benchmark.dirs w'
  ∧ (["out"] ∉ scripts_benchmark.dirs fixtures.world_with_layer_1)
  ∧ ∃ layer,
      layer ∈ [1; 2]
      ∧ ["out"] ∈ pathlib.ancestors_and_self (["out"; "results"] // pretty layer).
Proof.
  intros w'.
  destruct (@main_loop_keeps_files _ fixtures.two_editors _ fixtures.setup_nested
              [1; 2] fixtures.world_with_layer_1)
    as (Hkeep & _ & Hkept & Hnew).
  fold w' in Hkeep, Hkept, Hnew.
  assert (["out"] ∈ scripts_benchmark.dirs w') as Hout.
  { subst w'. vm_compute. set_solver. }
  assert (["out"] ∉ scripts_benchmark.dirs fixtures.world_with_layer_1) as Hfresh.
  { vm_compute. set_solver. }
  split; [|split; [|split; [|split]]].
  - apply Hkeep; [vm_compute; reflexivity|discriminate].
  - apply Hkept. vm_compute. set_solver.
  - exact Hout.
  - exact Hfresh.
  - destruct (Hnew _ Hout) as [Hold|Hlayer]; [done|exact Hlayer].
Defined.

(** The identity editor of the fixture over two layers loads no weights. *)
Lemma main_loop_weight_loads_witness :
  scripts_benchmark.weight_loads
    (@scripts_benchmark.main_loop _ fixtures.two_editors _ fixtures.setup_identity
       [1; 2] fixtures.world_with_layer_1).1
  = [].
Proof.
  destruct (@main_loop_weight_loads _ fixtures.two_editors _ fixtures.setup_identity
              [1; 2] fixtures.world_with_layer_1) as (new & Hloads & _ & Hidentity).
  rewrite Hloads, Hidentity by reflexivity. reflexivity.
Defined.

(** ** src/benchmarks.py: batches, references and samples of the essence benchmark *)

Section chunks_facts.
Context {A : Type}.
Implicit Types (xs : list A) (n fuel : nat).
Local Open Scope list_scope.

Lemma chunks_fuel_concat fuel n xs :
  (0 < n)%nat → (length xs ≤ fuel)%nat → concat (chunks_fuel fuel n xs) = xs.
Proof.
  intros Hn. revert xs. induction fuel as [|fuel IH]; intros xs Hfuel.
  - destruct xs; [reflexivity|cbn in Hfuel; lia].
  - destruct xs as [|x xs]; [reflexivity|].
    cbn [chunks_fuel concat]. rewrite IH.
    + apply take_drop.
    + rewrite length_drop. cbn [length] in *. lia.
Qed.

Lemma chunks_fuel_lengths fuel n xs :
  (0 < n)%nat →
  Forall (fun b => (0 < length b ≤ n)%nat) (chunks_fuel fuel n xs).
Proof.
  intros Hn. revert xs. induction fuel as [|fuel IH]; intros xs; [constructor|].
  destruct xs as [|x xs]; [constructor|].
  cbn [chunks_fuel]. constructor; [|apply IH].
  rewrite length_take. cbn [length]. lia.
Qed.

(** The chunks of a second list of the same length, cut at the offsets of
    the chunks of the first. *)
Lemma chunks_fuel_slices {B : Type} fuel n xs (ys : list B) (k : nat) :
  (0 < n)%nat → (length xs ≤ fuel)%nat → length (drop (k * n) ys) = length xs →
  concat (imap (fun i b => slice ys ((k + i) * n) ((k + i) * n + length b))
            (chunks_fuel fuel n xs))
  = drop (k * n) ys.
Proof.
  intros Hn. revert xs k. induction fuel as [|fuel IH]; intros xs k Hfuel Hlen.
  - destruct xs; [|cbn in Hfuel; lia]. cbn.
    symmetry. by apply nil_length_inv.
  - destruct xs as [|x xs].
    { cbn. symmetry. by apply nil_length_inv. }
    cbn [chunks_fuel imap concat].
    rewrite (imap_ext _ (fun i b =>
               slice ys ((S k + i) * n) ((S k + i) * n + length b)) _)
      by (intros i b _; cbn [compose];
          by replace (k + S i)%nat with (S k + i)%nat by lia).
    rewrite IH.
    + unfold slice.
      replace ((k + 0) * n)%nat with (k * n)%nat by lia.
      replace (k * n + length (take n (x :: xs)) - k * n)%nat
        with (length (take n (x :: xs))) by lia.
      replace (S k * n)%nat with (k * n + n)%nat by lia.
      rewrite <- drop_drop.
      rewrite <- (take_drop n (drop (k * n) ys)) at 3.
      f_equal. rewrite length_take, <- Hlen.
      destruct (decide (n ≤ length (drop (k * n) ys))%nat).
      * f_equal. lia.
      * rewrite Nat.min_r by lia.
        rewrite firstn_all. rewrite take_ge; [reflexivity|lia].
    + rewrite length_drop. cbn [length] in *. lia.
    + replace (S k * n)%nat with (k * n + n)%nat by lia.
      rewrite <- drop_drop, (length_drop _ n), (length_drop (x :: xs)). lia.
Qed.

End chunks_facts.

Section zip_facts.
Context {A B : Type}.
Implicit Types (xs : list A) (ys : list B).

Lemma zip_fst_take xs ys : (zip xs ys).*1 = take (length (zip xs ys)) xs.
Proof.
  revert ys. induction xs as [|x xs IH]; intros [|y ys]; cbn; try reflexivity.
  f_equal. apply IH.
Qed.

Lemma zip_snd_take xs ys : (zip xs ys).*2 = take (length (zip xs ys)) ys.
Proof.
  revert ys. induction xs as [|x xs IH]; intros [|y ys]; cbn; try reflexivity.
  f_equal. apply IH.
Qed.

Lemma zip_length_le_r xs ys : (length (zip xs ys) ≤ length ys)%nat.
Proof.
  revert ys. induction xs as [|x xs IH]; intros [|y ys]; cbn; try lia.
  specialize (IH ys). lia.
Qed.

End zip_facts.

Section essence_batches.
Context `{models.ModelAPI} `{metrics.MetricsAPI}.
Import models benchmarks.
Local Open Scope list_scope.

Implicit Types (unedited : list Edit) (P : list Edit * ModelCall → Prop).

Lemma keeps_essence_batch_needed unedited P editor alpha beta batch_size
    prompt_template max_new_tokens max_length use_references tfidf_vectorizer
    device past_key_values item lists :
  (use_references = None → ∀ args, P (unedited, Generate args)) →
  (∀ edit args, P (edit :: unedited, GenerateEdited args)) →
  keeps unedited P
    (essence_batch editor alpha beta batch_size prompt_template max_new_tokens
       max_length use_references tfidf_vectorizer device past_key_values item lists).
Proof.
  intros Hgenerate Hedited. unfold essence_batch. cbv zeta.
  apply keeps_bind; [apply keeps_pure|]. intros prompts.
  apply keeps_bind.
  { destruct use_references as [refs|]; [apply keeps_mret|].
    apply keeps_bind; [|intros outputs; apply keeps_mret].
    apply keeps_model_generate. by apply Hgenerate. }
  intros batch_reference_groups.
  apply keeps_bind.
  { apply keeps_apply_generate_edited. apply Hedited. }
  intros outputs.
  apply keeps_bind; [apply keeps_pure|]. intros scores. apply keeps_mret.
Qed.

Lemma keeps_essence_needed unedited editor dataset alpha beta batch_size
    prompt_prefix prompt_template max_new_tokens max_length use_references
    tfidf_vectorizer desc device :
  keeps unedited (essence_needed prompt_prefix use_references)
    (essence editor dataset alpha beta batch_size prompt_prefix prompt_template
       max_new_tokens max_length use_references tfidf_vectorizer desc device).
Proof.
  unfold essence. apply keeps_bind; [apply keeps_pure|]. intros _.
  unfold essence_run. cbv zeta.
  apply keeps_bind.
  { destruct tfidf_vectorizer; [apply keeps_mret | apply keeps_pure]. }
  intros vectorizer.
  apply keeps_bind.
  { destruct prompt_prefix as [prefix|]; [|apply keeps_mret].
    apply keeps_bind; [|intros kvs; apply keeps_mret].
    apply keeps_model_forward. by eexists. }
  intros past_key_values.
  apply keeps_bind; [apply keeps_pure|]. intros loader.
  apply keeps_bind.
  { apply keeps_for_inM. intros item lists.
    apply keeps_essence_batch_needed; [intros Hnone args; exact Hnone|].
    intros edit args. exact I. }
  intros lists.
  apply keeps_bind; [apply keeps_pure|]. intros essence_metric.
  apply keeps_bind; [apply keeps_pure|]. intros fluency_generaton.
  apply keeps_bind; [apply keeps_pure|]. intros fluency_references.
  apply keeps_mret.
Qed.

(** X11: [essence] asks the model for nothing it has no use for: whether
    it returns or raises, the trace grows by forward passes only if a prompt
    prefix was given, by unedited generation calls only if no references were
    supplied, and otherwise by edited generation calls; so with references
    supplied and no prompt prefix the model is only ever run edited. *)
Theorem essence_runs_only_needed_computations
    (editor : Editor) (dataset : data.Dataset) (alpha beta : float)
    (batch_size : Z) (prompt_prefix : option string) (prompt_template : string)
    (max_new_tokens max_length : option Z)
    (use_references : option (list (list string)))
    (tfidf_vectorizer : option metrics.Vectorizer) (desc : option string)
    (device : option Device) (w : World) :
  let w' :=
    (essence editor dataset alpha beta batch_size prompt_prefix prompt_template
       max_new_tokens max_length use_references tfidf_vectorizer desc device w).1 in
  ∃ new,
    calls w' = calls w ++ new
    ∧ Forall (essence_needed prompt_prefix use_references) new
    ∧ (prompt_prefix = None → is_Some use_references →
       Forall (fun entry => ∃ args, entry.2 = GenerateEdited args) new).
Proof.
  intros w'.
  destruct (keeps_essence_needed (active_edits w) editor dataset alpha beta
              batch_size prompt_prefix prompt_template max_new_tokens max_length
              use_references tfidf_vectorizer desc device w eq_refl)
    as (_ & new & Hcalls & Hnew).
  fold w' in Hcalls. exists new. split; [assumption|]. split; [assumption|].
  intros -> [refs ->]. eapply Forall_impl; [exact Hnew|].
  intros [edits [inputs|args|args]] Hneeded; unfold essence_needed in Hneeded;
    cbn in Hneeded.
  - by destruct Hneeded.
  - discriminate.
  - by eexists.
Qed.

Lemma pure_run_Ok {A : Type} (r : result A) (w w' : World) (a : A) :
  pure r w = (w', Ok a) → w' = w ∧ r = Ok a.
Proof. unfold pure, lift. by intros [= -> ->]. Qed.

Lemma mret_run_Ok {A : Type} (a a' : A) (w w' : World) :
  (mret a : M World A) w = (w', Ok a') → w' = w ∧ a' = a.
Proof. by intros [= -> ->]. Qed.

Lemma model_generate_calls mt args w :
  calls (model_generate mt args w).1 = calls w ++ [(active_edits w, Generate args)].
Proof.
  unfold model_generate. by destruct (generate mt (active_edits w) (rng w) args).
Qed.

Lemma apply_generate_edited_calls editor alpha beta device args w :
  calls (editors.apply editor alpha beta device
           (fun edited_mt => model_generate_edited edited_mt args) w).1
  = calls w
    ++ [({| edit_editor := editor; edit_alpha := alpha; edit_beta := beta;
            edit_device := device |} :: active_edits w, GenerateEdited args)].
Proof.
  unfold editors.apply, model_generate_edited. cbn [active_edits rng calls].
  by destruct (generate_edited _ _ _ args).
Qed.

(** One pass of the loop over the batches that does not raise. *)
Lemma essence_batch_Ok editor alpha beta batch_size prompt_template
    max_new_tokens max_length use_references tfidf_vectorizer device
    past_key_values item lists w w' lists' :
  essence_batch editor alpha beta batch_size prompt_template max_new_tokens
    max_length use_references tfidf_vectorizer device past_key_values item lists w
  = (w', Ok lists') →
  edited_batch_ids (calls w') = edited_batch_ids (calls w) ++ [data.id <$> item.2]
  ∧ (∀ refs, use_references = Some refs →
       reference_groups lists'
       = reference_groups lists
         ++ slice refs (Z.to_nat (Z.of_nat item.1 * batch_size))
              (Z.to_nat (Z.of_nat item.1 * batch_size) + length item.2)).
Proof.
  unfold essence_batch. cbv zeta. intros Hrun.
  apply M_bind_run_inv in Hrun as (w1 & prompts & Hprompts & Hrun).
  apply pure_run_Ok in Hprompts as [-> Hprompts].
  apply M_bind_run_inv in Hrun as (w2 & groups & Hgroups & Hrun).
  apply M_bind_run_inv in Hrun as (w3 & outputs & Houtputs & Hrun).
  apply M_bind_run_inv in Hrun as (w4 & scores & Hscores & Hrun).
  apply pure_run_Ok in Hscores as [-> Hscores].
  apply mret_run_Ok in Hrun as [-> ->].
  match type of Houtputs with
  | editors.apply _ _ _ _ (fun edited_mt => model_generate_edited edited_mt ?args) _ = _ =>
      pose proof (apply_generate_edited_calls editor alpha beta device args w2)
        as Hcalls
  end.
  rewrite Houtputs in Hcalls. cbn [fst] in Hcalls.
  split.
  - rewrite Hcalls. unfold edited_batch_ids. rewrite omap_app. cbn.
    f_equal. destruct use_references as [refs|].
    + by apply mret_run_Ok in Hgroups as [-> _].
    + apply M_bind_run_inv in Hgroups as (w5 & generated & Hgenerated & Hgroups).
      apply mret_run_Ok in Hgroups as [-> _].
      match type of Hgenerated with
      | model_generate ?mt ?args _ = _ =>
          pose proof (model_generate_calls mt args w) as Hcalls'
      end.
      rewrite Hgenerated in Hcalls'. cbn [fst] in Hcalls'.
      rewrite Hcalls', omap_app. cbn. by rewrite app_nil_r.
  - intros refs ->. apply mret_run_Ok in Hgroups as [_ ->].
    cbn [reference_groups]. by rewrite length_fmap.
Qed.

(** The loop over the batches, when it does not raise. *)
Lemma essence_batches_Ok editor alpha beta batch_size prompt_template
    max_new_tokens max_length use_references tfidf_vectorizer device
    past_key_values items lists w w' lists' :
  for_inM items
    (essence_batch editor alpha beta batch_size prompt_template max_new_tokens
       max_length use_references tfidf_vectorizer device past_key_values) lists w
  = (w', Ok lists') →
  edited_batch_ids (calls w')
  = edited_batch_ids (calls w)
    ++ ((fun item : nat * list data.ContextMediationSample => data.id <$> item.2)
          <$> items)
  ∧ (∀ refs, use_references = Some refs →
       reference_groups lists'
       = reference_groups lists
         ++ concat
              ((fun item : nat * list data.ContextMediationSample =>
                  slice refs (Z.to_nat (Z.of_nat item.1 * batch_size))
                    (Z.to_nat (Z.of_nat item.1 * batch_size) + length item.2))
                 <$> items)).
Proof.
  revert lists w. induction items as [|item items IH]; intros lists w Hrun.
  - apply mret_run_Ok in Hrun as [-> ->]. cbn. rewrite !app_nil_r.
    split; [reflexivity|]. intros refs _. reflexivity.
  - cbn [for_inM] in Hrun.
    apply M_bind_run_inv in Hrun as (w1 & lists1 & Hbatch & Hrun).
    apply essence_batch_Ok in Hbatch as [Hcalls1 Hrefs1].
    apply IH in Hrun as [Hcalls Hrefs].
    split.
    + rewrite Hcalls, Hcalls1, <- app_assoc. reflexivity.
    + intros refs Hsome.
      rewrite (Hrefs refs Hsome), (Hrefs1 refs Hsome), <- app_assoc. reflexivity.
Qed.

End essence_batches.

Section essence_results.
Context `{models.ModelAPI} `{metrics.MetricsAPI}.
Import models benchmarks.
Local Open Scope list_scope.

(** A run of [essence] that returns: the arguments passed the checks, the
    loop went over every batch, and the samples are built from the lists of
    the loop. *)
Lemma essence_Ok editor dataset alpha beta batch_size prompt_prefix
    prompt_template max_new_tokens max_length use_references tfidf_vectorizer
    desc device w w' r :
  essence editor dataset alpha beta batch_size prompt_prefix prompt_template
    max_new_tokens max_length use_references tfidf_vectorizer desc device w
  = (w', Ok r) →
  essence_validate dataset prompt_template use_references = Ok tt
  ∧ 0 < batch_size
  ∧ ∃ max_length' vectorizer past_key_values w1 lists,
      edited_batch_ids (calls w1) = edited_batch_ids (calls w)
      ∧ for_inM (enumerate (chunks (Z.to_nat batch_size) dataset))
          (essence_batch editor alpha beta batch_size prompt_template
             max_new_tokens max_length' use_references vectorizer device
             past_key_values)
          {| generations := []; reference_groups := []; essence_scores := [];
             fluency_generation_scores := []; fluency_references_scores := [] |}
          w1
        = (w', Ok lists)
      ∧ ∃ rest : list (string * (list string * (float * (float * float)))),
          essence_sample_id <$> essence_samples r
          = data.id <$> (zip dataset rest).*1
          ∧ references <$> essence_samples r = (zip dataset rest).*2.*2.*1
          ∧ rest.*2.*1 = take (length rest) (reference_groups lists).
Proof.
  unfold essence. intros Hrun.
  apply M_bind_run_inv in Hrun as (w0 & [] & Hvalid & Hrun).
  apply pure_run_Ok in Hvalid as [-> Hvalid].
  split; [assumption|].
  unfold essence_run in Hrun. cbv zeta in Hrun.
  apply M_bind_run_inv in Hrun as (w1 & vectorizer & Hvectorizer & Hrun).
  assert (w1 = w) as ->.
  { destruct tfidf_vectorizer.
    - by apply mret_run_Ok in Hvectorizer as [-> _].
    - by apply pure_run_Ok in Hvectorizer as [-> _]. }
  apply M_bind_run_inv in Hrun as (w2 & past_key_values & Hprefix & Hrun).
  assert (edited_batch_ids (calls w2) = edited_batch_ids (calls w)) as Hcalls.
  { destruct prompt_prefix as [prefix|].
    - apply M_bind_run_inv in Hprefix as (w3 & kvs & Hforward & Hprefix).
      apply mret_run_Ok in Hprefix as [-> _].
      unfold model_forward in Hforward. injection Hforward as <- _.
      cbn [calls]. unfold edited_batch_ids. rewrite omap_app. cbn.
      by rewrite app_nil_r.
    - by apply mret_run_Ok in Hprefix as [-> _]. }
  apply M_bind_run_inv in Hrun as (w3 & loader & Hloader & Hrun).
  apply pure_run_Ok in Hloader as [-> Hloader].
  unfold DataLoader in Hloader.
  destruct (batch_size <=? 0) eqn:Hsize; [discriminate|].
  injection Hloader as <-. split; [lia|].
  apply M_bind_run_inv in Hrun as (w4 & lists & Hloop & Hrun).
  apply M_bind_run_inv in Hrun as (w5 & m1 & Hm1 & Hrun).
  apply pure_run_Ok in Hm1 as [-> _].
  apply M_bind_run_inv in Hrun as (w5 & m2 & Hm2 & Hrun).
  apply pure_run_Ok in Hm2 as [-> _].
  apply M_bind_run_inv in Hrun as (w5 & m3 & Hm3 & Hrun).
  apply pure_run_Ok in Hm3 as [-> _].
  apply mret_run_Ok in Hrun as [-> ->].
  eexists _, vectorizer, past_key_values, w2, lists.
  split; [assumption|]. split; [exact Hloop|].
  cbn [essence_samples].
  exists (zip (generations lists) (zip (reference_groups lists)
            (zip (essence_scores lists) (zip (fluency_generation_scores lists)
               (fluency_references_scores lists))))).
  split; [|split].
  - rewrite <- !list_fmap_compose. apply list_fmap_ext.
    by intros i [sample [g [rs [e [f1 f2]]]]] _.
  - rewrite <- !list_fmap_compose. apply list_fmap_ext.
    by intros i [sample [g [rs [e [f1 f2]]]]] _.
  - rewrite zip_snd_take, fmap_take, zip_fst_take, take_take.
    f_equal. pose proof (zip_length_le_r (generations lists)
      (zip (reference_groups lists)
         (zip (essence_scores lists) (zip (fluency_generation_scores lists)
            (fluency_references_scores lists))))). lia.
Qed.

(** X12: the samples [essence] returns follow the dataset: the i-th sample
    carries the ID of the i-th sample of the dataset and, when references
    were supplied, the i-th group of them as its references, whatever the
    batch size. *)
Theorem essence_samples_follow_dataset
    (editor : Editor) (dataset : data.Dataset) (alpha beta : float)
    (batch_size : Z) (prompt_prefix : option string) (prompt_template : string)
    (max_new_tokens max_length : option Z)
    (use_references : option (list (list string)))
    (tfidf_vectorizer : option metrics.Vectorizer) (desc : option string)
    (device : option Device) (w w' : World) (r : EssenceBenchmarkResults) :
  essence editor dataset alpha beta batch_size prompt_prefix prompt_template
    max_new_tokens max_length use_references tfidf_vectorizer desc device w
  = (w', Ok r) →
  let k := length (essence_samples r) in
  (k ≤ length dataset)%nat
  ∧ essence_sample_id <$> essence_samples r = take k (data.id <$> dataset)
  ∧ (∀ refs, use_references = Some refs →
       references <$> essence_samples r = take k refs).
Proof.
  intros Hrun k.
  apply essence_Ok in Hrun
    as (Hvalid & Hsize & max_length' & vectorizer & past_key_values & w1 & lists
        & _ & Hloop & rest & Hids & Hrefs & Hrest).
  assert (k = length (zip dataset rest)) as Hk.
  { unfold k. by rewrite <- (length_fmap essence_sample_id), Hids, !length_fmap. }
  split; [|split].
  - rewrite Hk, <- (length_fmap fst), zip_fst_take, length_take. lia.
  - by rewrite Hids, zip_fst_take, fmap_take, Hk.
  - intros refs ->.
    apply essence_batches_Ok in Hloop as [_ Hgroups].
    specialize (Hgroups refs eq_refl). cbn [reference_groups app] in Hgroups.
    unfold essence_validate in Hvalid.
    destruct (decide (count prompt_template "{}" ≠ 1%nat)); [discriminate|].
    destruct (decide (length refs ≠ length dataset)) as [|Hlen]; [discriminate|].
    apply dec_stable in Hlen.
    assert (reference_groups lists = refs) as Hall.
    { rewrite Hgroups. unfold enumerate, chunks.
      rewrite fmap_imap.
      rewrite (imap_ext _ (fun i (b : list data.ContextMediationSample) =>
                 slice refs ((0 + i) * Z.to_nat batch_size)
                   ((0 + i) * Z.to_nat batch_size + length b)) _).
      - rewrite chunks_fuel_slices; [reflexivity|lia|lia|by rewrite Nat.mul_0_l].
      - intros i b _. cbn.
        by replace (Z.to_nat (Z.of_nat i * batch_size))
          with (i * Z.to_nat batch_size)%nat by lia. }
    rewrite Hrefs, zip_snd_take, !fmap_take, Hrest, Hall, !take_take, <- Hk.
    f_equal. pose proof (zip_length_le_r dataset rest). lia.
Qed.

(** X13: on a run of [essence] that returns, the batch size is positive and
    the edited model generated for every sample of the dataset exactly once,
    in dataset order: the ID columns of the batches passed to the edited
    generation call, one after the other, are the IDs of the dataset, and no
    batch is empty or larger than the batch size. *)
Theorem essence_edits_every_sample_once
    (editor : Editor) (dataset : data.Dataset) (alpha beta : float)
    (batch_size : Z) (prompt_prefix : option string) (prompt_template : string)
    (max_new_tokens max_length : option Z)
    (use_references : option (list (list string)))
    (tfidf_vectorizer : option metrics.Vectorizer) (desc : option string)
    (device : option Device) (w w' : World) (r : EssenceBenchmarkResults) :
  essence editor dataset alpha beta batch_size prompt_prefix prompt_template
    max_new_tokens max_length use_references tfidf_vectorizer desc device w
  = (w', Ok r) →
  0 < batch_size
  ∧ ∃ batches,
      edited_batch_ids (calls w') = edited_batch_ids (calls w) ++ batches
      ∧ concat batches = data.id <$> dataset
      ∧ Forall (fun batch => (0 < length batch ≤ Z.to_nat batch_size)%nat) batches.
Proof.
  intros Hrun.
  apply essence_Ok in Hrun
    as (_ & Hsize & max_length' & vectorizer & past_key_values & w1 & lists
        & Hcalls & Hloop & _).
  split; [assumption|].
  apply essence_batches_Ok in Hloop as [Hbatches _].
  exists ((fun batch : list data.ContextMediationSample => data.id <$> batch)
            <$> chunks (Z.to_nat batch_size) dataset).
  split; [|split].
  - rewrite Hbatches, Hcalls. f_equal. unfold enumerate.
    rewrite fmap_imap.
    rewrite (imap_ext _ (const (fun batch : list data.ContextMediationSample =>
                                  data.id <$> batch)) _) by done.
    apply imap_const.
  - rewrite <- concat_map. f_equal. apply chunks_fuel_concat; lia.
  - apply Forall_fmap. eapply Forall_impl.
    + apply (chunks_fuel_lengths (length dataset) (Z.to_nat batch_size) dataset).
      lia.
    + intros batch Hbatch. cbn. by rewrite length_fmap.
Qed.

End essence_results.

(** Three samples in batches of two with supplied references: the samples
    returned carry the IDs of the dataset and the supplied references, in
    order. *)
Lemma essence_samples_follow_dataset_witness :
  ∃ w' r,
    @benchmarks.essence _ _ fixtures.text_model fixtures.unit_metrics
      tt [fixtures.sample_1; fixtures.sample_3; fixtures.sample_1] 1 0 2
      None "{} is" None None (Some [["a"]; ["b"]; ["c"; "d"]]) None None None
      fixtures.fresh_model
    = (w', Ok r)
    ∧ benchmarks.essence_sample_id <$> benchmarks.essence_samples r = ["1"; "3"; "1"]
    ∧ benchmarks.references <$> benchmarks.essence_samples r
      = [["a"]; ["b"]; ["c"; "d"]].
Proof.
  eexists _, _. split; [vm_compute; reflexivity|].
  lazymatch goal with
  | |- context [benchmarks.essence_samples ?r] =>
      destruct (@essence_samples_follow_dataset _ _ fixtures.text_model
                  fixtures.unit_metrics tt
                  [fixtures.sample_1; fixtures.sample_3; fixtures.sample_1]
                  1%float 0%float 2 None "{} is" None None
                  (Some [["a"]; ["b"]; ["c"; "d"]]) None None None
                  fixtures.fresh_model _ r ltac:(vm_compute; reflexivity))
        as (_ & Hids & Hrefs)
  end.
  split; [exact Hids | exact (Hrefs _ eq_refl)].
Defined.

(** Three samples in batches of two, references generated by the model: the
    edited model is given the batch of the first two samples, then the third
    sample. *)
Lemma essence_edits_every_sample_once_witness :
  ∃ w' r,
    @benchmarks.essence _ _ fixtures.text_model fixtures.unit_metrics
      tt [fixtures.sample_1; fixtures.sample_3; fixtures.sample_1] 1 0 2
      (Some "The") "{} is" None None None None None None fixtures.fresh_model
    = (w', Ok r)
    ∧ models.edited_batch_ids (models.calls w') = [["1"; "3"]; ["1"]]
    ∧ ∃ batches,
        models.edited_batch_ids (models.calls w')
        = (models.edited_batch_ids (models.calls fixtures.fresh_model) ++ batches)%list
        ∧ concat batches = ["1"; "3"; "1"]
        ∧ Forall (fun batch => (0 < length batch ≤ 2)%nat) batches.
Proof.
  eexists _, _. split; [vm_compute; reflexivity|].
  split; [vm_compute; reflexivity|].
  lazymatch goal with
  | |- context [models.calls ?w'] =>
      apply (@essence_edits_every_sample_once _ _ fixtures.text_model
               fixtures.unit_metrics tt
               [fixtures.sample_1; fixtures.sample_3; fixtures.sample_1]
               1%float 0%float 2 (Some "The") "{} is" None None None None None
               None fixtures.fresh_model w' _ ltac:(vm_compute; reflexivity))
  end.
Defined.

(** ** scripts/benchmark.py: an evaluation that fails *)

Section failed_evaluation.
Context `{scripts_benchmark.DriverAPI} `{metrics.MetricsAPI}.
Import scripts_benchmark pathlib.
Local Open Scope list_scope.

Lemma ancestors_and_self_length (p q : Path) :
  q ∈ ancestors_and_self p → (length q ≤ length p)%nat.
Proof.
  revert q. induction p as [|c cs IH]; intros q; cbn [ancestors_and_self].
  - by intros ?%elem_of_nil.
  - intros [->|Hq]%elem_of_cons; [cbn; lia|].
    apply list_elem_of_fmap in Hq as (q' & -> & Hq'). apply IH in Hq'. cbn. lia.
Qed.

Lemma parent_div (p : Path) (c : string) : parent (p // c) = p.
Proof. unfold parent, div. apply removelast_last. Qed.

(** X14: when the results file of a subset does not exist and
    [editor.evaluate] raises, the step of the loop over the subsets raises
    the same exception after that one call; no file is written, so the
    results file still does not exist and the next run evaluates the subset
    again instead of loading anything. *)
Theorem evaluate_subset_failure_leaves_no_results_file
    (setup : Setup) (editor : Editor) (layer : Z) (key : string)
    (subset : data.Dataset) (max_new_tokens max_length : option Z)
    (results : gmap string editors.EditorEvaluateRun) (w : World) (e : exn) :
  let args :=
    {| ev_editor := editor;
       ev_dataset := subset;
       ev_batch_size := args_batch_size setup;
       ev_device := device setup;
       ev_desc := "evaluate on " ++ key ++ " (layer " ++ pretty layer ++ ")";
       ev_return_before := false;
       ev_return_after := true;
       ev_max_new_tokens := max_new_tokens;
       ev_max_length := max_length |} in
  present w (results_file setup layer key) = false →
  Forall (fun q => files w !! q = None)
    (ancestors_and_self (parent (results_file setup layer key))) →
  evaluate args = Raise e →
  ∃ w',
    evaluate_subset setup editor layer
      (key, subset, (max_new_tokens, max_length)) results w
    = (w', Raise e)
    ∧ files w' = files w
    ∧ present w' (results_file setup layer key) = false
    ∧ evaluate_calls w' = evaluate_calls w ++ [args].
Proof.
  intros args Hpresent Hancestors Hevaluate.
  unfold evaluate_subset.
  cbv [mbind M_bind mret M_ret modify get raise lift pure logger exists_
       read_text write_text mkdir editor_evaluate].
  cbn [files dirs log weight_loads evaluate_calls logged].
  rewrite Hpresent.
  rewrite bool_decide_eq_false_2.
  2:{ intros Hexists. apply Exists_exists in Hexists as (q & Hq & [content Hfile]).
      rewrite Forall_forall in Hancestors. rewrite (Hancestors q Hq) in Hfile.
      discriminate. }
  fold args. rewrite Hevaluate.
  eexists. split; [reflexivity|]. cbn [files evaluate_calls].
  split; [reflexivity|]. split; [|reflexivity].
  unfold present in *. cbn [files dirs].
  apply orb_false_iff in Hpresent as [Hfile Hdir].
  rewrite Hfile. cbn [orb].
  apply bool_decide_eq_false_2. apply bool_decide_eq_false_1 in Hdir.
  intros [Hin|Hin]%elem_of_union; [done|].
  apply elem_of_list_to_set, ancestors_and_self_length in Hin.
  unfold results_file in Hin. rewrite parent_div in Hin.
  unfold div in Hin. rewrite !length_app in Hin. cbn in Hin. lia.
Qed.

End failed_evaluation.

(** The generation subset on a driver that runs out of memory: the step
    raises, and no results file exists afterwards. *)
Lemma evaluate_subset_failure_leaves_no_results_file_witness :
  ∃ w',
    @scripts_benchmark.evaluate_subset _ fixtures.out_of_memory _
      fixtures.setup_linear tt 1
      ("generation_prompts", [fixtures.sample_1], (None, Some 100)) ∅
      fixtures.empty_world
    = (w', Raise (RuntimeError "out of memory"))
    ∧ scripts_benchmark.files w' = ∅
    ∧ scripts_benchmark.present w'
        (@scripts_benchmark.results_file _ _ fixtures.setup_linear 1
           "generation_prompts") = false
    ∧ length (scripts_benchmark.evaluate_calls w') = 1%nat.
Proof.
  destruct (@evaluate_subset_failure_leaves_no_results_file _
              fixtures.out_of_memory _ fixtures.setup_linear tt 1
              "generation_prompts" [fixtures.sample_1] None (Some 100) ∅
              fixtures.empty_world (RuntimeError "out of memory"))
    as (w' & Hrun & Hfiles & Hpresent & Hcalls).
  - vm_compute. reflexivity.
  - vm_compute. repeat constructor.
  - reflexivity.
  - exists w'. split; [exact Hrun|]. split; [exact Hfiles|].
    split; [exact Hpresent|]. rewrite Hcalls. reflexivity.
Defined.

(** ** scripts/benchmark.py: prepending the context *)

Section comprehension_facts.
Context {A B : Type} (f : A → result B).

Lemma comprehension_Forall2 (xs : list A) (ys : list B) :
  comprehension f xs = Ok ys → Forall2 (fun x y => f x = Ok y) xs ys.
Proof.
  revert ys. induction xs as [|x xs IH]; intros ys; cbn [comprehension].
  - intros [= <-]. constructor.
  - intros Hrun. bind_ok Hrun as y Hy. bind_ok Hrun as ys' Hys.
    injection Hrun as <-. constructor; [assumption|by apply IH].
Qed.

Lemma comprehension_Raise (xs : list A) (e : exn) :
  comprehension f xs = Raise e → Exists (fun x => f x = Raise e) xs.
Proof.
  induction xs as [|x xs IH]; cbn [comprehension]; [discriminate|].
  destruct (f x) as [y|e'] eqn:Hx; cbn.
  - destruct (comprehension f xs) as [ys|e'']; cbn; [discriminate|].
    intros [= ->]. right. by apply IH.
  - intros [= ->]. by left.
Qed.

Lemma comprehension_Exists_Raise (xs : list A) :
  Exists (fun x => ∃ e, f x = Raise e) xs → ∃ e, comprehension f xs = Raise e.
Proof.
  induction 1 as [x xs [e Hx]|x xs _ [e IH]]; cbn [comprehension].
  - rewrite Hx. by exists e.
  - destruct (f x) as [y|e']; cbn; [|by eexists].
    rewrite IH. by exists e.
Qed.

End comprehension_facts.

Section prepend_context_facts.
Import scripts_benchmark.
Context (lower : string → string).

Lemma first_character_None (s : string) :
  first_character s = None ↔ s = EmptyString.
Proof. destruct s; cbn; split; congruence. Qed.

Lemma prepend_context_for_fow_Raise (row : data.ContextMediationSample) (e : exn) :
  prepend_context_for_fow lower row = Raise e →
  e = IndexError "string index out of range"
  ∧ data.context row = EmptyString ∧ data.entity row ≠ EmptyString.
Proof.
  unfold prepend_context_for_fow.
  destruct (String.prefix (data.entity row) (data.context row)) eqn:Hprefix;
    cbn [negb]; [discriminate|].
  destruct (first_character (data.context row)) as [[first rest]|] eqn:Hfirst;
    [discriminate|].
  apply first_character_None in Hfirst.
  intros [= <-]. split; [reflexivity|]. split; [assumption|].
  intros Hentity. rewrite Hentity, Hfirst in Hprefix. discriminate.
Qed.

Lemma prepend_context_for_fow_empty (row : data.ContextMediationSample) :
  data.context row = EmptyString → data.entity row ≠ EmptyString →
  prepend_context_for_fow lower row = Raise (IndexError "string index out of range").
Proof.
  intros Hcontext Hentity. unfold prepend_context_for_fow. rewrite Hcontext.
  destruct (data.entity row); [done|reflexivity].
Qed.

Lemma prepend_context_for_fow_Ok (row row' : data.ContextMediationSample) :
  prepend_context_for_fow lower row = Ok row' → context_prepended lower row row'.
Proof.
  unfold prepend_context_for_fow, context_prepended.
  destruct (String.prefix (data.entity row) (data.context row)); cbn [negb].
  - intros [= <-]. cbn. do 5 (split; [reflexivity|]). by eexists.
  - destruct (first_character (data.context row)) as [[first rest]|] eqn:Hfirst;
      [|discriminate].
    intros [= <-]. cbn. do 5 (split; [done|]).
    eexists. split; [reflexivity|]. by exists first, rest.
Qed.

(** X15: [prepend_context] fails exactly when some row has no context but
    an entity, and then with the [IndexError] of indexing the empty context;
    when it returns, the dataset has the same rows in the same order, each
    with its prompt moved behind the sentence made of its context (the
    context itself when it starts with the entity, and otherwise the context
    with its first character lowered and the periods and blanks at the end
    of what follows it removed) and every other column as it was. *)
Theorem prepend_context_fails_only_on_empty_context (dataset : data.Dataset) :
  ((∃ e, prepend_context lower dataset = Raise e)
   ↔ Exists (fun row => data.context row = EmptyString
                        ∧ data.entity row ≠ EmptyString) dataset)
  ∧ (∀ e, prepend_context lower dataset = Raise e →
       e = IndexError "string index out of range")
  ∧ (∀ dataset', prepend_context lower dataset = Ok dataset' →
       Forall2 (context_prepended lower) dataset dataset').
Proof.
  unfold prepend_context. split; [split|split].
  - intros [e Hrun]. apply comprehension_Raise in Hrun.
    eapply Exists_impl; [exact Hrun|].
    intros row Hrow. by apply prepend_context_for_fow_Raise in Hrow as (_ & ? & ?).
  - intros Hrows. apply comprehension_Exists_Raise.
    eapply Exists_impl; [exact Hrows|].
    intros row [Hcontext Hentity]. eexists.
    by apply prepend_context_for_fow_empty.
  - intros e Hrun. apply comprehension_Raise, Exists_exists in Hrun
      as (row & _ & Hrow).
    by apply prepend_context_for_fow_Raise in Hrow as (-> & _).
  - intros dataset' Hrun. apply comprehension_Forall2 in Hrun.
    eapply Forall2_impl; [exact Hrun|].
    intros row row'. apply prepend_context_for_fow_Ok.
Qed.

End prepend_context_facts.

(** Three rows: a context that starts with the entity, one that starts with
    a capital letter of one byte and one that starts with a capital letter
    of two bytes; and a dataset with a row without context. *)
Lemma prepend_context_fails_only_on_empty_context_witness :
  (data.prompt
     <$> default []
           (match scripts_benchmark.prepend_context fixtures.lower_utf8
                    [fixtures.sample_1; fixtures.sample_4; fixtures.sample_6] with
            | Ok rows => Some rows
            | Raise _ => None
            end)
   = [ "Suppose Paris is located in Italy. Paris is located in";
       "Suppose the capital Oslo is located in Chile. Oslo is located in";
       "Suppose "
       ++ String (Ascii.ascii_of_nat 195) (String (Ascii.ascii_of_nat 164)
            "rger in Rome")
       ++ ". Rome is located in" ])
  ∧ scripts_benchmark.prepend_context fixtures.lower_utf8
      [fixtures.sample_1; fixtures.sample_5; fixtures.sample_4]
    = Raise (IndexError "string index out of range").
Proof.
  split; [vm_compute; reflexivity|].
  destruct (prepend_context_fails_only_on_empty_context fixtures.lower_utf8
              [fixtures.sample_1; fixtures.sample_5; fixtures.sample_4])
    as ([_ Hraises] & Herror & _).
  destruct Hraises as [e Hrun].
  - right. left. split; [reflexivity|discriminate].
  - rewrite Hrun. f_equal. by apply Herror.
Defined.

(** ** scripts/benchmark.py: the layers [main] goes over *)

Section layers_facts.
Context `{Externals}.
Import scripts_benchmark pathlib.
Context (int : string → result Z)
  (listdir : gmap Path string → gset Path → Path → list Path).

Lemma name_div (p : Path) (c : string) : name (p // c) = c.
Proof. unfold name, div. by rewrite last_snoc. Qed.

Lemma present_dir (w : World) (p : Path) : p ∈ dirs w → present w p = true.
Proof.
  intros Hdir. unfold present. rewrite (bool_decide_eq_true_2 (p ∈ dirs w)) by done.
  apply orb_true_r.
Qed.

(** X16: without [--layers], [main] takes the layers from the names of the
    directories in [editors_dir] itself, where the directory of the editor
    type is one of them.  So for an editor type other than ["identity"]
    whose directory [editors_dir / editor_type] exists, and whose name is
    not an integer literal, [main] raises the [ValueError] of [int] before
    it loads anything and leaves files and directories as they are; with
    [--layers] the same setup passes and the layers are used as given. *)
Theorem main_default_layers_reads_editors_dir
    (editor_type : string) (editors_dir : Path) (w : World) (msg : string) :
  editor_type ≠ "identity" →
  editors_dir ∈ dirs w →
  editors_dir // editor_type ∈ dirs w →
  editors_dir // editor_type ∈ listdir (files w) (dirs w) editors_dir →
  int editor_type = Raise (ValueError msg) →
  (∀ s e, int s = Raise e → ∃ msg', e = ValueError msg') →
  (∃ w' msg',
     main_layers int listdir (Some editor_type) (Some editors_dir) None w
     = (w', Raise (ValueError msg'))
     ∧ files w' = files w ∧ dirs w' = dirs w)
  ∧ ∀ layers, ∃ w',
      main_layers int listdir (Some editor_type) (Some editors_dir) (Some layers) w
      = (w', Ok layers).
Proof.
  intros Htype Hdir Hsub Hlisted Hint Hvalue.
  assert (∀ layers,
    main_layers int listdir (Some editor_type) (Some editors_dir) layers w
    = select_layers int listdir layers (Some editors_dir)
        (logged INFO
           ("will look for " ++ editor_type ++ " editors in " ++ str editors_dir)
           w)) as Hchecked.
  { intros layers. unfold main_layers, check_editors.
    rewrite decide_True by congruence.
    cbv [mbind M_bind mret M_ret modify get raise lift pure logger exists_].
    cbn [default from_option].
    replace (present _ (editors_dir // editor_type)) with true; [reflexivity|].
    symmetry. by apply present_dir. }
  split.
  - rewrite Hchecked.
    set (w1 := logged INFO _ w).
    change (files w) with (files w1) in *. change (dirs w) with (dirs w1) in *.
    clearbody w1.
    unfold select_layers, iterdir.
    cbv [mbind M_bind mret M_ret modify get raise lift pure].
    rewrite bool_decide_eq_true_2 by assumption.
    destruct (comprehension_Exists_Raise (fun layer_dir => int (name layer_dir))
                (filter (fun layer_dir => layer_dir ∈ dirs w1)
                   (listdir (files w1) (dirs w1) editors_dir))) as [e Hrun].
    { apply Exists_exists. exists (editors_dir // editor_type).
      split; [by apply list_elem_of_filter|].
      rewrite name_div. eauto. }
    rewrite Hrun.
    apply comprehension_Raise, Exists_exists in Hrun as (layer_dir & _ & Hlayer).
    apply Hvalue in Hlayer as [msg' ->].
    exists w1, msg'. split; [reflexivity|]. split; reflexivity.
  - intros layers. rewrite Hchecked. eexists. reflexivity.
Qed.

End layers_facts.

(** The editors of type ["linear"] of layer 1 under ["editors"]: without
    layers on the command line [main] fails on the name of the directory
    ["editors/linear"]. *)
Lemma main_default_layers_reads_editors_dir_witness :
  (∃ w' msg',
     @scripts_benchmark.main_layers fixtures.unit_externals
       fixtures.int_of_digits fixtures.listdir
       (Some "linear") (Some ["editors"]) None fixtures.world_with_layer_1
     = (w', Raise (ValueError msg'))
     ∧ scripts_benchmark.files w'
       = scripts_benchmark.files fixtures.world_with_layer_1
     ∧ scripts_benchmark.dirs w'
       = scripts_benchmark.dirs fixtures.world_with_layer_1)
  ∧ ∀ layers, ∃ w',
      @scripts_benchmark.main_layers fixtures.unit_externals
        fixtures.int_of_digits fixtures.listdir
        (Some "linear") (Some ["editors"]) (Some layers)
        fixtures.world_with_layer_1
      = (w', Ok layers).
Proof.
  apply (@main_default_layers_reads_editors_dir fixtures.unit_externals
           fixtures.int_of_digits fixtures.listdir "linear" ["editors"]
           fixtures.world_with_layer_1
           "invalid literal for int() with base 10: linear").
  - discriminate.
  - vm_compute. set_solver.
  - vm_compute. set_solver.
  - apply list_elem_of_filter. split.
    + split; [discriminate|reflexivity].
    + apply elem_of_elements. apply elem_of_union_r.
      unfold fixtures.world_with_layer_1. cbn. set_solver.
  - reflexivity.
  - intros s e. unfold fixtures.int_of_digits.
    destruct s; [intros [= <-]; eauto|].
    destruct (fixtures.digits_value _ _); [discriminate|intros [= <-]; eauto].
Defined.

(** ** src/benchmarks.py: the caps of the generation calls of [essence] *)

Section essence_caps.
Context `{models.ModelAPI} `{metrics.MetricsAPI}.
Import models benchmarks.
Local Open Scope list_scope.

(** The generation calls of one pass of the loop over the batches that does
    not raise, with the caps they are given. *)
Lemma essence_batch_summary editor alpha beta batch_size prompt_template
    max_new_tokens max_length use_references tfidf_vectorizer device
    past_key_values item lists w w' lists' :
  essence_batch editor alpha beta batch_size prompt_template max_new_tokens
    max_length use_references tfidf_vectorizer device past_key_values item lists w
  = (w', Ok lists') →
  call_summary <$> calls w'
  = (call_summary <$> calls w)
    ++ match use_references with
       | None => [Generation max_new_tokens max_length]
       | Some _ => []
       end
    ++ [EditedGeneration (data.id <$> item.2) max_new_tokens max_length].
Proof.
  unfold essence_batch. cbv zeta. intros Hrun.
  apply M_bind_run_inv in Hrun as (w1 & prompts & Hprompts & Hrun).
  apply pure_run_Ok in Hprompts as [-> Hprompts].
  apply M_bind_run_inv in Hrun as (w2 & groups & Hgroups & Hrun).
  apply M_bind_run_inv in Hrun as (w3 & outputs & Houtputs & Hrun).
  apply M_bind_run_inv in Hrun as (w4 & scores & Hscores & Hrun).
  apply pure_run_Ok in Hscores as [-> Hscores].
  apply mret_run_Ok in Hrun as [-> ->].
  match type of Houtputs with
  | editors.apply _ _ _ _ (fun edited_mt => model_generate_edited edited_mt ?args) _ = _ =>
      pose proof (apply_generate_edited_calls editor alpha beta device args w2)
        as Hcalls
  end.
  rewrite Houtputs in Hcalls. cbn [fst] in Hcalls.
  rewrite Hcalls, fmap_app. cbn [fmap list_fmap]. unfold call_summary at 2.
  cbn [snd egen_batch data.batch_id egen_max_new_tokens egen_max_length].
  rewrite app_assoc. f_equal.
  destruct use_references as [refs|].
  - apply mret_run_Ok in Hgroups as [-> _]. by rewrite app_nil_r.
  - apply M_bind_run_inv in Hgroups as (w5 & generated & Hgenerated & Hgroups).
    apply mret_run_Ok in Hgroups as [-> _].
    match type of Hgenerated with
    | model_generate ?mt ?args _ = _ =>
        pose proof (model_generate_calls mt args w) as Hcalls'
    end.
    rewrite Hgenerated in Hcalls'. cbn [fst] in Hcalls'.
    rewrite Hcalls', fmap_app. reflexivity.
Qed.

Lemma essence_batches_summary editor alpha beta batch_size prompt_template
    max_new_tokens max_length use_references tfidf_vectorizer device
    past_key_values items lists w w' lists' :
  for_inM items
    (essence_batch editor alpha beta batch_size prompt_template max_new_tokens
       max_length use_references tfidf_vectorizer device past_key_values) lists w
  = (w', Ok lists') →
  call_summary <$> calls w'
  = (call_summary <$> calls w)
    ++ concat
         ((fun item : nat * list data.ContextMediationSample =>
             match use_references with
             | None => [Generation max_new_tokens max_length]
             | Some _ => []
             end
             ++ [EditedGeneration (data.id <$> item.2) max_new_tokens max_length])
            <$> items).
Proof.
  revert lists w. induction items as [|item items IH]; intros lists w Hrun.
  - apply mret_run_Ok in Hrun as [-> ->]. cbn. by rewrite app_nil_r.
  - cbn [for_inM] in Hrun.
    apply M_bind_run_inv in Hrun as (w1 & lists1 & Hbatch & Hrun).
    apply essence_batch_summary in Hbatch. apply IH in Hrun.
    rewrite Hrun, Hbatch. cbn [fmap list_fmap concat].
    by rewrite <- !app_assoc.
Qed.

(** The computations of a run of [essence] that returns: the forward pass
    over the prompt prefix, if there is one, and then for every batch the
    generation of the references, if none were supplied, and the edited
    generation, each with [max_new_tokens] as passed and the effective
    [max_length]. *)
Lemma essence_summary editor dataset alpha beta batch_size prompt_prefix
    prompt_template max_new_tokens max_length use_references tfidf_vectorizer
    desc device w w' r :
  essence editor dataset alpha beta batch_size prompt_prefix prompt_template
    max_new_tokens max_length use_references tfidf_vectorizer desc device w
  = (w', Ok r) →
  call_summary <$> calls w'
  = (call_summary <$> calls w)
    ++ match prompt_prefix with Some _ => [ForwardPass] | None => [] end
    ++ concat
         ((fun batch : list data.ContextMediationSample =>
             match use_references with
             | None =>
                 [Generation max_new_tokens
                    (effective_max_length max_new_tokens max_length)]
             | Some _ => []
             end
             ++ [EditedGeneration (data.id <$> batch) max_new_tokens
                   (effective_max_length max_new_tokens max_length)])
            <$> chunks (Z.to_nat batch_size) dataset).
Proof.
  unfold essence. intros Hrun.
  apply M_bind_run_inv in Hrun as (w0 & [] & Hvalid & Hrun).
  apply pure_run_Ok in Hvalid as [-> Hvalid].
  unfold essence_run in Hrun. cbv zeta in Hrun.
  replace (if bool_decide (max_length = None) && bool_decide (max_new_tokens = None)
           then Some DEFAULT_MAX_LENGTH else max_length)
    with (effective_max_length max_new_tokens max_length) in Hrun
    by (by destruct max_length, max_new_tokens).
  apply M_bind_run_inv in Hrun as (w1 & vectorizer & Hvectorizer & Hrun).
  assert (w1 = w) as ->.
  { destruct tfidf_vectorizer.
    - by apply mret_run_Ok in Hvectorizer as [-> _].
    - by apply pure_run_Ok in Hvectorizer as [-> _]. }
  apply M_bind_run_inv in Hrun as (w2 & past_key_values & Hprefix & Hrun).
  assert (call_summary <$> calls w2
          = (call_summary <$> calls w)
            ++ match prompt_prefix with Some _ => [ForwardPass] | None => [] end)
    as Hcalls.
  { destruct prompt_prefix as [prefix|].
    - apply M_bind_run_inv in Hprefix as (w3 & kvs & Hforward & Hprefix).
      apply mret_run_Ok in Hprefix as [-> _].
      unfold model_forward in Hforward. injection Hforward as <- _.
      cbn [calls]. by rewrite fmap_app.
    - apply mret_run_Ok in Hprefix as [-> _]. by rewrite app_nil_r. }
  apply M_bind_run_inv in Hrun as (w3 & loader & Hloader & Hrun).
  apply pure_run_Ok in Hloader as [-> Hloader].
  unfold DataLoader in Hloader.
  destruct (batch_size <=? 0); [discriminate|].
  injection Hloader as <-.
  apply M_bind_run_inv in Hrun as (w4 & lists & Hloop & Hrun).
  apply M_bind_run_inv in Hrun as (w5 & m1 & Hm1 & Hrun).
  apply pure_run_Ok in Hm1 as [-> _].
  apply M_bind_run_inv in Hrun as (w5 & m2 & Hm2 & Hrun).
  apply pure_run_Ok in Hm2 as [-> _].
  apply M_bind_run_inv in Hrun as (w5 & m3 & Hm3 & Hrun).
  apply pure_run_Ok in Hm3 as [-> _].
  apply mret_run_Ok in Hrun as [-> _].
  apply essence_batches_summary in Hloop.
  rewrite Hloop, Hcalls, <- app_assoc. do 2 f_equal.
  unfold enumerate. rewrite fmap_imap.
  rewrite (imap_ext _
             (const (fun batch : list data.ContextMediationSample =>
                       match use_references with
                       | None =>
                           [Generation max_new_tokens
                              (effective_max_length max_new_tokens max_length)]
                       | Some _ => []
                       end
                       ++ [EditedGeneration (data.id <$> batch) max_new_tokens
                             (effective_max_length max_new_tokens max_length)])) _)
    by done.
  by rewrite imap_const.
Qed.

(** C8: the cap on the length that [essence] passes to generation is the
    fallback [DEFAULT_MAX_LENGTH = 100] when both [max_length] and
    [max_new_tokens] are [None], and [max_length] as it was passed
    otherwise.  Every generation call that [essence] adds to the trace,
    whether it returns or raises, is given [max_new_tokens] as it was passed
    and this cap; and a run that returns has made, after the forward pass
    over the prompt prefix if there is one, for every batch of the dataset
    in order the generation of the references, unless they were supplied,
    and the edited generation on the batch, each with these two caps. *)
Theorem essence_generation_caps
    (editor : Editor) (dataset : data.Dataset) (alpha beta : float)
    (batch_size : Z) (prompt_prefix : option string) (prompt_template : string)
    (max_new_tokens max_length : option Z)
    (use_references : option (list (list string)))
    (tfidf_vectorizer : option metrics.Vectorizer) (desc : option string)
    (device : option Device) (w : World) :
  let run :=
    essence editor dataset alpha beta batch_size prompt_prefix prompt_template
      max_new_tokens max_length use_references tfidf_vectorizer desc device w in
  let cap := effective_max_length max_new_tokens max_length in
  DEFAULT_MAX_LENGTH = 100
  ∧ cap = match max_length, max_new_tokens with
          | None, None => Some 100
          | _, _ => max_length
          end
  ∧ ∃ new,
      calls run.1 = calls w ++ new
      ∧ Forall (capped max_new_tokens cap) new
      ∧ (∀ r, run.2 = Ok r →
           call_summary <$> new
           = match prompt_prefix with Some _ => [ForwardPass] | None => [] end
             ++ concat
                  ((fun batch : list data.ContextMediationSample =>
                      match use_references with
                      | None => [Generation max_new_tokens cap]
                      | Some _ => []
                      end
                      ++ [EditedGeneration (data.id <$> batch) max_new_tokens cap])
                     <$> chunks (Z.to_nat batch_size) dataset)).
Proof.
  intros run cap.
  destruct (keeps_essence (active_edits w) editor dataset alpha beta batch_size
              prompt_prefix prompt_template max_new_tokens max_length
              use_references tfidf_vectorizer desc device w eq_refl)
    as (_ & new & Hcalls & Hnew).
  fold run in Hcalls.
  split; [reflexivity|]. split; [reflexivity|].
  exists new. split; [assumption|]. split.
  - eapply Forall_impl; [exact Hnew|]. by intros entry [_ Hcapped].
  - intros r Hreturns.
    assert (run = (run.1, Ok r)) as Hrun
      by (rewrite <- Hreturns; by destruct run).
    apply essence_summary in Hrun.
    rewrite Hcalls, fmap_app in Hrun.
    by apply app_inv_head in Hrun.
Qed.

End essence_caps.

(** Three samples in batches of two.  Without caps, every generation call
    is given the fallback length of 100 and no cap on new tokens; with
    [max_new_tokens = 5] and references supplied, the edited generation
    calls, the only ones there are, are given that cap and no length. *)
Lemma essence_generation_caps_witness :
  (let run :=
     @benchmarks.essence _ _ fixtures.text_model fixtures.unit_metrics
       tt [fixtures.sample_1; fixtures.sample_3; fixtures.sample_1] 1 0 2
       (Some "The") "{} is" None None None None None None fixtures.fresh_model in
   (∃ r, run.2 = Ok r)
   ∧ models.call_summary <$> models.calls run.1
     = [ models.ForwardPass;
         models.Generation None (Some 100);
         models.EditedGeneration ["1"; "3"] None (Some 100);
         models.Generation None (Some 100);
         models.EditedGeneration ["1"] None (Some 100) ])
  ∧ (let run :=
       @benchmarks.essence _ _ fixtures.text_model fixtures.unit_metrics
         tt [fixtures.sample_1; fixtures.sample_3; fixtures.sample_1] 1 0 2
         None "{} is" (Some 5) None (Some [["a"]; ["b"]; ["c"]]) None None None
         fixtures.fresh_model in
     (∃ r, run.2 = Ok r)
     ∧ models.call_summary <$> models.calls run.1
       = [ models.EditedGeneration ["1"; "3"] (Some 5) None;
           models.EditedGeneration ["1"] (Some 5) None ]).
Proof.
  split.
  - intros run.
    assert (∃ r, run.2 = Ok r) as [r Hreturns]
      by (vm_compute; eexists; reflexivity).
    split; [by exists r|].
    destruct (@essence_generation_caps _ _ fixtures.text_model
                fixtures.unit_metrics tt
                [fixtures.sample_1; fixtures.sample_3; fixtures.sample_1]
                1%float 0%float 2 (Some "The") "{} is" None None None None None
                None fixtures.fresh_model)
      as (_ & _ & new & Hcalls & _ & Hsummary).
    fold run in Hcalls, Hsummary.
    rewrite Hcalls. cbn [models.calls fixtures.fresh_model app].
    rewrite (Hsummary r Hreturns). reflexivity.
  - intros run.
    assert (∃ r, run.2 = Ok r) as [r Hreturns]
      by (vm_compute; eexists; reflexivity).
    split; [by exists r|].
    destruct (@essence_generation_caps _ _ fixtures.text_model
                fixtures.unit_metrics tt
                [fixtures.sample_1; fixtures.sample_3; fixtures.sample_1]
                1%float 0%float 2 None "{} is" (Some 5) None
                (Some [["a"]; ["b"]; ["c"]]) None None None fixtures.fresh_model)
      as (_ & _ & new & Hcalls & _ & Hsummary).
    fold run in Hcalls, Hsummary.
    rewrite Hcalls. cbn [models.calls fixtures.fresh_model app].
    rewrite (Hsummary r Hreturns). reflexivity.
Defined.
